(** * Classroom-check scheduling: the two assignment scripts

    A shallow embedding of [Classroom_shift_assignment_script.py] (single
    week) and [Two_Week_assignment.py] (two weeks), and the properties the
    specification states about them.

    Conventions of the embedding.
    - A pandas [Timestamp] is its count of nanoseconds since the epoch, a [Z];
      a column that went through [pd.to_datetime(..., errors='coerce')] holds
      [option Z], with [None] for [NaT].
    - A column that may hold [NaN] where a string is expected is an
      [option string].
    - Python floats that hold minutes are exact rationals ([Q]).
    - Room names, zones and days are strings: a row of [rooms.csv] without
      a room name is outside the model, and timestamps carry no time zone.
    - A [DataFrame] is the list of its rows, a Python [set] a [gset], the
      [defaultdict] of the schedule a [gmap].
    - [numpy]'s default [argsort] (quicksort, not stable) is a parameter of
      the development, known only through its contract; a stable insertion
      sort is the instance used to run the scripts on concrete tables. *)

From Stdlib Require Import ZArith QArith Qround Lia Lqa.
From Stdlib Require Import Ascii OrderedTypeEx.
From stdpp Require Import gmap strings list sorting.

Local Open Scope Z_scope.
Set Warnings "-clear-no-such-hyp".

(** ** Three-way comparisons and lexicographic keys *)

Section Comparisons.

(** A three-way comparison whose [Eq] is equality of the keys. *)
Record cmp_ok {K : Type} (cmp : K → K → comparison) : Prop := {
  cmp_ok_antisym : ∀ a b, cmp a b = CompOpp (cmp b a);
  cmp_ok_eq : ∀ a b, cmp a b = Eq → a = b;
  cmp_ok_trans : ∀ a b c, cmp a b = Lt → cmp b c = Lt → cmp a c = Lt
}.

Definition lex (c1 c2 : comparison) : comparison :=
  match c1 with Eq => c2 | _ => c1 end.

Definition cmp_pair {K1 K2} (cmp1 : K1 → K1 → comparison)
    (cmp2 : K2 → K2 → comparison) (a b : K1 * K2) : comparison :=
  lex (cmp1 a.1 b.1) (cmp2 a.2 b.2).

(** [NaN] sorts last ([na_position='last']). *)
Definition cmp_nan_last {K} (cmp : K → K → comparison)
    (a b : option K) : comparison :=
  match a, b with
  | Some x, Some y => cmp x y
  | Some _, None => Lt
  | None, Some _ => Gt
  | None, None => Eq
  end.

Definition leb_of {K} (cmp : K → K → comparison) (a b : K) : bool :=
  match cmp a b with Gt => false | _ => true end.

Lemma cmp_ok_refl {K} (cmp : K → K → comparison) :
  cmp_ok cmp → ∀ a, cmp a a = Eq.
Proof.
  intros Hc a. pose proof (cmp_ok_antisym _ Hc a a) as E.
  destruct (cmp a a); simpl in E; congruence.
Qed.

Lemma cmp_pair_ok {K1 K2} (cmp1 : K1 → K1 → comparison)
    (cmp2 : K2 → K2 → comparison) :
  cmp_ok cmp1 → cmp_ok cmp2 → cmp_ok (cmp_pair cmp1 cmp2).
Proof.
  intros H1 H2. split.
  - intros [a1 a2] [b1 b2]. unfold cmp_pair; simpl.
    rewrite (cmp_ok_antisym _ H1 a1 b1), (cmp_ok_antisym _ H2 a2 b2).
    destruct (cmp1 b1 a1); reflexivity.
  - intros [a1 a2] [b1 b2]. unfold cmp_pair; simpl.
    destruct (cmp1 a1 b1) eqn:E1; simpl; try discriminate.
    intros E2. f_equal; [by apply (cmp_ok_eq _ H1) | by apply (cmp_ok_eq _ H2)].
  - intros [a1 a2] [b1 b2] [c1 c2]. unfold cmp_pair; simpl.
    destruct (cmp1 a1 b1) eqn:E1; simpl; try discriminate;
      destruct (cmp1 b1 c1) eqn:E2; simpl; try discriminate; intros Ha Hb.
    + apply (cmp_ok_eq _ H1) in E1, E2. subst.
      rewrite (cmp_ok_refl _ H1). simpl. by eapply (cmp_ok_trans _ H2).
    + apply (cmp_ok_eq _ H1) in E1. subst. by rewrite E2.
    + apply (cmp_ok_eq _ H1) in E2. subst. by rewrite E1.
    + by rewrite (cmp_ok_trans _ H1 _ _ _ E1 E2).
Qed.

Lemma cmp_nan_last_ok {K} (cmp : K → K → comparison) :
  cmp_ok cmp → cmp_ok (cmp_nan_last cmp).
Proof.
  intros Hc. split.
  - intros [a|] [b|]; simpl; try reflexivity. apply (cmp_ok_antisym _ Hc).
  - intros [a|] [b|]; simpl; try discriminate; try reflexivity.
    intros E. f_equal. by apply (cmp_ok_eq _ Hc).
  - intros [a|] [b|] [c|]; simpl; try discriminate; try reflexivity.
    apply (cmp_ok_trans _ Hc).
Qed.

Lemma Z_compare_ok : cmp_ok Z.compare.
Proof.
  split.
  - intros a b. apply Z.compare_antisym.
  - intros a b. apply Z.compare_eq.
  - intros a b c. rewrite !Z.compare_lt_iff. lia.
Qed.

Lemma string_compare_ok : cmp_ok String.compare.
Proof.
  split.
  - apply String.compare_antisym.
  - apply String.compare_eq_iff.
  - intros a b c Hab Hbc.
    apply String_as_OT.cmp_lt in Hab, Hbc. apply String_as_OT.cmp_lt.
    by eapply String_as_OT.lt_trans.
Qed.

Lemma leb_of_total {K} (cmp : K → K → comparison) :
  cmp_ok cmp → ∀ a b, leb_of cmp a b = true ∨ leb_of cmp b a = true.
Proof.
  intros Hc a b. unfold leb_of. rewrite (cmp_ok_antisym _ Hc a b).
  destruct (cmp b a); simpl; auto.
Qed.

Lemma leb_of_trans {K} (cmp : K → K → comparison) :
  cmp_ok cmp → ∀ a b c,
    leb_of cmp a b = true → leb_of cmp b c = true → leb_of cmp a c = true.
Proof.
  intros Hc a b c. unfold leb_of.
  destruct (cmp a b) eqn:E1; try discriminate;
    destruct (cmp b c) eqn:E2; try discriminate; intros _ _.
  - apply (cmp_ok_eq _ Hc) in E1, E2. subst. by rewrite (cmp_ok_refl _ Hc).
  - apply (cmp_ok_eq _ Hc) in E1. subst. by rewrite E2.
  - apply (cmp_ok_eq _ Hc) in E2. subst. by rewrite E1.
  - by rewrite (cmp_ok_trans _ Hc _ _ _ E1 E2).
Qed.

End Comparisons.

(** ** A stable sort, for the sorts pandas performs stably *)

Section StableSort.
Context {A : Type} (le : A → A → bool).

(** [x] goes before the first element it is not greater than, so rows
    that compare equal keep their order. *)
Fixpoint insert_sorted (x : A) (l : list A) : list A :=
  match l with
  | [] => [x]
  | y :: l' => if le x y then x :: l else y :: insert_sorted x l'
  end.

Fixpoint stable_sort (l : list A) : list A :=
  match l with
  | [] => []
  | x :: l' => insert_sorted x (stable_sort l')
  end.

Lemma insert_sorted_perm x l : insert_sorted x l ≡ₚ x :: l.
Proof.
  induction l as [|y l IH]; simpl; [done|].
  destruct (le x y); [done|]. rewrite IH. apply Permutation_swap.
Qed.

Lemma stable_sort_perm l : stable_sort l ≡ₚ l.
Proof.
  induction l as [|x l IH]; simpl; [done|].
  by rewrite insert_sorted_perm, IH.
Qed.

Hypothesis le_total : ∀ a b, le a b = true ∨ le b a = true.
Hypothesis le_trans : ∀ a b c, le a b = true → le b c = true → le a c = true.

Lemma insert_sorted_sorted x l :
  StronglySorted (λ a b, le a b = true) l →
  StronglySorted (λ a b, le a b = true) (insert_sorted x l).
Proof.
  induction 1 as [|y l Hs IH Hy]; simpl.
  - repeat constructor.
  - destruct (le x y) eqn:E.
    + constructor; [by constructor|].
      constructor; [done|].
      eapply Forall_impl; [exact Hy|]. intros z Hz. by eapply le_trans.
    + constructor; [done|].
      rewrite insert_sorted_perm. constructor; [|done].
      destruct (le_total x y); congruence.
Qed.

Lemma stable_sort_sorted l :
  StronglySorted (λ a b, le a b = true) (stable_sort l).
Proof.
  induction l; simpl; [constructor | by apply insert_sorted_sorted].
Qed.

End StableSort.

(** ** Sorting a table on one integer column

    [DataFrame.sort_values(by=col)] and [Series.sort_values()] reorder the
    rows by [numpy.argsort] of the column with the default [kind]
    (quicksort).  The order it gives to equal keys is not specified, so the
    development only assumes what [argsort] guarantees. *)

Class Argsort := {
  argsort : list Z → list nat;
  argsort_perm : ∀ ks, argsort ks ≡ₚ seq 0 (length ks);
  argsort_sorted : ∀ ks,
    StronglySorted Z.le ((λ i, default 0 (ks !! i)) <$> argsort ks)
}.

Section SortValues.
Context `{Argsort} {A : Type}.

(** [df.iloc[indexer]] *)
Definition take_rows (df : list A) (indexer : list nat) : list A :=
  omap (λ i, df !! i) indexer.

(** [df.sort_values(by=key)] *)
Definition sort_values (key : A → Z) (df : list A) : list A :=
  take_rows df (argsort (key <$> df)).

(** [sort_values(ascending=False)]: pandas reverses the rows, sorts
    ascending and reverses the result. *)
Definition sort_values_desc (key : A → Z) (df : list A) : list A :=
  reverse (sort_values key (reverse df)).

Lemma take_rows_seq (df : list A) : take_rows df (seq 0 (length df)) = df.
Proof.
  unfold take_rows. induction df as [|x df IH] using rev_ind; [done|].
  rewrite length_app, seq_app. simpl. rewrite omap_app. simpl.
  rewrite list_lookup_middle by done. simpl. f_equal.
  rewrite <- IH at 2. apply list_omap_ext.
  apply Forall2_same_length_lookup_2; [done|].
  intros i a b Ha Hb. assert (a = b) as -> by congruence.
  apply lookup_seq in Hb as [-> Hlt]. simpl.
  by rewrite lookup_app_l.
Qed.

Lemma take_rows_perm (df : list A) indexer :
  indexer ≡ₚ seq 0 (length df) → take_rows df indexer ≡ₚ df.
Proof.
  intros Hp. rewrite <- (take_rows_seq df) at 2.
  unfold take_rows. by rewrite Hp.
Qed.

Lemma take_rows_fmap (key : A → Z) (df : list A) indexer :
  Forall (λ i, (i < length df)%nat) indexer →
  key <$> take_rows df indexer
  = (λ i, default 0 ((key <$> df) !! i)) <$> indexer.
Proof.
  unfold take_rows. induction 1 as [|i l Hi Hl IH]; [done|].
  apply lookup_lt_is_Some in Hi as [x Hx]. csimpl.
  rewrite list_lookup_fmap, Hx. csimpl. by f_equal.
Qed.

Lemma sort_values_perm key (df : list A) : sort_values key df ≡ₚ df.
Proof.
  apply take_rows_perm. rewrite argsort_perm. by rewrite length_fmap.
Qed.

Lemma sort_values_sorted key (df : list A) :
  StronglySorted (λ a b, key a ≤ key b) (sort_values key df).
Proof.
  assert (StronglySorted Z.le (key <$> sort_values key df)) as Hs.
  { unfold sort_values. rewrite take_rows_fmap.
    - apply argsort_sorted.
    - apply Forall_forall. intros i Hi.
      rewrite argsort_perm in Hi. apply elem_of_seq in Hi.
      rewrite length_fmap in Hi. lia. }
  revert Hs. generalize (sort_values key df). intros l.
  induction l as [|x l IH]; intros Hs; [constructor|].
  rewrite fmap_cons in Hs. apply StronglySorted_inv in Hs as [Hs Hx].
  constructor; [by apply IH|]. by rewrite Forall_fmap in Hx.
Qed.

Lemma sort_values_desc_perm key (df : list A) :
  sort_values_desc key df ≡ₚ df.
Proof.
  unfold sort_values_desc.
  by rewrite reverse_Permutation, sort_values_perm, reverse_Permutation.
Qed.

Lemma sort_values_desc_sorted key (df : list A) :
  StronglySorted (λ a b, key b ≤ key a) (sort_values_desc key df).
Proof.
  unfold sort_values_desc.
  generalize (sort_values_sorted key (reverse df)).
  generalize (sort_values key (reverse df)). intros l.
  induction 1 as [|x l Hs IH Hx]; [constructor|].
  rewrite reverse_cons. apply StronglySorted_app_2; [|done|repeat constructor].
  intros a b Ha Hb. apply list_elem_of_singleton in Hb as ->.
  rewrite Forall_forall in Hx. apply Hx. by apply elem_of_reverse.
Qed.

End SortValues.

(** The stable instance: an insertion sort of the keys paired with their
    positions. *)
Definition insertion_argsort (ks : list Z) : list nat :=
  snd <$> stable_sort (λ a b : Z * nat, a.1 <=? b.1)
            (imap (λ i k, (k, i)) ks).

Lemma insertion_argsort_perm ks :
  insertion_argsort ks ≡ₚ seq 0 (length ks).
Proof.
  unfold insertion_argsort. rewrite stable_sort_perm.
  rewrite fmap_imap, (imap_ext _ (λ j _, id j)) by done.
  by rewrite imap_seq_0, list_fmap_id.
Qed.

Lemma insertion_argsort_sorted ks :
  StronglySorted Z.le
    ((λ i, default 0 (ks !! i)) <$> insertion_argsort ks).
Proof.
  unfold insertion_argsort.
  set (le := λ a b : Z * nat, a.1 <=? b.1).
  assert (Forall (λ p : Z * nat, ks !! p.2 = Some p.1)
            (stable_sort le (imap (λ i k, (k, i)) ks))) as Hin.
  { apply Forall_forall. intros p Hp. rewrite stable_sort_perm in Hp.
    apply elem_of_lookup_imap in Hp as (i & k & -> & Hk). done. }
  assert (StronglySorted (λ a b, le a b = true)
            (stable_sort le (imap (λ i k, (k, i)) ks))) as Hs.
  { apply stable_sort_sorted; unfold le.
    - intros a b. rewrite !Z.leb_le. lia.
    - intros a b c. rewrite !Z.leb_le. lia. }
  revert Hin Hs. generalize (stable_sort le (imap (λ i k, (k, i)) ks)).
  intros l Hin Hs. induction Hs as [|p l Hs IH Hp]; [constructor|].
  apply Forall_cons in Hin as [Hp1 Hin]. rewrite !fmap_cons.
  constructor; [by apply IH|].
  rewrite !Forall_fmap. apply Forall_forall. intros q Hq. simpl.
  rewrite Forall_forall in Hp, Hin. rewrite Hp1, (Hin q Hq). simpl.
  apply Z.leb_le. by apply Hp.
Qed.

Definition stable_argsort : Argsort :=
  {| argsort := insertion_argsort;
     argsort_perm := insertion_argsort_perm;
     argsort_sorted := insertion_argsort_sorted |}.

(** ** Strings, as the cleaning steps use them *)

(** The ASCII characters [str.strip()] removes. *)
Definition is_space (c : ascii) : bool :=
  let n := nat_of_ascii c in
  ((9 <=? n) && (n <=? 13) || (28 <=? n) && (n <=? 32))%nat.

Definition is_upper (c : ascii) : bool :=
  let n := nat_of_ascii c in ((65 <=? n) && (n <=? 90))%nat.

Fixpoint drop_spaces (l : list ascii) : list ascii :=
  match l with
  | c :: l' => if is_space c then drop_spaces l' else l
  | [] => []
  end.

(** [s.strip()] *)
Definition str_strip (s : string) : string :=
  String.string_of_list_ascii
    (reverse (drop_spaces (reverse (drop_spaces (String.list_ascii_of_string s))))).

(** [s.split(',')]: the pieces between the commas, never an empty list. *)
Fixpoint split_commas (cur : list ascii) (l : list ascii) : list string :=
  match l with
  | [] => [String.string_of_list_ascii (reverse cur)]
  | c :: l' =>
      if Ascii.eqb c ","%char
      then String.string_of_list_ascii (reverse cur) :: split_commas [] l'
      else split_commas (c :: cur) l'
  end.

Definition str_split_comma (s : string) : list string :=
  split_commas [] (String.list_ascii_of_string s).

Fixpoint take_upper (l : list ascii) : list ascii :=
  match l with
  | c :: l' => if is_upper c then c :: take_upper l' else []
  | [] => []
  end.

(** [str.extract(r'^([A-Z]+)')]: the leading capitals, [NaN] when there are
    none. *)
Definition extract_building (s : string) : option string :=
  match take_upper (String.list_ascii_of_string s) with
  | [] => None
  | l => Some (String.string_of_list_ascii l)
  end.

Definition digit (n : Z) : ascii := ascii_of_nat (48 + Z.to_nat n).

Definition two_digits (n : Z) : string :=
  String (digit (n / 10)) (String (digit (n mod 10)) EmptyString).

(** [ts.strftime("%H:%M")] *)
Definition strftime_HM (ts : Z) : string :=
  let secs := ts / 1000000000 in
  two_digits ((secs / 3600) mod 24) +:+ ":" +:+ two_digits ((secs / 60) mod 60).

(** [ts.isocalendar().week]: the week of the ISO year that holds the
    Thursday of the timestamp's week. *)
Definition year_of_days (days : Z) : Z :=
  let z := days + 719468 in
  let era := z / 146097 in
  let doe := z - era * 146097 in
  let yoe := (doe - doe / 1460 + doe / 36524 - doe / 146096) / 365 in
  let doy := doe - (365 * yoe + yoe / 4 - yoe / 100) in
  let mp := (5 * doy + 2) / 153 in
  yoe + era * 400 + (if mp <? 10 then 0 else 1).

Definition days_of_new_year (y : Z) : Z :=
  let y' := y - 1 in
  let era := y' / 400 in
  let yoe := y' - era * 400 in
  era * 146097 + (yoe * 365 + yoe / 4 - yoe / 100 + 306) - 719468.

Definition isocalendar_week (ts : Z) : Z :=
  let days := ts / 86400000000000 in
  let weekday := (days + 3) mod 7 in
  let thursday := days - weekday + 3 in
  (thursday - days_of_new_year (year_of_days thursday)) / 7 + 1.

(** ** The tables *)

(** A row of [rooms] after cleaning. *)
Record RoomRow := {
  room : string;
  building : option string;
  zone : string;
  priority : Z;
  type : string
}.

(** The cleaning of one row of [rooms.csv]: the priority is what
    [pd.to_numeric(..., errors='coerce')] made of the cell. *)
Definition clean_room (name zone_cell : string) (priority_cell : option Z)
    (type_cell : string) : RoomRow :=
  {| room := str_strip name;
     building := extract_building (str_strip name);
     zone := str_strip zone_cell;
     priority := default 5 priority_cell;
     type := type_cell |}.

(** A row of the class schedule: the two date-times are what
    [pd.to_datetime(..., errors='coerce')] made of the date and time cells,
    [None] standing for [NaT]. *)
Record ClassRow := {
  Status : string;
  day_of_week_of_first_session : string;
  Start_DateTime : option Z;
  End_DateTime : option Z;
  Locations : string
}.

Definition schedule_day_map (d : string) : option string :=
  if String.eqb d "Mon" then Some "Monday"
  else if String.eqb d "Tue" then Some "Tuesday"
  else if String.eqb d "Weds" then Some "Wednesday"
  else if String.eqb d "Thu" then Some "Thursday"
  else if String.eqb d "Fri" then Some "Friday"
  else None.

Definition student_day_map (d : string) : option string :=
  if String.eqb d "M" then Some "Monday"
  else if String.eqb d "Tu" then Some "Tuesday"
  else if String.eqb d "W" then Some "Wednesday"
  else if String.eqb d "Th" then Some "Thursday"
  else if String.eqb d "F" then Some "Friday"
  else None.

(** A row of [students] after cleaning ([weekday] is the column ['Day']). *)
Record StudentShift := {
  person : option string;
  weekday : string;
  start_dt : Z;
  end_dt : Z
}.

(** A row of [studentWorkers.csv] with its parsed times. *)
Record StudentRow := {
  raw_person : option string;
  raw_day : string;
  raw_start : option Z;
  raw_end : option Z
}.

(** [students.dropna(subset=['start_dt', 'end_dt', 'Day'])] *)
Definition clean_students (rows : list StudentRow) : list StudentShift :=
  omap (λ r,
    match raw_start r, raw_end r, student_day_map (raw_day r) with
    | Some s, Some e, Some d =>
        Some {| person := raw_person r; weekday := d;
                start_dt := s; end_dt := e |}
    | _, _, _ => None
    end) rows.

(** One record of the assignment output. *)
Record Assignment := {
  Student : option string;
  Day : string;
  Shift_Start : string;
  Shift_End : string;
  Room : string;
  Building : option string;
  Zone : string;
  Priority : Z;
  Room_Type : string
}.

(** ** The occupancy index *)

Abbreviation Interval := (option Z * option Z)%type.
Abbreviation RoomDay := (string * option string)%type.

(** [schedule[schedule['Status'] == 'Confirmed']], then one row per room
    of ['Locations'], stripped, with the mapped day and the two date-times:
    the rows [schedule.iterrows()] yields. *)
Definition explode_schedule (schedule : list ClassRow)
    : list (RoomDay * Interval) :=
  r ← filter (λ r, Status r = "Confirmed") schedule;
  (λ name, ((str_strip name, schedule_day_map (day_of_week_of_first_session r)),
            (Start_DateTime r, End_DateTime r)))
    <$> str_split_comma (Locations r).

(** [schedule_by_room_day[key].append(interval)] *)
Definition index_append (idx : gmap RoomDay (list Interval))
    (row : RoomDay * Interval) : gmap RoomDay (list Interval) :=
  <[row.1 := default [] (idx !! row.1) ++ [row.2]]> idx.

Definition schedule_by_room_day (schedule : list ClassRow)
    : gmap RoomDay (list Interval) :=
  foldl index_append ∅ (explode_schedule schedule).

(** [start < shift_end and end > shift_start]; a comparison with [NaT] is
    false. *)
Definition overlaps (shift_start shift_end : Z) (iv : Interval) : bool :=
  match iv with
  | (Some start, Some end_) => (start <? shift_end) && (shift_start <? end_)
  | _ => false
  end.

(** [any(... for start, end in schedule_by_room_day.get(key, []))] *)
Definition has_conflict (idx : gmap RoomDay (list Interval))
    (room_name day : string) (shift_start shift_end : Z) : bool :=
  existsb (overlaps shift_start shift_end)
    (default [] (idx !! (room_name, Some day))).

(** ** Time budget *)

(** [Timedelta.total_seconds()] of a difference of timestamps. *)
Definition total_seconds (td : Z) : Q := td # 1000000000.

Definition SHIFT_START_END_BUFFER : Z := 0.

Definition total_shift_minutes (s : StudentShift) : Q :=
  (total_seconds (end_dt s - start_dt s) / 60)%Q.

Definition usable_time (s : StudentShift) : Q :=
  (total_shift_minutes s - inject_Z SHIFT_START_END_BUFFER)%Q.

(** ** What the two scripts share *)

#[global] Instance RoomRow_eq_dec : EqDecision RoomRow.
Proof. solve_decision. Defined.

#[global] Instance Assignment_eq_dec : EqDecision Assignment.
Proof. solve_decision. Defined.

(** [drop_duplicates()]: the first of equal rows is the one kept. *)
Definition drop_duplicates {A} `{EqDecision A} (l : list A) : list A :=
  reverse (remove_dups (reverse l)).

(** The keys of [groupby(col)] with the default [sort=True]. *)
Definition groupby_keys (col : list string) : list string :=
  stable_sort String.leb (drop_duplicates col).

(** The sort key of [sort_values(by=['priority', 'building', 'room'])]. *)
Definition room_key (r : RoomRow) : Z * (option string * string) :=
  (priority r, (building r, room r)).

Definition cmp_room_key :=
  cmp_pair Z.compare (cmp_pair (cmp_nan_last String.compare) String.compare).

Definition room_leb (r1 r2 : RoomRow) : bool :=
  leb_of cmp_room_key (room_key r1) (room_key r2).

(** The record appended to the assignment list. *)
Definition assignment_of (student : StudentShift) (room_row : RoomRow)
    : Assignment :=
  {| Student := person student;
     Day := weekday student;
     Shift_Start := strftime_HM (start_dt student);
     Shift_End := strftime_HM (end_dt student);
     Room := room room_row;
     Building := building room_row;
     Zone := zone room_row;
     Priority := priority room_row;
     Room_Type := type room_row |}.

Section ZoneScores.
Context `{Argsort}.

(** [rooms[(rooms['zone'] == z) & (~rooms['room'].isin(assigned))]] *)
Definition zone_available (rooms : list RoomRow) (assigned : gset string)
    (z : string) : list RoomRow :=
  filter (λ r, zone r = z ∧ room r ∉ assigned) rooms.

(** The series [zone_scores]: per zone of the rooms not yet assigned, the
    number of those rooms with priority at most 2, highest score first. *)
Definition zone_scores (rooms : list RoomRow) (assigned : gset string)
    : list (string * Z) :=
  let remaining := filter (λ r, room r ∉ assigned) rooms in
  sort_values_desc snd
    ((λ z, (z, Z.of_nat (length
              (filter (λ r, zone r = z ∧ priority r ≤ 2) remaining))))
       <$> groupby_keys (zone <$> remaining)).
End ZoneScores.

(** ** The single-week script *)

Module SingleWeek.

Definition ROOM_CHECK_TIME : Z := 10.

Record State := {
  assignments : list Assignment;
  rooms_assigned : gset string;
  room_week_assigned : gset (string * Z)
}.

Definition initial : State :=
  {| assignments := []; rooms_assigned := ∅; room_week_assigned := ∅ |}.

(** The three updates after a room is assigned (the shift's own
    [assigned_rooms] set is written but never read, and is left out). *)
Definition assign (st : State) (student : StudentShift) (week_num : Z)
    (room_row : RoomRow) : State :=
  {| assignments := assignments st ++ [assignment_of student room_row];
     rooms_assigned := rooms_assigned st ∪ {[room room_row]};
     room_week_assigned :=
       room_week_assigned st ∪ {[(room room_row, week_num)]} |}.

(** [for _, room_row in zone_rooms_df.iterrows()], with [time_used] and
    the run's state threaded through.  [week_check] is [true] in the
    script; [false] gives the variant without the test on
    [room_week_assigned]. *)
Fixpoint rooms_loop (week_check : bool)
    (idx : gmap RoomDay (list Interval)) (student : StudentShift)
    (week_num : Z) (zone_rooms_df : list RoomRow) (time_used : Z)
    (st : State) : State :=
  match zone_rooms_df with
  | [] => st
  | room_row :: rest =>
      let room_name := room room_row in
      if week_check
         && bool_decide ((room_name, week_num) ∈ room_week_assigned st)
      then rooms_loop week_check idx student week_num rest time_used st
      else if has_conflict idx room_name (weekday student)
                (start_dt student) (end_dt student)
      then rooms_loop week_check idx student week_num rest time_used st
      else if Qlt_le_dec (usable_time student)
                (inject_Z (time_used + ROOM_CHECK_TIME))
      then st
      else rooms_loop week_check idx student week_num rest
             (time_used + ROOM_CHECK_TIME)
             (assign st student week_num room_row)
  end.

(** [for zone in zone_scores.index: ... zone_chosen = zone; break] *)
Fixpoint choose_zone (rooms : list RoomRow) (assigned : gset string)
    (zones : list string) : option string :=
  match zones with
  | [] => None
  | z :: rest =>
      match zone_available rooms assigned z with
      | [] => choose_zone rooms assigned rest
      | _ :: _ => Some z
      end
  end.

Section Run.
Context `{Argsort}.
Variable week_check : bool.
Variable rooms : list RoomRow.
Variable idx : gmap RoomDay (list Interval).

Definition zone_chosen (st : State) : option string :=
  choose_zone rooms (rooms_assigned st)
    (zone_scores rooms (rooms_assigned st)).*1.

Definition zone_rooms_df (st : State) (z : string) : list RoomRow :=
  sort_values priority (zone_available rooms (rooms_assigned st) z).

(** The body of [for _, student in students.iterrows()]. *)
Definition shift_body (st : State) (student : StudentShift) : State :=
  let week_num := isocalendar_week (start_dt student) in
  if Qlt_le_dec 0 (usable_time student) then
    match zone_chosen st with
    | None => st
    | Some z =>
        (* [if not zone_chosen: continue] also skips the zone [""] *)
        if String.eqb z "" then st
        else rooms_loop week_check idx student week_num
               (zone_rooms_df st z) 0 st
    end
  else st.

Definition run (students : list StudentShift) : State :=
  foldl shift_body initial students.

(** The records a shift appends, and the shifts of a run with what each
    appended. *)
Definition emitted (st : State) (student : StudentShift)
    : list Assignment :=
  drop (length (assignments st)) (assignments (shift_body st student)).

Fixpoint trace (st : State) (students : list StudentShift)
    : list (State * StudentShift * list Assignment) :=
  match students with
  | [] => []
  | s :: rest => (st, s, emitted st s) :: trace (shift_body st s) rest
  end.

(** [unchecked_df], the table written to [unchecked_classrooms2.csv]. *)
Definition unchecked_df (st : State) : list RoomRow :=
  let unchecked_rooms : gset string :=
    list_to_set (room <$> rooms) ∖ rooms_assigned st in
  stable_sort room_leb
    (drop_duplicates (filter (λ r, room r ∈ unchecked_rooms) rooms)).
End Run.

End SingleWeek.

(** ** The two-week script *)

Module TwoWeek.

Definition ROOM_CHECK_TIME : Z := 10.
Definition HALF_TIME_FACTOR : Q := 1 # 2.

(** Python's [round]: to the nearest integer, a half to the even one. *)
Definition py_round (q : Q) : Z :=
  let f := Qfloor q in
  match (q - inject_Z f ?= 1 # 2)%Q with
  | Lt => f
  | Gt => f + 1
  | Eq => if Z.even f then f else f + 1
  end.

Definition EFFECTIVE_ROOM_CHECK_TIME : Z :=
  Z.max 1 (py_round (inject_Z ROOM_CHECK_TIME * HALF_TIME_FACTOR)).

Record State := {
  assignments_base : list Assignment;
  rooms_assigned_global : gset string
}.

Definition initial : State :=
  {| assignments_base := []; rooms_assigned_global := ∅ |}.

Definition assign (st : State) (student : StudentShift)
    (room_row : RoomRow) : State :=
  {| assignments_base :=
       assignments_base st ++ [assignment_of student room_row];
     rooms_assigned_global := rooms_assigned_global st ∪ {[room room_row]} |}.

(** [for _, room_row in candidate.iterrows()] *)
Fixpoint rooms_loop (idx : gmap RoomDay (list Interval))
    (student : StudentShift) (candidate : list RoomRow) (time_used : Z)
    (used_this_shift : gset string) (st : State) : State :=
  match candidate with
  | [] => st
  | room_row :: rest =>
      let room_name := room room_row in
      if bool_decide (room_name ∈ used_this_shift)
         || bool_decide (room_name ∈ rooms_assigned_global st)
      then rooms_loop idx student rest time_used used_this_shift st
      else if has_conflict idx room_name (weekday student)
                (start_dt student) (end_dt student)
      then rooms_loop idx student rest time_used used_this_shift st
      else if Qlt_le_dec (usable_time student)
                (inject_Z (time_used + EFFECTIVE_ROOM_CHECK_TIME))
      then st
      else rooms_loop idx student rest
             (time_used + EFFECTIVE_ROOM_CHECK_TIME)
             (used_this_shift ∪ {[room_name]})
             (assign st student room_row)
  end.

(** [candidate]: the zone's unassigned rooms by priority, building, room
    (a sort on several columns is stable). *)
Definition candidate (rooms : list RoomRow) (st : State) (z : string)
    : list RoomRow :=
  stable_sort room_leb (zone_available rooms (rooms_assigned_global st) z).

(** [for zone in zone_scores.index: ...; break], returning the state and
    [zone_locked]. *)
Fixpoint zones_loop (rooms : list RoomRow)
    (idx : gmap RoomDay (list Interval)) (student : StudentShift)
    (zones : list string) (st : State) : State * option string :=
  match zones with
  | [] => (st, None)
  | z :: rest =>
      match candidate rooms st z with
      | [] => zones_loop rooms idx student rest st
      | c :: cs => (rooms_loop idx student (c :: cs) 0 ∅ st, Some z)
      end
  end.

(** [ceil(n / 2)] *)
Definition split_idx (n : nat) : nat :=
  Z.to_nat (Qceiling (inject_Z (Z.of_nat n) / 2)).

Definition relabel (a : Assignment) (d : string) : Assignment :=
  {| Student := Student a; Day := d;
     Shift_Start := Shift_Start a; Shift_End := Shift_End a;
     Room := Room a; Building := Building a; Zone := Zone a;
     Priority := Priority a; Room_Type := Room_Type a |}.

(** The group keys of [groupby(["Student", "Day"], sort=False)]: in order
    of first appearance; rows whose student is [NaN] belong to no group. *)
Definition group_keys (df : list (Assignment * Z)) : list (string * string) :=
  drop_duplicates (omap (λ row, (λ n, (n, Day row.1)) <$> Student row.1) df).

(** The sort key of the final
    [sort_values(by=["Student", "Day", "Priority", "Building", "Room"])]. *)
Definition output_key (a : Assignment) :=
  (Student a, (Day a, (Priority a, (Building a, Room a)))).

Definition cmp_output_key :=
  cmp_pair (cmp_nan_last String.compare)
    (cmp_pair String.compare
       (cmp_pair Z.compare
          (cmp_pair (cmp_nan_last String.compare) String.compare))).

Definition output_leb (a b : Assignment) : bool :=
  leb_of cmp_output_key (output_key a) (output_key b).

Section Run.
Context `{Argsort}.
Variable rooms : list RoomRow.
Variable idx : gmap RoomDay (list Interval).

Definition shift_result (st : State) (student : StudentShift)
    : State * option string :=
  if Qlt_le_dec 0 (usable_time student) then
    zones_loop rooms idx student
      (zone_scores rooms (rooms_assigned_global st)).*1 st
  else (st, None).

(** The body of [for _, student in students.iterrows()]. *)
Definition shift_body (st : State) (student : StudentShift) : State :=
  (shift_result st student).1.

Definition zone_locked (st : State) (student : StudentShift)
    : option string :=
  (shift_result st student).2.

Definition run (students : list StudentShift) : State :=
  foldl shift_body initial students.

Definition emitted (st : State) (student : StudentShift)
    : list Assignment :=
  drop (length (assignments_base st))
    (assignments_base (shift_body st student)).

Fixpoint trace (st : State) (students : list StudentShift)
    : list (State * StudentShift * list Assignment) :=
  match students with
  | [] => []
  | s :: rest => (st, s, emitted st s) :: trace (shift_body st s) rest
  end.

(** One group of the split: its rows in [_order], the first
    [split_idx] relabelled week 1 and the rest week 2. *)
Definition split_group (df : list (Assignment * Z))
    (key : string * string) : list Assignment :=
  let grp :=
    filter (λ row, Student row.1 = Some key.1 ∧ Day row.1 = key.2) df in
  let grp_sorted := sort_values snd grp in
  let n := length grp_sorted in
  let w1 := take (split_idx n) grp_sorted in
  let w2 := drop (split_idx n) grp_sorted in
  ((λ row, relabel row.1 (key.2 +:+ " 1")) <$> w1)
  ++ ((λ row, relabel row.1 (key.2 +:+ " 2")) <$> w2).

(** [df_out] before the last sort.  (When no record has a student name
    there is no group and [pd.concat] raises; the model gives the empty
    table.) *)
Definition week_split (df_base : list Assignment) : list Assignment :=
  match df_base with
  | [] => []
  | _ :: _ =>
      let df := imap (λ i a, (a, Z.of_nat i)) df_base in
      key ← group_keys df; split_group df key
  end.

(** The table written to [two_weeks_assignments.csv]. *)
Definition output (students : list StudentShift) : list Assignment :=
  stable_sort output_leb (week_split (assignments_base (run students))).
End Run.

End TwoWeek.

(** ** The scripts on the tables as read *)

(** A row of [rooms.csv]: the name, zone and type cells, and what
    [pd.to_numeric(..., errors='coerce')] made of the priority cell. *)
Record RoomCsvRow := {
  complete_25live_room_name : string;
  zone_cell : string;
  priority_cell : option Z;
  type_cell : string
}.

Definition clean_rooms (rows : list RoomCsvRow) : list RoomRow :=
  (λ r, clean_room (complete_25live_room_name r) (zone_cell r)
          (priority_cell r) (type_cell r)) <$> rows.

Section Scripts.
Context `{Argsort}.

(** [Classroom_shift_assignment_script.py]: the two tables it writes. *)
Definition single_week_script (rooms_csv : list RoomCsvRow)
    (schedule : list ClassRow) (students_csv : list StudentRow)
    : list Assignment * list RoomRow :=
  let rooms := clean_rooms rooms_csv in
  let st :=
    SingleWeek.run true rooms (schedule_by_room_day schedule)
      (clean_students students_csv) in
  (SingleWeek.assignments st, SingleWeek.unchecked_df rooms st).

(** [Two_Week_assignment.py]: the table it writes. *)
Definition two_week_script (rooms_csv : list RoomCsvRow)
    (schedule : list ClassRow) (students_csv : list StudentRow)
    : list Assignment :=
  TwoWeek.output (clean_rooms rooms_csv) (schedule_by_room_day schedule)
    (clean_students students_csv).
End Scripts.

(** ** Notions the properties are stated with *)

(** The candidates that have no class during the shift. *)
Definition free_during (idx : gmap RoomDay (list Interval))
    (student : StudentShift) (cands : list RoomRow) : list RoomRow :=
  filter (λ r, has_conflict idx (room r) (weekday student)
                 (start_dt student) (end_dt student) = false) cands.

(** The number of unassigned rooms of a zone with priority at most 2. *)
Definition high_priority_left (rooms : list RoomRow)
    (assigned : gset string) (z : string) : Z :=
  Z.of_nat (length (filter (λ r, priority r ≤ 2)
              (zone_available rooms assigned z))).

(** The list form of [str.strip()]. *)
Definition strip_list (l : list ascii) : list ascii :=
  reverse (drop_spaces (reverse (drop_spaces l))).

(** The day names a shift can carry. *)
Definition weekdays : list string :=
  ["Monday"; "Tuesday"; "Wednesday"; "Thursday"; "Friday"].

(** ** Small tables to run the scripts on *)

Module Examples.

(** Monday 2 June 2025, at the given hour and minute. *)
Definition monday_at (h m : Z) : Z :=
  (20241 * 1440 + h * 60 + m) * 60000000000.

Definition shift_of (name : string) (h1 m1 h2 m2 : Z) : StudentShift :=
  {| person := Some name; weekday := "Monday";
     start_dt := monday_at h1 m1; end_dt := monday_at h2 m2 |}.

(** Three rooms of one zone, of priorities 1, 3 and 2. *)
Definition rA1 : RoomRow := clean_room "A1" "Z" (Some 1) "Classroom".
Definition rB1 : RoomRow := clean_room "B1" "Z" (Some 3) "Classroom".
Definition rC1 : RoomRow := clean_room "C1" "Z" (Some 2) "Lab".
Definition three_rooms : list RoomRow := [rA1; rB1; rC1].

(** Two rooms of equal priority, listed against the order of their
    names. *)
Definition rB2 : RoomRow := clean_room "B2" "Z" (Some 1) "Classroom".
Definition tied_rooms : list RoomRow := [rB2; rA1].

(** A room whose zone cell holds a single space. *)
Definition rE1 : RoomRow := clean_room "E1" " " (Some 1) "Classroom".

(** The same room listed twice. *)
Definition twice_listed : list RoomRow := [rA1; rA1].

Definition shift_25 : StudentShift := shift_of "ann" 9 0 9 25.
Definition shift_10 : StudentShift := shift_of "ann" 9 0 9 10.
Definition shift_8 : StudentShift := shift_of "ann" 9 0 9 8.
Definition shift_late : StudentShift := shift_of "bob" 10 0 11 0.
Definition shift_overlapping : StudentShift := shift_of "bob" 9 30 11 0.
(** A shift whose end is before its start. *)
Definition shift_backwards : StudentShift := shift_of "cy" 11 0 9 0.

(** A confirmed class in A1 on Monday, 09:00 to 09:50. *)
Definition class_A1 : ClassRow :=
  {| Status := "Confirmed"; day_of_week_of_first_session := "Mon";
     Start_DateTime := Some (monday_at 9 0);
     End_DateTime := Some (monday_at 9 50);
     Locations := "A1" |}.

(** A confirmed class in A1 and C1 whose times did not parse. *)
Definition class_unparsed : ClassRow :=
  {| Status := "Confirmed"; day_of_week_of_first_session := "Mon";
     Start_DateTime := None; End_DateTime := None;
     Locations := "A1, C1" |}.

Definition class_cancelled : ClassRow :=
  {| Status := "Cancelled"; day_of_week_of_first_session := "Mon";
     Start_DateTime := Some (monday_at 9 0);
     End_DateTime := Some (monday_at 9 50);
     Locations := "B1" |}.

(** Five records of one student and day. *)
Definition record_of (name : string) : Assignment :=
  assignment_of shift_25 (clean_room name "Z" (Some 1) "").
Definition five_records : list Assignment :=
  record_of <$> ["R1"; "R2"; "R3"; "R4"; "R5"].

End Examples.

(** * Properties *)

(** ** The occupancy index *)

Section OccupancyIndex.

Lemma index_append_lookup idx row k :
  default [] (index_append idx row !! k)
  = default [] (idx !! k) ++ (if decide (row.1 = k) then [row.2] else []).
Proof.
  unfold index_append. destruct (decide (row.1 = k)) as [->|Hne].
  - by rewrite lookup_insert_eq.
  - rewrite lookup_insert_ne by done. by rewrite app_nil_r.
Qed.

Lemma foldl_index_append_lookup rows idx k :
  default [] (foldl index_append idx rows !! k)
  = default [] (idx !! k) ++ (snd <$> filter (λ x, x.1 = k) rows).
Proof.
  revert idx. induction rows as [|row rows IH]; intros idx; simpl.
  - by rewrite app_nil_r.
  - rewrite IH, index_append_lookup, filter_cons.
    destruct (decide (row.1 = k)); simpl; by rewrite <- ?app_assoc, ?app_nil_r.
Qed.

(** The intervals under a key are those of the exploded rows with that
    key, in the order of the rows. *)
Lemma schedule_by_room_day_lookup schedule k :
  default [] (schedule_by_room_day schedule !! k)
  = snd <$> filter (λ x, x.1 = k) (explode_schedule schedule).
Proof.
  unfold schedule_by_room_day. by rewrite foldl_index_append_lookup.
Qed.

Lemma elem_of_explode_schedule schedule k iv :
  (k, iv) ∈ explode_schedule schedule ↔
  ∃ r name, r ∈ schedule ∧ Status r = "Confirmed"
    ∧ name ∈ str_split_comma (Locations r)
    ∧ k = (str_strip name,
           schedule_day_map (day_of_week_of_first_session r))
    ∧ iv = (Start_DateTime r, End_DateTime r).
Proof.
  unfold explode_schedule. rewrite list_elem_of_bind. split.
  - intros (r & Hx & Hr). apply list_elem_of_filter in Hr as [Hc Hr].
    apply list_elem_of_fmap in Hx as (name & Hx & Hn).
    exists r, name. by simplify_eq.
  - intros (r & name & Hr & Hc & Hn & -> & ->). exists r. split.
    + apply list_elem_of_fmap. by exists name.
    + by apply list_elem_of_filter.
Qed.

Lemma elem_of_schedule_by_room_day schedule k iv :
  iv ∈ default [] (schedule_by_room_day schedule !! k) ↔
  ∃ r name, r ∈ schedule ∧ Status r = "Confirmed"
    ∧ name ∈ str_split_comma (Locations r)
    ∧ k = (str_strip name,
           schedule_day_map (day_of_week_of_first_session r))
    ∧ iv = (Start_DateTime r, End_DateTime r).
Proof.
  rewrite schedule_by_room_day_lookup, <- elem_of_explode_schedule.
  rewrite list_elem_of_fmap. split.
  - intros ([k' iv'] & -> & Hx). apply list_elem_of_filter in Hx as [Hk Hx].
    simpl in *. by subst.
  - intros Hx. exists (k, iv). split; [done|].
    by apply list_elem_of_filter.
Qed.

(** An interval with a [NaT] end never counts as a conflict. *)
Lemma overlaps_true shift_start shift_end iv :
  overlaps shift_start shift_end iv = true ↔
  ∃ a b, iv = (Some a, Some b) ∧ a < shift_end ∧ shift_start < b.
Proof.
  destruct iv as [[a|] [b|]]; simpl.
  - rewrite andb_true_iff, !Z.ltb_lt. split.
    + intros [? ?]. by exists a, b.
    + intros (a' & b' & E & ? & ?). by simplify_eq.
  - split; [done|]. by intros (? & ? & ? & _).
  - split; [done|]. by intros (? & ? & ? & _).
  - split; [done|]. by intros (? & ? & ? & _).
Qed.

Lemma has_conflict_true idx room_name day shift_start shift_end :
  has_conflict idx room_name day shift_start shift_end = true ↔
  ∃ a b, (Some a, Some b) ∈ default [] (idx !! (room_name, Some day))
    ∧ a < shift_end ∧ shift_start < b.
Proof.
  unfold has_conflict. rewrite existsb_exists. split.
  - intros (iv & Hin & Ho). apply overlaps_true in Ho as (a & b & -> & ?).
    exists a, b. by rewrite list_elem_of_In.
  - intros (a & b & Hin & ?). exists (Some a, Some b).
    rewrite <- list_elem_of_In. split; [done|].
    apply overlaps_true. by exists a, b.
Qed.

Lemma has_conflict_false idx room_name day shift_start shift_end :
  has_conflict idx room_name day shift_start shift_end = false ↔
  ∀ iv, iv ∈ default [] (idx !! (room_name, Some day)) →
    overlaps shift_start shift_end iv = false.
Proof.
  unfold has_conflict. rewrite <- not_true_iff_false, existsb_exists. split.
  - intros Hn iv Hin. apply not_true_iff_false. intros Ho. apply Hn.
    exists iv. by rewrite <- list_elem_of_In.
  - intros Ha (iv & Hin & Ho). rewrite <- list_elem_of_In in Hin.
    rewrite (Ha iv Hin) in Ho. done.
Qed.

End OccupancyIndex.

(** ** Shared facts about lists and zone scores *)

Lemma drop_duplicates_elem_of {A} `{EqDecision A} (l : list A) x :
  x ∈ drop_duplicates l ↔ x ∈ l.
Proof.
  unfold drop_duplicates.
  by rewrite elem_of_reverse, elem_of_remove_dups, elem_of_reverse.
Qed.

Lemma drop_duplicates_NoDup {A} `{EqDecision A} (l : list A) :
  NoDup (drop_duplicates l).
Proof.
  unfold drop_duplicates. rewrite reverse_Permutation. apply NoDup_remove_dups.
Qed.

Lemma elem_of_groupby_keys col z : z ∈ groupby_keys col ↔ z ∈ col.
Proof.
  unfold groupby_keys. by rewrite stable_sort_perm, drop_duplicates_elem_of.
Qed.

Lemma groupby_keys_NoDup col : NoDup (groupby_keys col).
Proof.
  unfold groupby_keys. rewrite stable_sort_perm. apply drop_duplicates_NoDup.
Qed.

Lemma fmap_fst_pair {A B} (f : A → B) (l : list A) :
  ((λ z, (z, f z)) <$> l).*1 = l.
Proof. induction l as [|x l IH]; csimpl; by f_equal. Qed.

Lemma elem_of_zone_available rooms assigned z r :
  r ∈ zone_available rooms assigned z ↔
  r ∈ rooms ∧ zone r = z ∧ room r ∉ assigned.
Proof. unfold zone_available. rewrite list_elem_of_filter. tauto. Qed.

Section ZoneScoresFacts.
Context `{Argsort}.

(** The zones of the ranking are the zones that still have a room. *)
Lemma elem_of_zone_scores_index rooms assigned z :
  z ∈ (zone_scores rooms assigned).*1 ↔
  ∃ r, r ∈ rooms ∧ zone r = z ∧ room r ∉ assigned.
Proof.
  unfold zone_scores. rewrite sort_values_desc_perm.
  rewrite fmap_fst_pair, elem_of_groupby_keys, list_elem_of_fmap.
  split.
  - intros (r & -> & Hr). apply list_elem_of_filter in Hr as [? ?]. eauto.
  - intros (r & Hr & <- & Hn). exists r. split; [done|].
    by apply list_elem_of_filter.
Qed.

Lemma zone_scores_index_NoDup rooms assigned :
  NoDup (zone_scores rooms assigned).*1.
Proof.
  unfold zone_scores. rewrite sort_values_desc_perm.
  rewrite fmap_fst_pair. apply groupby_keys_NoDup.
Qed.

(** The ranking is empty exactly when every room is assigned. *)
Lemma zone_scores_index_nil rooms assigned :
  (zone_scores rooms assigned).*1 = []
  ↔ ∀ r, r ∈ rooms → room r ∈ assigned.
Proof.
  pose proof (elem_of_zone_scores_index rooms assigned) as Hin. split.
  - intros Hnil r Hr. destruct (decide (room r ∈ assigned)) as [|Hn]; [done|].
    assert (zone r ∈ (zone_scores rooms assigned).*1) as Hz
      by (apply Hin; by exists r).
    rewrite Hnil in Hz. by apply elem_of_nil in Hz.
  - intros Hall. destruct ((zone_scores rooms assigned).*1) as [|z zones];
      [done|].
    destruct (proj1 (Hin z)) as (r & Hr & _ & Hn); [by left|].
    by specialize (Hall r Hr).
Qed.

(** The score of a ranked zone is its number of remaining rooms of
    priority at most 2. *)
Lemma zone_scores_score rooms assigned z n :
  (z, n) ∈ zone_scores rooms assigned →
  n = Z.of_nat (length (filter (λ r, priority r ≤ 2)
                   (zone_available rooms assigned z))).
Proof.
  unfold zone_scores. rewrite sort_values_desc_perm.
  intros Hin. apply list_elem_of_fmap in Hin as (z' & Heq & _).
  simplify_eq. do 2 f_equal. unfold zone_available.
  rewrite !list_filter_filter. apply list_filter_iff. tauto.
Qed.

(** The ranking is by score, highest first. *)
Lemma zone_scores_sorted rooms assigned :
  StronglySorted (λ a b, b.2 ≤ a.2) (zone_scores rooms assigned).
Proof. apply sort_values_desc_sorted. Qed.

End ZoneScoresFacts.

(** ** The single-week script: the loops *)

Module SingleWeekFacts.
Import SingleWeek.

(** The state after assigning the rooms of [picked], in order. *)
Definition assign_all (student : StudentShift) (week_num : Z)
    (st : State) (picked : list RoomRow) : State :=
  foldl (λ st r, assign st student week_num r) st picked.

Lemma assign_all_cons student week_num st r picked :
  assign_all student week_num st (r :: picked)
  = assign_all student week_num (assign st student week_num r) picked.
Proof. reflexivity. Qed.

Lemma assign_all_assignments student week_num picked st :
  assignments (assign_all student week_num st picked)
  = assignments st ++ (assignment_of student <$> picked).
Proof.
  revert st. induction picked as [|r picked IH]; intros st.
  - simpl. by rewrite app_nil_r.
  - rewrite assign_all_cons, IH. simpl. by rewrite <- app_assoc.
Qed.

Lemma assign_all_rooms_assigned student week_num picked st :
  rooms_assigned (assign_all student week_num st picked)
  = rooms_assigned st ∪ list_to_set (room <$> picked).
Proof.
  revert st. induction picked as [|r picked IH]; intros st.
  - simpl. set_solver.
  - rewrite assign_all_cons, IH. simpl. set_solver.
Qed.

Lemma assign_all_room_week_assigned student week_num picked st :
  room_week_assigned (assign_all student week_num st picked)
  = room_week_assigned st
    ∪ list_to_set ((λ r, (room r, week_num)) <$> picked).
Proof.
  revert st. induction picked as [|r picked IH]; intros st.
  - simpl. set_solver.
  - rewrite assign_all_cons, IH. simpl. set_solver.
Qed.

Section Loop.
Variable week_check : bool.
Variable idx : gmap RoomDay (list Interval).
Variable student : StudentShift.
Variable week_num : Z.

(** What one pass over the candidate rooms does: it assigns a
    subsequence [picked] of them, none of which has a class during the
    shift, within the time budget; with the week test, no room name
    twice. *)
Lemma rooms_loop_spec zone_rooms_df time_used st :
  ∃ picked,
    picked `sublist_of` zone_rooms_df
    ∧ rooms_loop week_check idx student week_num zone_rooms_df
        time_used st
      = assign_all student week_num st picked
    ∧ Forall (λ r, has_conflict idx (room r) (weekday student)
                     (start_dt student) (end_dt student) = false) picked
    ∧ ((inject_Z time_used <= usable_time student)%Q →
       (inject_Z (time_used + ROOM_CHECK_TIME * Z.of_nat (length picked))
        <= usable_time student)%Q)
    ∧ (week_check = true →
       NoDup (room <$> picked)
       ∧ ∀ r, r ∈ picked → (room r, week_num) ∉ room_week_assigned st).
Proof.
  revert time_used st.
  induction zone_rooms_df as [|room_row rest IH]; intros time_used st.
  { exists []. simpl. repeat split; try done.
    - intros Hle. by rewrite Z.mul_0_r, Z.add_0_r.
    - constructor.
    - intros r Hr. by apply elem_of_nil in Hr. }
  simpl.
  destruct (week_check
            && bool_decide ((room room_row, week_num)
                            ∈ room_week_assigned st)) eqn:Hweek.
  { destruct (IH time_used st) as (picked & Hsub & Heq & Hrest).
    exists picked. split; [by apply sublist_cons|]. by split. }
  destruct (has_conflict idx (room room_row) (weekday student)
              (start_dt student) (end_dt student)) eqn:Hconf.
  { destruct (IH time_used st) as (picked & Hsub & Heq & Hrest).
    exists picked. split; [by apply sublist_cons|]. by split. }
  destruct (Qlt_le_dec (usable_time student)
              (inject_Z (time_used + ROOM_CHECK_TIME))) as [Hlt|Hfit].
  { exists []. simpl. repeat split; try done.
    - apply sublist_nil_l.
    - intros Hle. by rewrite Z.mul_0_r, Z.add_0_r.
    - constructor.
    - intros r Hr. by apply elem_of_nil in Hr. }
  destruct (IH (time_used + ROOM_CHECK_TIME)
              (assign st student week_num room_row))
    as (picked & Hsub & Heq & Hconfs & Htime & Hdup).
  exists (room_row :: picked). split; [by apply sublist_skip|].
  split; [done|]. split; [by constructor|]. split.
  - intros _. specialize (Htime Hfit).
    replace (time_used + ROOM_CHECK_TIME
             * Z.of_nat (length (room_row :: picked)))
      with (time_used + ROOM_CHECK_TIME
            + ROOM_CHECK_TIME * Z.of_nat (length picked)); [done|].
    simpl length. lia.
  - intros ->. destruct Hdup as [Hnd Hfresh]; [done|].
    simpl in Hweek. apply bool_decide_eq_false in Hweek.
    split.
    + rewrite fmap_cons. constructor; [|done].
      intros Hin. apply list_elem_of_fmap in Hin as (r & Hr & Hin).
      apply (Hfresh r Hin). simpl. rewrite Hr. set_solver.
    + intros r Hr. apply elem_of_cons in Hr as [->|Hr]; [done|].
      specialize (Hfresh r Hr). simpl in Hfresh. set_solver.
Qed.

(** Without a duplicate name among the candidates, and with none of
    them in the week set, the week test never fires. *)
Lemma rooms_loop_week_check_redundant zone_rooms_df time_used st :
  NoDup (room <$> zone_rooms_df) →
  (∀ r, r ∈ zone_rooms_df → (room r, week_num) ∉ room_week_assigned st) →
  rooms_loop true idx student week_num zone_rooms_df time_used st
  = rooms_loop false idx student week_num zone_rooms_df time_used st.
Proof.
  revert time_used st.
  induction zone_rooms_df as [|room_row rest IH];
    intros time_used st Hnd Hfresh; [done|].
  rewrite fmap_cons in Hnd. apply NoDup_cons in Hnd as [Hhd Hnd].
  simpl. rewrite bool_decide_eq_false_2
    by (apply Hfresh; apply elem_of_cons; by left).
  assert (∀ r, r ∈ rest → (room r, week_num) ∉ room_week_assigned st)
    as Hrest by (intros r Hr; apply Hfresh, elem_of_cons; by right).
  destruct (has_conflict _ _ _ _ _); [by apply IH|].
  destruct (Qlt_le_dec _ _); [done|].
  apply IH; [done|]. intros r Hr. simpl.
  apply not_elem_of_union. split; [by apply Hrest|].
  rewrite elem_of_singleton. intros [= Heq]. apply Hhd.
  rewrite <- Heq. by apply list_elem_of_fmap_2.
Qed.

End Loop.
(** The zone loop stops at the first ranked zone that still has a room. *)
Lemma choose_zone_Some rooms assigned zones z :
  choose_zone rooms assigned zones = Some z ↔
  ∃ before after, zones = before ++ z :: after
    ∧ Forall (λ z', zone_available rooms assigned z' = []) before
    ∧ zone_available rooms assigned z ≠ [].
Proof.
  induction zones as [|z' zones IH]; simpl.
  - split; [done|]. intros (before & after & Heq & _).
    by destruct before.
  - destruct (zone_available rooms assigned z') as [|r l] eqn:Hav.
    + rewrite IH. split.
      * intros (before & after & -> & Hb & Hz).
        exists (z' :: before), after. split; [done|].
        split; [by constructor|done].
      * intros (before & after & Heq & Hb & Hz).
        destruct before as [|b before]; simplify_eq/=.
        apply Forall_cons in Hb as [_ Hb]. by exists before, after.
    + split.
      * intros [= ->]. exists [], zones. split; [done|].
        split; [constructor|]. by rewrite Hav.
      * intros (before & after & Heq & Hb & Hz).
        destruct before as [|b before]; simplify_eq/=; [done|].
        apply Forall_cons in Hb as [Hb _]. congruence.
Qed.

Lemma choose_zone_None rooms assigned zones :
  choose_zone rooms assigned zones = None ↔
  Forall (λ z, zone_available rooms assigned z = []) zones.
Proof.
  induction zones as [|z zones IH]; simpl.
  - split; [constructor|done].
  - destruct (zone_available rooms assigned z) as [|r l] eqn:Hav.
    + rewrite IH. split; [by constructor|]. by intros [_ ?]%Forall_cons.
    + split; [done|]. intros [Hz _]%Forall_cons. by rewrite Hav in Hz.
Qed.

(** The shift that assigns nothing. *)
Ltac skip_shift :=
  exists []; split; [done|]; split; [by left|]; split; [constructor|];
  split; [intros; simpl; by rewrite Z.mul_0_r|];
  split; [done|]; intros; constructor.

Section Run.
Context `{Argsort}.
Variable week_check : bool.
Variable rooms : list RoomRow.
Variable idx : gmap RoomDay (list Interval).

(** Every ranked zone has a room left, so the first one is chosen. *)
Lemma zone_chosen_head st :
  zone_chosen rooms st = head (zone_scores rooms (rooms_assigned st)).*1.
Proof.
  unfold zone_chosen.
  pose proof (elem_of_zone_scores_index rooms (rooms_assigned st)) as Hin.
  destruct ((zone_scores rooms (rooms_assigned st)).*1) as [|z zones];
    [done|].
  simpl. destruct (zone_available rooms (rooms_assigned st) z) eqn:Hav;
    [|done].
  destruct (proj1 (Hin z)) as (r & Hr); [by left|].
  apply elem_of_zone_available in Hr. rewrite Hav in Hr.
  by apply elem_of_nil in Hr.
Qed.

Lemma elem_of_zone_rooms_df st z r :
  r ∈ zone_rooms_df rooms st z ↔
  r ∈ rooms ∧ zone r = z ∧ room r ∉ rooms_assigned st.
Proof.
  unfold zone_rooms_df.
  by rewrite sort_values_perm, elem_of_zone_available.
Qed.

(** What one shift does. *)
Lemma shift_body_spec st student :
  ∃ picked,
    shift_body week_check rooms idx st student
    = assign_all student (isocalendar_week (start_dt student)) st picked
    ∧ (picked = [] ∨
       ∃ z, zone_chosen rooms st = Some z ∧ z ≠ ""
         ∧ picked `sublist_of` zone_rooms_df rooms st z)
    ∧ Forall (λ r, has_conflict idx (room r) (weekday student)
                     (start_dt student) (end_dt student) = false) picked
    ∧ ((0 <= usable_time student)%Q →
       (inject_Z (ROOM_CHECK_TIME * Z.of_nat (length picked))
        <= usable_time student)%Q)
    ∧ ((usable_time student <= 0)%Q → picked = [])
    ∧ (week_check = true → NoDup (room <$> picked)).
Proof.
  unfold shift_body.
  destruct (Qlt_le_dec 0 (usable_time student)) as [Hpos|Hneg].
  - destruct (zone_chosen rooms st) as [z|] eqn:Hz.
    + destruct (String.eqb_spec z "") as [->|Hne].
      * skip_shift.
      * destruct (rooms_loop_spec week_check idx student
                    (isocalendar_week (start_dt student))
                    (zone_rooms_df rooms st z) 0 st)
          as (picked & Hsub & Heq & Hconf & Htime & Hdup).
        exists picked. split; [done|]. split; [right; by exists z|].
        split; [done|]. split; [|split].
        -- intros _. rewrite Z.add_0_l in Htime. apply Htime.
           by apply Qlt_le_weak.
        -- intros Hle. exfalso. by apply (Qlt_not_le _ _ Hpos).
        -- intros Hw. by apply Hdup.
    + skip_shift.
  - skip_shift.
Qed.

(** The rooms a shift picks are unassigned rooms of the inventory, all
    of the chosen zone. *)
Lemma picked_in_zone st z picked r :
  picked `sublist_of` zone_rooms_df rooms st z → r ∈ picked →
  r ∈ rooms ∧ zone r = z ∧ room r ∉ rooms_assigned st.
Proof.
  intros Hsub Hr. apply elem_of_zone_rooms_df.
  by apply (sublist_subseteq _ _ Hsub).
Qed.

Lemma emitted_spec st student :
  ∃ picked,
    emitted week_check rooms idx st student
    = assignment_of student <$> picked
    ∧ shift_body week_check rooms idx st student
      = assign_all student (isocalendar_week (start_dt student)) st picked
    ∧ (picked = [] ∨
       ∃ z, zone_chosen rooms st = Some z ∧ z ≠ ""
         ∧ picked `sublist_of` zone_rooms_df rooms st z)
    ∧ Forall (λ r, has_conflict idx (room r) (weekday student)
                     (start_dt student) (end_dt student) = false) picked
    ∧ ((0 <= usable_time student)%Q →
       (inject_Z (ROOM_CHECK_TIME * Z.of_nat (length picked))
        <= usable_time student)%Q)
    ∧ ((usable_time student <= 0)%Q → picked = [])
    ∧ (week_check = true → NoDup (room <$> picked)).
Proof.
  destruct (shift_body_spec st student) as (picked & Heq & Hrest).
  exists picked. split; [|by split].
  unfold emitted. rewrite Heq, assign_all_assignments.
  by rewrite drop_app_length.
Qed.

Lemma shift_body_assignments st student :
  assignments (shift_body week_check rooms idx st student)
  = assignments st ++ emitted week_check rooms idx st student.
Proof.
  destruct (emitted_spec st student) as (picked & -> & -> & _).
  apply assign_all_assignments.
Qed.

(** The output is what the shifts appended, in the order of the
    shifts. *)
Lemma foldl_assignments_trace students st :
  assignments (foldl (shift_body week_check rooms idx) st students)
  = assignments st
    ++ concat ((λ t, t.2) <$> trace week_check rooms idx st students).
Proof.
  revert st. induction students as [|s students IH]; intros st; simpl.
  - by rewrite app_nil_r.
  - by rewrite IH, shift_body_assignments, <- app_assoc.
Qed.

Lemma elem_of_trace st0 students st student new :
  (st, student, new) ∈ trace week_check rooms idx st0 students →
  student ∈ students ∧ new = emitted week_check rooms idx st student.
Proof.
  revert st0. induction students as [|s students IH]; intros st0; simpl.
  - intros Hin. by apply elem_of_nil in Hin.
  - intros [Heq|Hin]%elem_of_cons.
    + simplify_eq. split; [by left|done].
    + destruct (IH _ Hin) as [? ?]. split; [by right|done].
Qed.

End Run.
Section Invariants.
Context `{Argsort}.
Variable rooms : list RoomRow.
Variable idx : gmap RoomDay (list Interval).

(** Between two shifts: the set of assigned rooms holds the rooms of
    the records, which are rooms of the inventory, and the week set
    holds assigned rooms only. *)
Record Inv (st : State) : Prop := {
  inv_assigned :
    rooms_assigned st = list_to_set (Room <$> assignments st);
  inv_inventory : rooms_assigned st ⊆ list_to_set (room <$> rooms);
  inv_week :
    ∀ r w, (r, w) ∈ room_week_assigned st → r ∈ rooms_assigned st
}.

Lemma Inv_initial : Inv initial.
Proof. split; simpl; set_solver. Qed.

Lemma fmap_Room_assignment_of student (picked : list RoomRow) :
  Room <$> (assignment_of student <$> picked) = room <$> picked.
Proof. by rewrite <- list_fmap_compose. Qed.

Lemma Inv_shift_body week_check st student :
  Inv st → Inv (shift_body week_check rooms idx st student).
Proof.
  intros [Ha Hi Hw].
  destruct (shift_body_spec week_check rooms idx st student)
    as (picked & -> & Hzone & _).
  assert (∀ r, r ∈ picked → r ∈ rooms) as Hin.
  { destruct Hzone as [->|(z & _ & _ & Hsub)].
    - intros r Hr. by apply elem_of_nil in Hr.
    - intros r Hr. by apply (picked_in_zone rooms st z picked). }
  split.
  - rewrite assign_all_rooms_assigned, assign_all_assignments.
    rewrite fmap_app, fmap_Room_assignment_of, list_to_set_app_L.
    by rewrite Ha.
  - rewrite assign_all_rooms_assigned.
    apply union_least; [done|].
    intros x Hx. apply elem_of_list_to_set in Hx.
    apply list_elem_of_fmap in Hx as (r & -> & Hr).
    apply elem_of_list_to_set, list_elem_of_fmap_2. by apply Hin.
  - intros r w.
    rewrite assign_all_room_week_assigned, assign_all_rooms_assigned.
    rewrite !elem_of_union, !elem_of_list_to_set.
    intros [Hold|Hnew]; [left; by eapply Hw|right].
    apply list_elem_of_fmap in Hnew as (r' & [= -> ->] & Hr').
    by apply list_elem_of_fmap_2.
Qed.

Lemma Inv_foldl week_check students st :
  Inv st → Inv (foldl (shift_body week_check rooms idx) st students).
Proof.
  revert st. induction students as [|s students IH]; intros st Hst;
    [done|].
  simpl. by apply IH, Inv_shift_body.
Qed.

Lemma Inv_run week_check students :
  Inv (run week_check rooms idx students).
Proof. apply Inv_foldl, Inv_initial. Qed.

Lemma Inv_trace week_check students st0 st student new :
  Inv st0 →
  (st, student, new) ∈ trace week_check rooms idx st0 students → Inv st.
Proof.
  revert st0. induction students as [|s students IH]; intros st0 Hst0; simpl.
  - intros Hin. by apply elem_of_nil in Hin.
  - intros [Heq|Hin]%elem_of_cons; [by simplify_eq|].
    eapply IH; [|exact Hin]. by apply Inv_shift_body.
Qed.

(** With the week test, a shift never appends a room that a record
    already names. *)
Lemma NoDup_shift_body st student :
  Inv st → NoDup (Room <$> assignments st) →
  NoDup (Room <$> assignments (shift_body true rooms idx st student)).
Proof.
  intros [Ha Hi Hw] Hnd.
  destruct (shift_body_spec true rooms idx st student)
    as (picked & -> & Hzone & _ & _ & _ & Hdup).
  rewrite assign_all_assignments, fmap_app, fmap_Room_assignment_of.
  apply NoDup_app. split; [done|]. split; [|by apply Hdup].
  intros x Hx Hx'. apply list_elem_of_fmap in Hx' as (r & -> & Hr).
  destruct Hzone as [->|(z & _ & _ & Hsub)].
  - by apply elem_of_nil in Hr.
  - destruct (picked_in_zone rooms st z picked r Hsub Hr) as (_ & _ & Hn).
    apply Hn. rewrite Ha. by apply elem_of_list_to_set.
Qed.

Lemma NoDup_foldl students st :
  Inv st → NoDup (Room <$> assignments st) →
  NoDup (Room <$> assignments
           (foldl (shift_body true rooms idx) st students)).
Proof.
  revert st. induction students as [|s students IH]; intros st Hst Hnd;
    [done|].
  simpl. apply IH; [by apply Inv_shift_body|by apply NoDup_shift_body].
Qed.

(** With distinct room names in the inventory, the week test changes
    nothing. *)
Lemma shift_body_week_check_redundant st student :
  NoDup (room <$> rooms) → Inv st →
  shift_body true rooms idx st student
  = shift_body false rooms idx st student.
Proof.
  intros Hnd [Ha Hi Hw]. unfold shift_body.
  destruct (Qlt_le_dec 0 (usable_time student)); [|done].
  destruct (zone_chosen rooms st) as [z|]; [|done].
  destruct (String.eqb z ""); [done|].
  apply rooms_loop_week_check_redundant.
  - unfold zone_rooms_df. rewrite sort_values_perm.
    unfold zone_available.
    eapply sublist_NoDup; [exact Hnd|].
    apply fmap_sublist, sublist_filter.
  - intros r Hr Hin. apply elem_of_zone_rooms_df in Hr as (_ & _ & Hn).
    apply Hn. by eapply Hw.
Qed.

Lemma foldl_week_check_redundant students st :
  NoDup (room <$> rooms) → Inv st →
  foldl (shift_body true rooms idx) st students
  = foldl (shift_body false rooms idx) st students.
Proof.
  intros Hnd. revert st.
  induction students as [|s students IH]; intros st Hst; [done|].
  simpl. rewrite <- shift_body_week_check_redundant by done.
  by apply IH, Inv_shift_body.
Qed.

End Invariants.
End SingleWeekFacts.

(** ** The two-week script: the loops *)

Module TwoWeekFacts.
Import TwoWeek.

Lemma EFFECTIVE_ROOM_CHECK_TIME_eq : EFFECTIVE_ROOM_CHECK_TIME = 5.
Proof. reflexivity. Qed.

Definition assign_all (student : StudentShift) (st : State)
    (picked : list RoomRow) : State :=
  foldl (λ st r, assign st student r) st picked.

Lemma two_week_assign_all_cons student st r picked :
  assign_all student st (r :: picked)
  = assign_all student (assign st student r) picked.
Proof. reflexivity. Qed.

Lemma two_week_assign_all_assignments student picked st :
  assignments_base (assign_all student st picked)
  = assignments_base st ++ (assignment_of student <$> picked).
Proof.
  revert st. induction picked as [|r picked IH]; intros st.
  - simpl. by rewrite app_nil_r.
  - rewrite two_week_assign_all_cons, IH. simpl. by rewrite <- app_assoc.
Qed.

Lemma two_week_assign_all_rooms_assigned student picked st :
  rooms_assigned_global (assign_all student st picked)
  = rooms_assigned_global st ∪ list_to_set (room <$> picked).
Proof.
  revert st. induction picked as [|r picked IH]; intros st.
  - simpl. set_solver.
  - rewrite two_week_assign_all_cons, IH. simpl. set_solver.
Qed.

Section Loop.
Variable idx : gmap RoomDay (list Interval).
Variable student : StudentShift.

(** One pass over the candidates assigns a subsequence of them:
    rooms with no class during the shift, not assigned before and
    pairwise of different names, within the time budget. *)
Lemma two_week_rooms_loop_spec candidate time_used used_this_shift st :
  ∃ picked,
    picked `sublist_of` candidate
    ∧ rooms_loop idx student candidate time_used used_this_shift st
      = assign_all student st picked
    ∧ Forall (λ r, has_conflict idx (room r) (weekday student)
                     (start_dt student) (end_dt student) = false) picked
    ∧ ((inject_Z time_used <= usable_time student)%Q →
       (inject_Z (time_used
                  + EFFECTIVE_ROOM_CHECK_TIME * Z.of_nat (length picked))
        <= usable_time student)%Q)
    ∧ NoDup (room <$> picked)
    ∧ (∀ r, r ∈ picked →
         (room r ∉ used_this_shift)
         ∧ (room r ∉ rooms_assigned_global st)).
Proof.
  revert time_used used_this_shift st.
  induction candidate as [|room_row rest IH];
    intros time_used used_this_shift st.
  { exists []. simpl. split; [done|]. split; [done|].
    split; [constructor|]. split; [|split; [constructor|]].
    - intros Hle. by rewrite Z.mul_0_r, Z.add_0_r.
    - intros r Hr. by apply elem_of_nil in Hr. }
  simpl.
  destruct (bool_decide (room room_row ∈ used_this_shift)
            || bool_decide (room room_row ∈ rooms_assigned_global st))
    eqn:Hused.
  { destruct (IH time_used used_this_shift st)
      as (picked & Hsub & Heq & Hrest).
    exists picked. split; [by apply sublist_cons|]. by split. }
  destruct (has_conflict idx (room room_row) (weekday student)
              (start_dt student) (end_dt student)) eqn:Hconf.
  { destruct (IH time_used used_this_shift st)
      as (picked & Hsub & Heq & Hrest).
    exists picked. split; [by apply sublist_cons|]. by split. }
  destruct (Qlt_le_dec (usable_time student)
              (inject_Z (time_used + EFFECTIVE_ROOM_CHECK_TIME)))
    as [Hlt|Hfit].
  { exists []. simpl. split; [apply sublist_nil_l|]. split; [done|].
    split; [constructor|]. split; [|split; [constructor|]].
    - intros Hle. by rewrite Z.mul_0_r, Z.add_0_r.
    - intros r Hr. by apply elem_of_nil in Hr. }
  destruct (IH (time_used + EFFECTIVE_ROOM_CHECK_TIME)
              (used_this_shift ∪ {[room room_row]})
              (assign st student room_row))
    as (picked & Hsub & Heq & Hconfs & Htime & Hnd & Hfresh).
  apply orb_false_iff in Hused as [Hu Hg].
  apply bool_decide_eq_false in Hu, Hg.
  exists (room_row :: picked). split; [by apply sublist_skip|].
  split; [done|]. split; [by constructor|]. split; [|split].
  - intros _. specialize (Htime Hfit).
    replace (time_used + EFFECTIVE_ROOM_CHECK_TIME
             * Z.of_nat (length (room_row :: picked)))
      with (time_used + EFFECTIVE_ROOM_CHECK_TIME
            + EFFECTIVE_ROOM_CHECK_TIME * Z.of_nat (length picked));
      [done|].
    simpl length. lia.
  - rewrite fmap_cons. constructor; [|done].
    intros Hin. apply list_elem_of_fmap in Hin as (r & Hr & Hin).
    destruct (Hfresh r Hin) as [Hn _]. rewrite Hr in Hn. set_solver.
  - intros r Hr. apply elem_of_cons in Hr as [->|Hr]; [done|].
    destruct (Hfresh r Hr) as [Hn1 Hn2]. simpl in Hn2. set_solver.
Qed.

End Loop.

Lemma candidate_nil rooms st z :
  candidate rooms st z = []
  ↔ zone_available rooms (rooms_assigned_global st) z = [].
Proof.
  unfold candidate. rewrite <- !Permutation_nil_r.
  by rewrite stable_sort_perm.
Qed.

Lemma elem_of_candidate rooms st z r :
  r ∈ candidate rooms st z ↔
  r ∈ rooms ∧ zone r = z ∧ room r ∉ rooms_assigned_global st.
Proof.
  unfold candidate. by rewrite stable_sort_perm, elem_of_zone_available.
Qed.

(** The zone loop locks the first ranked zone with a candidate and runs
    the room loop on it alone. *)
Lemma zones_loop_spec rooms idx student zones st :
  (zones_loop rooms idx student zones st = (st, None)
   ∧ Forall (λ z, candidate rooms st z = []) zones)
  ∨ ∃ z before after,
      zones = before ++ z :: after
      ∧ Forall (λ z', candidate rooms st z' = []) before
      ∧ candidate rooms st z ≠ []
      ∧ zones_loop rooms idx student zones st
        = (rooms_loop idx student (candidate rooms st z) 0 ∅ st, Some z).
Proof.
  induction zones as [|z zones IH]; simpl.
  - left. split; [done|constructor].
  - destruct (candidate rooms st z) as [|c cs] eqn:Hc.
    + destruct IH as [[Heq Hall]|(z' & before & after & -> & Hb & Hz & Heq)].
      * left. split; [done|]. by constructor.
      * right. exists z', (z :: before), after. split; [done|].
        split; [by constructor|]. by split.
    + right. exists z, [], zones. split; [done|].
      split; [constructor|]. rewrite Hc. by split.
Qed.

Ltac skip_shift :=
  exists []; split; [done|]; split; [by left|]; split; [constructor|];
  split; [intros; simpl; by rewrite Z.mul_0_r|];
  split; [done|]; constructor.

Section Run.
Context `{Argsort}.
Variable rooms : list RoomRow.
Variable idx : gmap RoomDay (list Interval).

(** A shift whose usable time is positive locks the first zone of the
    ranking. *)
Lemma zone_locked_head st student :
  (0 < usable_time student)%Q →
  zone_locked rooms idx st student
  = head (zone_scores rooms (rooms_assigned_global st)).*1.
Proof.
  intros Hpos. unfold zone_locked, shift_result.
  destruct (Qlt_le_dec 0 (usable_time student)) as [_|Hle];
    [|exfalso; by apply (Qlt_not_le _ _ Hpos)].
  pose proof (elem_of_zone_scores_index rooms (rooms_assigned_global st))
    as Hin.
  destruct ((zone_scores rooms (rooms_assigned_global st)).*1)
    as [|z zones]; [done|].
  simpl. destruct (candidate rooms st z) eqn:Hc; [|done].
  destruct (proj1 (Hin z)) as (r & Hr); [by left|].
  apply elem_of_candidate in Hr. rewrite Hc in Hr.
  by apply elem_of_nil in Hr.
Qed.

Lemma zone_locked_skipped st student :
  (usable_time student <= 0)%Q → zone_locked rooms idx st student = None.
Proof.
  intros Hle. unfold zone_locked, shift_result.
  destruct (Qlt_le_dec 0 (usable_time student)) as [Hpos|_]; [|done].
  exfalso. by apply (Qlt_not_le _ _ Hpos).
Qed.

(** What one shift does. *)
Lemma two_week_shift_body_spec st student :
  ∃ picked,
    shift_body rooms idx st student = assign_all student st picked
    ∧ (picked = [] ∨
       ∃ z, zone_locked rooms idx st student = Some z
         ∧ picked `sublist_of` candidate rooms st z)
    ∧ Forall (λ r, has_conflict idx (room r) (weekday student)
                     (start_dt student) (end_dt student) = false) picked
    ∧ ((0 <= usable_time student)%Q →
       (inject_Z (EFFECTIVE_ROOM_CHECK_TIME * Z.of_nat (length picked))
        <= usable_time student)%Q)
    ∧ ((usable_time student <= 0)%Q → picked = [])
    ∧ NoDup (room <$> picked).
Proof.
  unfold shift_body, zone_locked, shift_result.
  destruct (Qlt_le_dec 0 (usable_time student)) as [Hpos|Hneg];
    [|skip_shift].
  destruct (zones_loop_spec rooms idx student
              (zone_scores rooms (rooms_assigned_global st)).*1 st)
    as [[-> _]|(z & before & after & _ & _ & _ & ->)]; [skip_shift|].
  simpl.
  destruct (two_week_rooms_loop_spec idx student (candidate rooms st z) 0 ∅ st)
    as (picked & Hsub & Heq & Hconf & Htime & Hnd & _).
  exists picked. split; [done|]. split; [right; by exists z|].
  split; [done|]. split; [|split; [|done]].
  - intros _. rewrite Z.add_0_l in Htime. apply Htime.
    by apply Qlt_le_weak.
  - intros Hle. exfalso. by apply (Qlt_not_le _ _ Hpos).
Qed.

Lemma two_week_picked_in_zone st z picked r :
  picked `sublist_of` candidate rooms st z → r ∈ picked →
  r ∈ rooms ∧ zone r = z ∧ room r ∉ rooms_assigned_global st.
Proof.
  intros Hsub Hr. apply elem_of_candidate.
  by apply (sublist_subseteq _ _ Hsub).
Qed.

Lemma two_week_emitted_spec st student :
  ∃ picked,
    emitted rooms idx st student = assignment_of student <$> picked
    ∧ shift_body rooms idx st student = assign_all student st picked
    ∧ (picked = [] ∨
       ∃ z, zone_locked rooms idx st student = Some z
         ∧ picked `sublist_of` candidate rooms st z)
    ∧ Forall (λ r, has_conflict idx (room r) (weekday student)
                     (start_dt student) (end_dt student) = false) picked
    ∧ ((0 <= usable_time student)%Q →
       (inject_Z (EFFECTIVE_ROOM_CHECK_TIME * Z.of_nat (length picked))
        <= usable_time student)%Q)
    ∧ ((usable_time student <= 0)%Q → picked = [])
    ∧ NoDup (room <$> picked).
Proof.
  destruct (two_week_shift_body_spec st student) as (picked & Heq & Hrest).
  exists picked. split; [|by split].
  unfold emitted. rewrite Heq, two_week_assign_all_assignments.
  by rewrite drop_app_length.
Qed.

Lemma two_week_shift_body_assignments st student :
  assignments_base (shift_body rooms idx st student)
  = assignments_base st ++ emitted rooms idx st student.
Proof.
  destruct (two_week_emitted_spec st student) as (picked & -> & -> & _).
  apply two_week_assign_all_assignments.
Qed.

Lemma two_week_foldl_assignments_trace students st :
  assignments_base (foldl (shift_body rooms idx) st students)
  = assignments_base st
    ++ concat ((λ t, t.2) <$> trace rooms idx st students).
Proof.
  revert st. induction students as [|s students IH]; intros st; simpl.
  - by rewrite app_nil_r.
  - by rewrite IH, two_week_shift_body_assignments, <- app_assoc.
Qed.

Lemma two_week_elem_of_trace st0 students st student new :
  (st, student, new) ∈ trace rooms idx st0 students →
  student ∈ students ∧ new = emitted rooms idx st student.
Proof.
  revert st0. induction students as [|s students IH]; intros st0; simpl.
  - intros Hin. by apply elem_of_nil in Hin.
  - intros [Heq|Hin]%elem_of_cons.
    + simplify_eq. split; [by left|done].
    + destruct (IH _ Hin) as [? ?]. split; [by right|done].
Qed.

(** Between two shifts the global set holds the rooms of the records,
    and no record repeats a room. *)
Record Inv (st : State) : Prop := {
  inv_assigned :
    rooms_assigned_global st
    = list_to_set (Room <$> assignments_base st);
  inv_NoDup : NoDup (Room <$> assignments_base st)
}.

Lemma two_week_Inv_initial : Inv initial.
Proof. split; simpl; [set_solver|constructor]. Qed.

Lemma two_week_Inv_shift_body st student :
  Inv st → Inv (shift_body rooms idx st student).
Proof.
  intros [Ha Hnd].
  destruct (two_week_shift_body_spec st student)
    as (picked & -> & Hzone & _ & _ & _ & Hdup).
  assert (Room <$> (assignment_of student <$> picked) = room <$> picked)
    as Hrooms by (by rewrite <- list_fmap_compose).
  split.
  - rewrite two_week_assign_all_rooms_assigned, two_week_assign_all_assignments.
    by rewrite fmap_app, Hrooms, list_to_set_app_L, Ha.
  - rewrite two_week_assign_all_assignments, fmap_app, Hrooms.
    apply NoDup_app. split; [done|]. split; [|done].
    intros x Hx Hx'. apply list_elem_of_fmap in Hx' as (r & -> & Hr).
    destruct Hzone as [->|(z & _ & Hsub)].
    + by apply elem_of_nil in Hr.
    + destruct (two_week_picked_in_zone st z picked r Hsub Hr) as (_ & _ & Hn).
      apply Hn. rewrite Ha. by apply elem_of_list_to_set.
Qed.

Lemma two_week_Inv_run students : Inv (run rooms idx students).
Proof.
  unfold run. generalize two_week_Inv_initial. generalize initial.
  induction students as [|s students IH]; intros st Hst; [done|].
  simpl. by apply IH, two_week_Inv_shift_body.
Qed.

End Run.
End TwoWeekFacts.

(** ** The week split *)

Lemma list_ascii_of_string_app (a s : string) :
  String.list_ascii_of_string (a +:+ s)
  = String.list_ascii_of_string a ++ String.list_ascii_of_string s.
Proof. induction a as [|c a IH]; simpl; [done|by f_equal]. Qed.

Lemma list_ascii_of_string_inj (a b : string) :
  String.list_ascii_of_string a = String.list_ascii_of_string b → a = b.
Proof.
  intros E. apply (f_equal String.string_of_list_ascii) in E.
  by rewrite !String.string_of_list_ascii_of_string in E.
Qed.

(** Two days with the same week label are the same day. *)
Lemma day_label_inj (a b w : string) : a +:+ w = b +:+ w → a = b.
Proof.
  intros E. apply (f_equal String.list_ascii_of_string) in E.
  rewrite !list_ascii_of_string_app in E.
  apply app_inv_tail in E. by apply list_ascii_of_string_inj.
Qed.

(** A week-1 label is never a week-2 label. *)
Lemma day_label_week_ne (a b : string) : a +:+ " 1" ≠ b +:+ " 2".
Proof.
  intros E. apply (f_equal String.list_ascii_of_string) in E.
  rewrite !list_ascii_of_string_app in E.
  apply app_inj_2 in E as [_ E]; [|done]. discriminate E.
Qed.

Lemma day_label_week_ne' (a b : string) : a +:+ " 2" ≠ b +:+ " 1".
Proof. intros E. by apply (day_label_week_ne b a). Qed.

Lemma filter_bind {A B} (P : B → Prop) `{∀ x, Decision (P x)}
    (f : A → list B) (l : list A) :
  filter P (l ≫= f) = l ≫= (λ x, filter P (f x)).
Proof.
  induction l as [|x l IH]; csimpl; [done|]. by rewrite filter_app, IH.
Qed.

(** A bind in which one key at most contributes. *)
Lemma bind_decide {K B} `{EqDecision K} (keys : list K) (X : K → list B) k0 :
  NoDup keys →
  keys ≫= (λ k, if decide (k = k0) then X k else [])
  = if decide (k0 ∈ keys) then X k0 else [].
Proof.
  induction 1 as [|k keys Hk Hnd IH]; csimpl.
  - destruct (decide (k0 ∈ [])) as [Hin|_]; [|done].
    by apply elem_of_nil in Hin.
  - rewrite IH. destruct (decide (k = k0)) as [->|Hne].
    + destruct (decide (k0 ∈ keys)) as [|_]; [done|].
      destruct (decide (k0 ∈ k0 :: keys)) as [_|Hn]; [by rewrite app_nil_r|].
      exfalso. apply Hn. by left.
    + simpl. destruct (decide (k0 ∈ keys)) as [Hin|Hnin];
        destruct (decide (k0 ∈ k :: keys)) as [Hin'|Hnin']; try done.
      * exfalso. apply Hnin'. by right.
      * apply elem_of_cons in Hin' as [->|Hin']; done.
Qed.

Lemma fmap_fst_filter {A B} (P : A → Prop) `{∀ x, Decision (P x)}
    `{∀ row : A * B, Decision (P row.1)} (l : list (A * B)) :
  (filter (λ row, P row.1) l).*1 = filter P l.*1.
Proof.
  induction l as [|[a b] l IH]; [done|].
  rewrite fmap_cons, !filter_cons.
  repeat case_decide; csimpl in *; try done; by rewrite IH.
Qed.

Lemma imap_order_fst {A} (l : list A) (n : nat) :
  (imap (λ i a, (a, Z.of_nat (n + i))) l).*1 = l.
Proof.
  revert n. induction l as [|x l IH]; intros n; [done|].
  rewrite imap_cons, fmap_cons. simpl. f_equal.
  rewrite <- (IH (S n)) at 2. f_equal. apply imap_ext.
  intros i a _. simpl. do 2 f_equal. lia.
Qed.

(** The [_order] column increases along the table. *)
Lemma imap_order_sorted {A} (l : list A) (n : nat) :
  StronglySorted (λ a b : A * Z, a.2 < b.2)
    (imap (λ i a, (a, Z.of_nat (n + i))) l)
  ∧ Forall (λ p : A * Z, Z.of_nat n ≤ p.2)
      (imap (λ i a, (a, Z.of_nat (n + i))) l).
Proof.
  revert n. induction l as [|x l IH]; intros n.
  - split; constructor.
  - rewrite imap_cons.
    assert (imap ((λ i a, (a, Z.of_nat (n + i))) ∘ S) l
            = imap (λ i a, (a, Z.of_nat (S n + i))) l) as ->.
    { apply imap_ext. intros i a _. simpl. do 2 f_equal. lia. }
    destruct (IH (S n)) as [Hs Hge]. split.
    + constructor; [done|]. eapply Forall_impl; [exact Hge|].
      intros p Hp. simpl in *. lia.
    + constructor; [simpl; lia|]. eapply Forall_impl; [exact Hge|].
      intros p Hp. simpl in *. lia.
Qed.

Lemma StronglySorted_filter {A} (R : relation A) (P : A → Prop)
    `{∀ x, Decision (P x)} (l : list A) :
  StronglySorted R l → StronglySorted R (filter P l).
Proof.
  induction 1 as [|x l Hs IH Hx]; [constructor|].
  rewrite filter_cons. destruct (decide (P x)); [|done].
  constructor; [done|]. apply Forall_forall. intros y Hy.
  apply list_elem_of_filter in Hy as [_ Hy].
  rewrite Forall_forall in Hx. by apply Hx.
Qed.

Section SortValuesUnique.
Context `{Argsort} {A : Type}.

(** Where the keys are pairwise different there is one sorted order, and
    [sort_values] gives it whatever [argsort] does with equal keys. *)
Lemma sort_values_unique (key : A → Z) (l l' : list A) :
  l' ≡ₚ l → StronglySorted (λ a b, key a < key b) l' →
  sort_values key l = l'.
Proof.
  intros Hp Hl. symmetry.
  apply (StronglySorted_unique_strong (λ a b, key a ≤ key b)).
  - intros x1 x2 H1 H2 Hle1 Hle2. assert (key x1 = key x2) as Hk by lia.
    rewrite sort_values_perm, <- Hp in H2.
    clear Hle1 Hle2 Hp.
    induction Hl as [|y l' Hs IH Hy]; [by apply elem_of_nil in H1|].
    rewrite Forall_forall in Hy.
    apply elem_of_cons in H1 as [->|H1], H2 as [->|H2];
      [done| | |by apply IH].
    + specialize (Hy _ H2). lia.
    + specialize (Hy _ H1). lia.
  - clear Hp. induction Hl as [|y l' Hs IH Hy]; constructor; [done|].
    eapply Forall_impl; [exact Hy|]. intros a Ha. simpl in *. lia.
  - apply sort_values_sorted.
  - by rewrite sort_values_perm.
Qed.

(** In particular a table whose keys already increase is left as it
    is. *)
Lemma sort_values_id (key : A → Z) (l : list A) :
  StronglySorted (λ a b, key a < key b) l → sort_values key l = l.
Proof. by apply sort_values_unique. Qed.
End SortValuesUnique.

Lemma filter_all {A} (P : A → Prop) `{∀ x, Decision (P x)} (l : list A) :
  Forall P l → filter P l = l.
Proof.
  induction 1 as [|x l Hx Hl IH]; [done|].
  by rewrite filter_cons_True, IH.
Qed.

Lemma filter_none {A} (P : A → Prop) `{∀ x, Decision (P x)} (l : list A) :
  Forall (λ x, ¬ P x) l → filter P l = [].
Proof.
  induction 1 as [|x l Hx Hl IH]; [done|].
  by rewrite filter_cons_False, IH.
Qed.

Lemma Qceiling_half (a : Z) : Qceiling (inject_Z a / 2) = (a + 1) / 2.
Proof.
  unfold Qceiling, Qfloor. cbn. Z.div_mod_to_equations. lia.
Qed.

Module WeekSplitFacts.
Import TwoWeek.

(** [ceil(n / 2)] is [(n + 1) / 2] in whole numbers. *)
Lemma split_idx_eq n : split_idx n = ((n + 1) / 2)%nat.
Proof.
  unfold split_idx. rewrite Qceiling_half.
  apply Nat2Z.inj. rewrite Z2Nat.id; [|Z.div_mod_to_equations; lia].
  by rewrite Nat2Z.inj_div, Nat2Z.inj_add.
Qed.

Lemma split_idx_le n : (split_idx n ≤ n)%nat.
Proof.
  rewrite split_idx_eq. destruct n as [|n]; [done|].
  apply Nat.Div0.div_le_upper_bound. lia.
Qed.

(** The group of a key: its records of [df_base], in order. *)
Definition group (df_base : list Assignment) (key : string * string)
    : list Assignment :=
  filter (λ a, Student a = Some key.1 ∧ Day a = key.2) df_base.

(** The two halves of a group, relabelled. *)
Definition week1 (df_base : list Assignment) (key : string * string) :=
  (λ a, relabel a (key.2 +:+ " 1"))
    <$> take (split_idx (length (group df_base key))) (group df_base key).

Definition week2 (df_base : list Assignment) (key : string * string) :=
  (λ a, relabel a (key.2 +:+ " 2"))
    <$> drop (split_idx (length (group df_base key))) (group df_base key).

Lemma week_labels df_base key w (sub : list Assignment) :
  sub ⊆ group df_base key →
  Forall (λ b, Student b = Some key.1 ∧ Day b = key.2 +:+ w)
    ((λ a, relabel a (key.2 +:+ w)) <$> sub).
Proof.
  intros Hsub. apply Forall_fmap, Forall_forall. intros a Ha. simpl.
  apply Hsub, list_elem_of_filter in Ha as [[Hs _] _]. done.
Qed.

Lemma week1_labels df_base key :
  Forall (λ b, Student b = Some key.1 ∧ Day b = key.2 +:+ " 1")
    (week1 df_base key).
Proof.
  apply (week_labels df_base key " 1"), sublist_subseteq, sublist_take.
Qed.

Lemma week2_labels df_base key :
  Forall (λ b, Student b = Some key.1 ∧ Day b = key.2 +:+ " 2")
    (week2 df_base key).
Proof.
  apply (week_labels df_base key " 2"), sublist_subseteq, sublist_drop.
Qed.

(** Among records that carry one label, those with the label of a given
    student, day and week are all of them or none. *)
Lemma filter_same_week key student day w (l : list Assignment) :
  Forall (λ b, Student b = Some key.1 ∧ Day b = key.2 +:+ w) l →
  filter (λ b, Student b = Some student ∧ Day b = day +:+ w) l
  = if decide (key = (student, day)) then l else [].
Proof.
  intros Hl. destruct (decide (key = (student, day))) as [->|Hne].
  - by apply filter_all.
  - apply filter_none. eapply Forall_impl; [exact Hl|].
    intros b [Hs Hd] [Hs' Hd']. simpl in *. apply Hne.
    rewrite Hd in Hd'. apply day_label_inj in Hd'.
    destruct key; simpl in *. congruence.
Qed.

Lemma filter_other_week key student day w w' (l : list Assignment) :
  (∀ d d', d +:+ w' ≠ d' +:+ w) →
  Forall (λ b, Student b = Some key.1 ∧ Day b = key.2 +:+ w') l →
  filter (λ b, Student b = Some student ∧ Day b = day +:+ w) l = [].
Proof.
  intros Hw Hl. apply filter_none. eapply Forall_impl; [exact Hl|].
  intros b [Hs Hd] [Hs' Hd']. simpl in *. rewrite Hd in Hd'.
  by apply Hw in Hd'.
Qed.

Section Split.
Context `{Argsort}.

(** A group comes out as its first [split_idx] records relabelled
    week 1, then the others relabelled week 2, in the order the
    records had. *)
Lemma split_group_eq df_base key :
  split_group (imap (λ i a, (a, Z.of_nat i)) df_base) key
  = week1 df_base key ++ week2 df_base key.
Proof.
  unfold split_group, week1, week2, group.
  set (rows := filter _ (imap _ df_base)).
  assert (sort_values snd rows = rows) as ->.
  { apply sort_values_id. apply StronglySorted_filter.
    apply (imap_order_sorted df_base 0). }
  assert (rows.*1
          = filter (λ a, Student a = Some key.1 ∧ Day a = key.2) df_base)
    as Hrows.
  { unfold rows. etrans.
    - apply (fmap_fst_filter
               (λ a, Student a = Some key.1 ∧ Day a = key.2)).
    - f_equal. apply (imap_order_fst df_base 0). }
  rewrite <- Hrows, length_fmap, <- fmap_take, <- fmap_drop.
  by rewrite <- !list_fmap_compose.
Qed.

Lemma group_keys_NoDup df : NoDup (group_keys df).
Proof. apply drop_duplicates_NoDup. Qed.

Lemma elem_of_group_keys df_base a student :
  a ∈ df_base → Student a = Some student →
  (student, Day a) ∈ group_keys (imap (λ i a, (a, Z.of_nat i)) df_base).
Proof.
  intros Ha Hs. unfold group_keys.
  apply drop_duplicates_elem_of, list_elem_of_omap.
  apply list_elem_of_lookup in Ha as [i Hi].
  exists (a, Z.of_nat i). split.
  - by apply (elem_of_lookup_imap_2 (λ i a, (a, Z.of_nat i))).
  - simpl. by rewrite Hs.
Qed.

Lemma group_nil df_base key :
  key ∉ group_keys (imap (λ i a, (a, Z.of_nat i)) df_base) →
  group df_base key = [].
Proof.
  intros Hnin. destruct (group df_base key) as [|a l] eqn:Hg; [done|].
  exfalso. apply Hnin.
  assert (a ∈ group df_base key) as Ha by (rewrite Hg; by left).
  apply list_elem_of_filter in Ha as [[Hs Hd] Ha].
  destruct key as [s d]; simpl in *. subst d.
  by apply elem_of_group_keys.
Qed.

Lemma week_split_eq df_base :
  week_split df_base
  = group_keys (imap (λ i a, (a, Z.of_nat i)) df_base)
      ≫= (λ key, week1 df_base key ++ week2 df_base key).
Proof.
  unfold week_split. destruct df_base as [|a df_base]; [done|].
  apply list_bind_ext; [|done]. intros key. apply split_group_eq.
Qed.

(** The records of one student, day and week in [df_out]. *)
Lemma week_split_week1 df_base student day :
  filter (λ b, Student b = Some student ∧ Day b = day +:+ " 1")
    (week_split df_base)
  = week1 df_base (student, day).
Proof.
  rewrite week_split_eq, filter_bind.
  erewrite list_bind_ext; [| |done].
  2:{ intros key. rewrite filter_app.
      rewrite (filter_same_week key student day " 1" _
                 (week1_labels df_base key)).
      rewrite (filter_other_week key student day " 1" " 2" _
                 day_label_week_ne' (week2_labels df_base key)).
      rewrite app_nil_r. reflexivity. }
  rewrite (bind_decide _ (week1 df_base)) by apply group_keys_NoDup.
  destruct (decide _) as [|Hnin]; [done|].
  unfold week1. by rewrite (group_nil _ _ Hnin).
Qed.

Lemma week_split_week2 df_base student day :
  filter (λ b, Student b = Some student ∧ Day b = day +:+ " 2")
    (week_split df_base)
  = week2 df_base (student, day).
Proof.
  rewrite week_split_eq, filter_bind.
  erewrite list_bind_ext; [| |done].
  2:{ intros key. rewrite filter_app.
      rewrite (filter_same_week key student day " 2" _
                 (week2_labels df_base key)).
      rewrite (filter_other_week key student day " 2" " 1" _
                 day_label_week_ne (week1_labels df_base key)).
      rewrite app_nil_l. reflexivity. }
  rewrite (bind_decide _ (week2 df_base)) by apply group_keys_NoDup.
  destruct (decide _) as [|Hnin]; [done|].
  unfold week2. by rewrite (group_nil _ _ Hnin).
Qed.

Lemma fmap_bind {A B C} (g : B → C) (f : A → list B) (l : list A) :
  g <$> (l ≫= f) = l ≫= (λ x, g <$> f x).
Proof.
  induction l as [|x l IH]; csimpl; [done|]. by rewrite fmap_app, IH.
Qed.

(** The rooms of [df_out] are those of the groups, group by group. *)
Lemma week_split_rooms df_base :
  Room <$> week_split df_base
  = group_keys (imap (λ i a, (a, Z.of_nat i)) df_base)
      ≫= (λ key, Room <$> group df_base key).
Proof.
  rewrite week_split_eq, fmap_bind.
  apply list_bind_ext; [|done]. intros key.
  unfold week1, week2. rewrite fmap_app, <- !list_fmap_compose.
  rewrite <- fmap_app. by rewrite take_drop.
Qed.

Lemma NoDup_fmap_eq {A B} (f : A → B) (l : list A) x y :
  NoDup (f <$> l) → x ∈ l → y ∈ l → f x = f y → x = y.
Proof.
  induction l as [|z l IH]; intros Hnd Hx Hy Hf.
  - by apply elem_of_nil in Hx.
  - rewrite fmap_cons in Hnd. apply NoDup_cons in Hnd as [Hz Hnd].
    apply elem_of_cons in Hx as [->|Hx], Hy as [->|Hy]; [done| | |by apply IH].
    + exfalso. apply Hz. rewrite Hf. by apply list_elem_of_fmap_2.
    + exfalso. apply Hz. rewrite <- Hf. by apply list_elem_of_fmap_2.
Qed.

(** The split repeats no room that the records do not repeat. *)
Lemma week_split_NoDup df_base :
  NoDup (Room <$> df_base) → NoDup (Room <$> week_split df_base).
Proof.
  intros Hnd. rewrite week_split_rooms. apply NoDup_bind.
  - intros [s1 d1] [s2 d2] y _ _ H1 H2.
    apply list_elem_of_fmap in H1 as (a1 & -> & H1).
    apply list_elem_of_fmap in H2 as (a2 & Heq & H2).
    apply list_elem_of_filter in H1 as [[Hs1 Hd1] H1].
    apply list_elem_of_filter in H2 as [[Hs2 Hd2] H2].
    assert (a1 = a2) as -> by (by eapply (NoDup_fmap_eq Room df_base)).
    simpl in *. congruence.
  - intros key _. eapply sublist_NoDup; [exact Hnd|].
    apply fmap_sublist, sublist_filter.
  - apply group_keys_NoDup.
Qed.

End Split.
End WeekSplitFacts.

(** ** The order on (priority, building, room) *)

Lemma cmp_room_key_ok : cmp_ok cmp_room_key.
Proof.
  unfold cmp_room_key.
  repeat first
    [ apply cmp_pair_ok | apply cmp_nan_last_ok
    | apply Z_compare_ok | apply string_compare_ok ].
Qed.

Lemma room_leb_total a b : room_leb a b = true ∨ room_leb b a = true.
Proof.
  exact (leb_of_total _ cmp_room_key_ok (room_key a) (room_key b)).
Qed.

Lemma room_leb_trans a b c :
  room_leb a b = true → room_leb b c = true → room_leb a c = true.
Proof.
  exact (leb_of_trans _ cmp_room_key_ok (room_key a) (room_key b) (room_key c)).
Qed.

(** [room_leb] spelled out: priority first, then building with the
    missing ones last, then room name. *)
Lemma room_leb_spec a b :
  room_leb a b = true ↔
  priority a < priority b
  ∨ (priority a = priority b
     ∧ (cmp_nan_last String.compare (building a) (building b) = Lt
        ∨ (building a = building b ∧ String.leb (room a) (room b) = true))).
Proof.
  unfold room_leb, leb_of, cmp_room_key, cmp_pair, room_key, String.leb; simpl.
  destruct (Z.compare_spec (priority a) (priority b)) as [Hp|Hp|Hp]; simpl.
  - destruct (cmp_nan_last String.compare (building a) (building b)) eqn:Hb;
      simpl.
    + apply (cmp_ok_eq _ (cmp_nan_last_ok _ string_compare_ok)) in Hb.
      destruct (String.compare (room a) (room b)); split; intros Hx;
        try done; try (right; split; [done|]; right; by split);
        destruct Hx as [Hx|[_ [Hx|[_ Hx]]]]; try done; lia.
    + split; [|done]. intros _. right. split; [done|]. by left.
    + split; [done|]. intros [Hx|[_ [Hx|[Hx _]]]]; [lia|done|].
      rewrite Hx in Hb.
      by rewrite (cmp_ok_refl _ (cmp_nan_last_ok _ string_compare_ok)) in Hb.
  - split; [|done]. intros _. by left.
  - split; [done|]. intros [Hx|[Hx _]]; lia.
Qed.

Lemma stable_sort_room_sorted (l : list RoomRow) :
  StronglySorted (λ a b, room_leb a b = true) (stable_sort room_leb l).
Proof.
  apply stable_sort_sorted; [apply room_leb_total|apply room_leb_trans].
Qed.

(** ** Running one shift on a one-zone inventory, whatever [argsort] is *)

Section OneZone.
Context `{Argsort}.

Lemma zone_chosen_only_zone rooms st z :
  (∀ r, r ∈ rooms → zone r = z) →
  (∃ r, r ∈ rooms ∧ room r ∉ SingleWeek.rooms_assigned st) →
  SingleWeek.zone_chosen rooms st = Some z.
Proof.
  intros Hall (r & Hr & Hn). rewrite SingleWeekFacts.zone_chosen_head.
  pose proof (elem_of_zone_scores_index rooms
                (SingleWeek.rooms_assigned st)) as Hin.
  destruct ((zone_scores rooms (SingleWeek.rooms_assigned st)).*1)
    as [|z' zones].
  - assert (z ∈ @nil string) as Hz; [|by apply elem_of_nil in Hz].
    apply Hin. exists r. split; [done|]. split; [by apply Hall|done].
  - simpl. destruct (proj1 (Hin z')) as (r' & Hr' & <- & _); [by left|].
    by rewrite (Hall r' Hr').
Qed.

(** The zone whose name is empty is chosen, and then taken for no zone. *)
Lemma shift_body_empty_zone_name week_check rooms idx st student :
  SingleWeek.zone_chosen rooms st = Some "" →
  SingleWeek.shift_body week_check rooms idx st student = st.
Proof.
  intros Hz. unfold SingleWeek.shift_body. rewrite Hz.
  by destruct (Qlt_le_dec 0 (usable_time student)).
Qed.

Lemma shift_body_in_zone week_check rooms idx st student z :
  (0 < usable_time student)%Q →
  SingleWeek.zone_chosen rooms st = Some z → z ≠ "" →
  SingleWeek.shift_body week_check rooms idx st student
  = SingleWeek.rooms_loop week_check idx student
      (isocalendar_week (start_dt student))
      (SingleWeek.zone_rooms_df rooms st z) 0 st.
Proof.
  intros Hpos Hz Hne. unfold SingleWeek.shift_body. rewrite Hz.
  destruct (Qlt_le_dec 0 (usable_time student)) as [_|Hle];
    [|exfalso; by apply (Qlt_not_le _ _ Hpos)].
  by destruct (String.eqb_spec z "").
Qed.

(** The scenario of the specification: priorities 1, 3, 2 in one zone and
    a 25-minute shift. *)
Lemma three_rooms_25_minutes :
  Room <$> SingleWeek.assignments
             (SingleWeek.run true Examples.three_rooms ∅
                [Examples.shift_25])
  = ["A1"; "C1"].
Proof.
  unfold SingleWeek.run. simpl foldl.
  rewrite (shift_body_in_zone _ _ _ _ _ "Z"); [| by vm_compute | | done].
  - assert (SingleWeek.zone_rooms_df Examples.three_rooms
              SingleWeek.initial "Z"
            = [Examples.rA1; Examples.rC1; Examples.rB1]) as ->;
      [|by vm_compute].
    apply sort_values_unique.
    + apply perm_skip, perm_swap.
    + repeat constructor; by vm_compute.
  - apply zone_chosen_only_zone.
    + intros r Hr. repeat (apply elem_of_cons in Hr as [->|Hr]; [done|]).
      by apply elem_of_nil in Hr.
    + exists Examples.rA1. split; [by left|]. vm_compute. set_solver.
Qed.

(** Two rooms of equal priority: whichever order [argsort] gives to
    equal keys, one of the two listings of the inventory has the
    10-minute shift check B2 and not A1. *)
Lemma tied_rooms_10_minutes :
  Room <$> SingleWeek.assignments
             (SingleWeek.run true [Examples.rB2; Examples.rA1] ∅
                [Examples.shift_10]) = ["B2"]
  ∨ Room <$> SingleWeek.assignments
               (SingleWeek.run true [Examples.rA1; Examples.rB2] ∅
                  [Examples.shift_10]) = ["B2"].
Proof.
  assert (∀ rooms, rooms = [Examples.rB2; Examples.rA1]
                   ∨ rooms = [Examples.rA1; Examples.rB2] →
            SingleWeek.run true rooms ∅ [Examples.shift_10]
            = SingleWeek.rooms_loop true ∅ Examples.shift_10
                (isocalendar_week (start_dt Examples.shift_10))
                (take_rows rooms (argsort [1; 1])) 0 SingleWeek.initial)
    as Hrun.
  { intros rooms Hrooms. unfold SingleWeek.run. simpl foldl.
    rewrite (shift_body_in_zone _ _ _ _ _ "Z"); [| by vm_compute | | done].
    - unfold SingleWeek.zone_rooms_df, sort_values.
      by destruct Hrooms as [-> | ->].
    - apply zone_chosen_only_zone.
      + intros r Hr. destruct Hrooms as [-> | ->];
          repeat (apply elem_of_cons in Hr as [->|Hr]; [done|]);
          by apply elem_of_nil in Hr.
      + exists Examples.rA1. split; [|vm_compute; set_solver].
        destruct Hrooms as [-> | ->]; [by right; left|by left]. }
  pose proof (argsort_perm [1; 1]) as Hp. simpl in Hp.
  symmetry in Hp. apply Permutation_length_2_inv in Hp as [Heq|Heq].
  - left. rewrite Hrun, Heq by (by left). by vm_compute.
  - right. rewrite Hrun, Heq by (by right). by vm_compute.
Qed.

(** A room is free and the shift is long enough, but its zone has the
    empty name: the single-week script assigns nothing. *)
Lemma empty_zone_name_skipped :
  SingleWeek.zone_chosen [Examples.rE1] SingleWeek.initial = Some ""
  ∧ SingleWeek.assignments
      (SingleWeek.run true [Examples.rE1] ∅ [Examples.shift_25]) = [].
Proof.
  assert (SingleWeek.zone_chosen [Examples.rE1] SingleWeek.initial
          = Some "") as Hz.
  { apply zone_chosen_only_zone.
    - intros r Hr. apply list_elem_of_singleton in Hr as ->. done.
    - exists Examples.rE1. split; [by left|]. vm_compute. set_solver. }
  split; [done|]. unfold SingleWeek.run. simpl foldl.
  by rewrite shift_body_empty_zone_name.
Qed.

End OneZone.

Section OneZoneTwoWeek.
Context `{Argsort}.

Lemma zone_scores_only_zone rooms assigned z :
  (∀ r, r ∈ rooms → zone r = z) →
  (∃ r, r ∈ rooms ∧ room r ∉ assigned) →
  (zone_scores rooms assigned).*1 = [z].
Proof.
  intros Hall (r & Hr & Hn).
  pose proof (elem_of_zone_scores_index rooms assigned) as Hin.
  pose proof (zone_scores_index_NoDup rooms assigned) as Hnd.
  assert (∀ z', z' ∈ (zone_scores rooms assigned).*1 → z' = z) as Hz.
  { intros z' Hz'. apply Hin in Hz' as (r' & Hr' & <- & _). by apply Hall. }
  assert (z ∈ (zone_scores rooms assigned).*1) as Hin_z.
  { apply Hin. exists r. split; [done|]. split; [by apply Hall|done]. }
  destruct ((zone_scores rooms assigned).*1) as [|z1 [|z2 zones]].
  - by apply elem_of_nil in Hin_z.
  - f_equal. apply Hz. by left.
  - exfalso. apply NoDup_cons in Hnd as [Hnd _]. apply Hnd.
    rewrite (Hz z1), (Hz z2); [by left|by right; left|by left].
Qed.

(** The two-week script on the same tables: the tied rooms are taken in
    the order of their names, and the room of the zone with the empty
    name is assigned. *)
Lemma two_week_on_tied_rooms :
  Room <$> TwoWeek.assignments_base
             (TwoWeek.run [Examples.rB2; Examples.rA1] ∅
                [Examples.shift_10]) = ["A1"; "B2"].
Proof.
  unfold TwoWeek.run, TwoWeek.shift_body, TwoWeek.shift_result.
  simpl foldl.
  rewrite (zone_scores_only_zone _ _ "Z").
  - by vm_compute.
  - intros r Hr. repeat (apply elem_of_cons in Hr as [->|Hr]; [done|]).
    by apply elem_of_nil in Hr.
  - exists Examples.rA1. split; [by right; left|]. vm_compute. set_solver.
Qed.

Lemma two_week_on_empty_zone_name :
  Room <$> TwoWeek.assignments_base
             (TwoWeek.run [Examples.rE1] ∅ [Examples.shift_25]) = ["E1"].
Proof.
  unfold TwoWeek.run, TwoWeek.shift_body, TwoWeek.shift_result.
  simpl foldl.
  rewrite (zone_scores_only_zone _ _ "").
  - by vm_compute.
  - intros r Hr. apply list_elem_of_singleton in Hr as ->. done.
  - exists Examples.rE1. split; [by left|]. vm_compute. set_solver.
Qed.

End OneZoneTwoWeek.

(** * The claims of the specification *)

(** C1. At-most-once room assignment: in the records the single-week
    script writes, and in the table the two-week script writes (week 1 and
    week 2 together), no room name occurs twice, whatever the rooms, the
    occupancy index and the shifts are. *)
Theorem room_assigned_at_most_once `{Argsort}
    (rooms : list RoomRow) (idx : gmap RoomDay (list Interval))
    (students : list StudentShift) :
  NoDup (Room <$> SingleWeek.assignments
                    (SingleWeek.run true rooms idx students))
  ∧ NoDup (Room <$> TwoWeek.output rooms idx students).
Proof.
  split.
  - apply SingleWeekFacts.NoDup_foldl.
    + apply SingleWeekFacts.Inv_initial.
    + constructor.
  - unfold TwoWeek.output. rewrite stable_sort_perm.
    apply WeekSplitFacts.week_split_NoDup.
    apply TwoWeekFacts.inv_NoDup, TwoWeekFacts.two_week_Inv_run.
Qed.

(** C9. Completeness of the unassigned set (single week): the rows of
    [unchecked_df] are the inventory rows whose room was not assigned; the
    names they carry are the inventory names minus the assigned set, which
    holds the rooms of the assignment records; with the assigned names
    they make up the inventory and share none with them; the rows are
    pairwise different and in (priority, building, room) order. *)
Theorem unchecked_rooms_complete `{Argsort}
    (rooms : list RoomRow) (idx : gmap RoomDay (list Interval))
    (students : list StudentShift) :
  let st := SingleWeek.run true rooms idx students in
  let unchecked := SingleWeek.unchecked_df rooms st in
  let unchecked_names : gset string := list_to_set (room <$> unchecked) in
  let inventory : gset string := list_to_set (room <$> rooms) in
  (∀ r, r ∈ unchecked ↔ r ∈ rooms ∧ room r ∉ SingleWeek.rooms_assigned st)
  ∧ SingleWeek.rooms_assigned st
    = list_to_set (Room <$> SingleWeek.assignments st)
  ∧ unchecked_names = inventory ∖ SingleWeek.rooms_assigned st
  ∧ unchecked_names ∪ SingleWeek.rooms_assigned st = inventory
  ∧ unchecked_names ∩ SingleWeek.rooms_assigned st = ∅
  ∧ NoDup unchecked
  ∧ StronglySorted (λ a b, room_leb a b = true) unchecked.
Proof.
  intros st unchecked unchecked_names inventory.
  destruct (SingleWeekFacts.Inv_run rooms idx true students)
    as [Hassigned Hinv _].
  fold st in Hassigned, Hinv. fold inventory in Hinv.
  assert (∀ r, r ∈ unchecked
               ↔ r ∈ rooms ∧ room r ∉ SingleWeek.rooms_assigned st) as Hrows.
  { intros r. unfold unchecked, SingleWeek.unchecked_df.
    rewrite stable_sort_perm, drop_duplicates_elem_of, list_elem_of_filter.
    rewrite elem_of_difference, elem_of_list_to_set. split.
    - intros [[_ Hn] Hr]. done.
    - intros [Hr Hn]. split; [|done]. split; [|done].
      by apply list_elem_of_fmap_2. }
  assert (unchecked_names = inventory ∖ SingleWeek.rooms_assigned st)
    as Hnames.
  { apply set_eq. intros x. unfold unchecked_names, inventory.
    rewrite elem_of_difference, !elem_of_list_to_set, !list_elem_of_fmap.
    split.
    - intros (r & -> & Hr). apply Hrows in Hr as [Hr Hn]. split; [|done].
      by exists r.
    - intros [(r & -> & Hr) Hn]. exists r. split; [done|]. by apply Hrows. }
  split; [done|]. split; [done|]. split; [done|].
  split; [|split; [|split]].
  - rewrite Hnames. apply set_eq. intros x.
    rewrite elem_of_union, elem_of_difference. split.
    + intros [[Hx _]|Hx]; [done|]. by apply Hinv.
    + intros Hx. destruct (decide (x ∈ SingleWeek.rooms_assigned st));
        [by right|by left].
  - rewrite Hnames. set_solver.
  - unfold unchecked, SingleWeek.unchecked_df. rewrite stable_sort_perm.
    apply drop_duplicates_NoDup.
  - apply stable_sort_room_sorted.
Qed.

(** C10. Redundancy of the week-scoped set: when the inventory lists every
    room name once, the single-week script and its variant without the
    test on [room_week_assigned] go through the same states, so they write
    the same assignments and the same unchecked rooms; at the start of
    every shift no candidate room is in the week set, the filter on
    [rooms_assigned] having left it out already. *)
Theorem week_check_redundant `{Argsort}
    (rooms : list RoomRow) (idx : gmap RoomDay (list Interval))
    (students : list StudentShift) :
  NoDup (room <$> rooms) →
  SingleWeek.run true rooms idx students
  = SingleWeek.run false rooms idx students
  ∧ ∀ st s new z r w,
      (st, s, new)
        ∈ SingleWeek.trace true rooms idx SingleWeek.initial students →
      r ∈ SingleWeek.zone_rooms_df rooms st z →
      (room r, w) ∉ SingleWeek.room_week_assigned st.
Proof.
  intros Hnd. split.
  - apply SingleWeekFacts.foldl_week_check_redundant; [done|].
    apply SingleWeekFacts.Inv_initial.
  - intros st s new z r w Ht Hr Hin.
    apply SingleWeekFacts.Inv_trace in Ht;
      [|apply SingleWeekFacts.Inv_initial].
    apply SingleWeekFacts.elem_of_zone_rooms_df in Hr as (_ & _ & Hn).
    apply Hn. by eapply (SingleWeekFacts.inv_week rooms).
Qed.

Lemma week_check_redundant_witness :
  NoDup (room <$> Examples.three_rooms)
  ∧ SingleWeek.run (H:=stable_argsort) true Examples.three_rooms ∅
      [Examples.shift_25; Examples.shift_late]
    = SingleWeek.run (H:=stable_argsort) false Examples.three_rooms ∅
        [Examples.shift_25; Examples.shift_late].
Proof.
  assert (NoDup (room <$> Examples.three_rooms)) as Hnd.
  { vm_compute. repeat constructor; set_solver. }
  split; [exact Hnd|].
  exact (proj1 (week_check_redundant (H:=stable_argsort) Examples.three_rooms
                  ∅ [Examples.shift_25; Examples.shift_late] Hnd)).
Defined.

(** C2. Conflict-freedom: the output is what the shifts appended; a record
    appended during a shift carries the shift's day, and no interval the
    index holds for its room and that day overlaps the shift, where an
    interval overlaps when it starts before the shift ends and ends after
    the shift starts; a room passes the conflict test exactly when none of
    its intervals overlaps. *)
Theorem no_class_during_assigned_shift `{Argsort}
    (rooms : list RoomRow) (idx : gmap RoomDay (list Interval))
    (students : list StudentShift) :
  (SingleWeek.assignments (SingleWeek.run true rooms idx students)
   = concat ((λ t, t.2)
       <$> SingleWeek.trace true rooms idx SingleWeek.initial students)
   ∧ ∀ st s new a iv,
       (st, s, new)
         ∈ SingleWeek.trace true rooms idx SingleWeek.initial students →
       a ∈ new → iv ∈ default [] (idx !! (Room a, Some (Day a))) →
       Day a = weekday s ∧ overlaps (start_dt s) (end_dt s) iv = false)
  ∧ (TwoWeek.assignments_base (TwoWeek.run rooms idx students)
     = concat ((λ t, t.2)
         <$> TwoWeek.trace rooms idx TwoWeek.initial students)
     ∧ ∀ st s new a iv,
         (st, s, new) ∈ TwoWeek.trace rooms idx TwoWeek.initial students →
         a ∈ new → iv ∈ default [] (idx !! (Room a, Some (Day a))) →
         Day a = weekday s ∧ overlaps (start_dt s) (end_dt s) iv = false)
  ∧ (∀ shift_start shift_end iv,
       overlaps shift_start shift_end iv = true ↔
       ∃ a b, iv = (Some a, Some b) ∧ a < shift_end ∧ shift_start < b)
  ∧ (∀ room_name day shift_start shift_end,
       has_conflict idx room_name day shift_start shift_end = false ↔
       ∀ iv, iv ∈ default [] (idx !! (room_name, Some day)) →
         overlaps shift_start shift_end iv = false).
Proof.
  split; [|split; [|split]].
  - split.
    + unfold SingleWeek.run.
      by rewrite SingleWeekFacts.foldl_assignments_trace.
    + intros st s new a iv Ht Ha Hiv.
      apply SingleWeekFacts.elem_of_trace in Ht as [_ ->].
      destruct (SingleWeekFacts.emitted_spec true rooms idx st s)
        as (picked & Hnew & _ & _ & Hconf & _).
      rewrite Hnew in Ha. apply list_elem_of_fmap in Ha as (r & -> & Hr).
      split; [done|]. rewrite Forall_forall in Hconf.
      by apply (proj1 (has_conflict_false _ _ _ _ _) (Hconf r Hr)).
  - split.
    + unfold TwoWeek.run. by rewrite TwoWeekFacts.two_week_foldl_assignments_trace.
    + intros st s new a iv Ht Ha Hiv.
      apply TwoWeekFacts.two_week_elem_of_trace in Ht as [_ ->].
      destruct (TwoWeekFacts.two_week_emitted_spec rooms idx st s)
        as (picked & Hnew & _ & _ & Hconf & _).
      rewrite Hnew in Ha. apply list_elem_of_fmap in Ha as (r & -> & Hr).
      split; [done|]. rewrite Forall_forall in Hconf.
      by apply (proj1 (has_conflict_false _ _ _ _ _) (Hconf r Hr)).
  - apply overlaps_true.
  - intros. apply has_conflict_false.
Qed.

(** The class in A1 from 09:00 to 09:50 does not overlap the 10:00 shift
    that is given A1, after the 09:30 shift was kept out of it. *)
Lemma no_class_during_assigned_shift_witness :
  let idx := schedule_by_room_day [Examples.class_A1] in
  let st1 :=
    SingleWeek.shift_body (H:=stable_argsort) true Examples.three_rooms idx
      SingleWeek.initial Examples.shift_overlapping in
  let a := assignment_of Examples.shift_late Examples.rA1 in
  Day a = weekday Examples.shift_late
  ∧ overlaps (start_dt Examples.shift_late) (end_dt Examples.shift_late)
      (Some (Examples.monday_at 9 0), Some (Examples.monday_at 9 50)) = false.
Proof.
  intros idx st1 a.
  pose proof (no_class_during_assigned_shift (H:=stable_argsort)
                Examples.three_rooms idx
                [Examples.shift_overlapping; Examples.shift_late])
    as [[_ Hsingle] _].
  apply (Hsingle st1 Examples.shift_late
           (SingleWeek.emitted (H:=stable_argsort) true Examples.three_rooms
              idx st1 Examples.shift_late) a).
  - apply list_elem_of_further, list_elem_of_here.
  - vm_compute. apply list_elem_of_here.
  - vm_compute. apply list_elem_of_here.
Defined.

(** C3 as stated fails on a shift that ends before it starts: nothing is
    assigned, and the zero minutes used are more than the negative usable
    minutes. *)
Lemma time_budget_counterexample :
  let new :=
    SingleWeek.emitted (H:=stable_argsort) true Examples.three_rooms ∅
      SingleWeek.initial Examples.shift_backwards in
  (Examples.shift_backwards, new)
    ∈ (λ t, (t.1.2, t.2))
        <$> SingleWeek.trace (H:=stable_argsort) true Examples.three_rooms ∅
              SingleWeek.initial [Examples.shift_backwards]
  ∧ new = []
  ∧ ¬ (inject_Z (SingleWeek.ROOM_CHECK_TIME * Z.of_nat (length new))
       <= usable_time Examples.shift_backwards)%Q.
Proof.
  intros new. split; [apply list_elem_of_here|]. split; [by vm_compute|].
  vm_compute. intros Hle. by apply Hle.
Qed.

(** C3, amended. Time-budget respect: in a shift whose usable minutes are
    not negative, the rooms assigned times the check minutes (10 in the
    single-week script, 5 in the two-week script) are at most the usable
    minutes; a shift with no usable minute, or fewer than one check takes,
    is assigned nothing: so an 8-minute shift at 10 minutes a room. *)
Theorem time_budget_respected `{Argsort}
    (rooms : list RoomRow) (idx : gmap RoomDay (list Interval))
    (students : list StudentShift) :
  (∀ st s new,
     (st, s, new)
       ∈ SingleWeek.trace true rooms idx SingleWeek.initial students →
     ((0 <= usable_time s)%Q →
      (inject_Z (SingleWeek.ROOM_CHECK_TIME * Z.of_nat (length new))
       <= usable_time s)%Q)
     ∧ ((usable_time s < inject_Z SingleWeek.ROOM_CHECK_TIME)%Q → new = [])
     ∧ (end_dt s - start_dt s = 8 * 60000000000 → new = []))
  ∧ (∀ st s new,
       (st, s, new) ∈ TwoWeek.trace rooms idx TwoWeek.initial students →
       ((0 <= usable_time s)%Q →
        (inject_Z (TwoWeek.EFFECTIVE_ROOM_CHECK_TIME * Z.of_nat (length new))
         <= usable_time s)%Q)
       ∧ ((usable_time s < inject_Z TwoWeek.EFFECTIVE_ROOM_CHECK_TIME)%Q →
          new = []))
  ∧ SingleWeek.ROOM_CHECK_TIME = 10
  ∧ TwoWeek.EFFECTIVE_ROOM_CHECK_TIME = 5.
Proof.
  assert (∀ (c : Z) (u : Q) (n : nat),
            0 < c → ((0 <= u)%Q → (inject_Z (c * Z.of_nat n) <= u)%Q) →
            ((u <= 0)%Q → n = 0%nat) → (u < inject_Z c)%Q → n = 0%nat)
    as Hshort.
  { intros c u n Hc Hbudget Hskip Hlt.
    destruct (Qlt_le_dec 0 u) as [Hpos|Hneg]; [|by apply Hskip].
    destruct n as [|n]; [done|]. exfalso.
    apply (Qlt_not_le _ _ Hlt).
    eapply Qle_trans; [|apply Hbudget, Qlt_le_weak, Hpos].
    rewrite <- Zle_Qle. nia. }
  split; [|split; [|done]].
  - intros st s new Ht.
    apply SingleWeekFacts.elem_of_trace in Ht as [_ ->].
    destruct (SingleWeekFacts.emitted_spec true rooms idx st s)
      as (picked & -> & _ & _ & _ & Hbudget & Hskip & _).
    rewrite length_fmap.
    assert ((usable_time s < inject_Z SingleWeek.ROOM_CHECK_TIME)%Q →
            assignment_of s <$> picked = []) as Hlt.
    { intros Hlt. assert (picked = []) as ->; [|done].
      apply length_zero_iff_nil.
      apply (Hshort SingleWeek.ROOM_CHECK_TIME (usable_time s)); try done.
      intros Hle. by rewrite (Hskip Hle). }
    split; [done|]. split; [done|].
    intros Hlen. apply Hlt.
    unfold usable_time, total_shift_minutes, total_seconds. rewrite Hlen.
    by vm_compute.
  - intros st s new Ht.
    apply TwoWeekFacts.two_week_elem_of_trace in Ht as [_ ->].
    destruct (TwoWeekFacts.two_week_emitted_spec rooms idx st s)
      as (picked & -> & _ & _ & _ & Hbudget & Hskip & _).
    rewrite length_fmap. split; [done|].
    intros Hlt. assert (picked = []) as ->; [|done].
    apply length_zero_iff_nil.
    apply (Hshort TwoWeek.EFFECTIVE_ROOM_CHECK_TIME (usable_time s));
      try done.
    intros Hle. by rewrite (Hskip Hle).
Qed.

(** The 25-minute shift over three free rooms is given two of them, and
    the 8-minute shift none. *)
Lemma time_budget_respected_witness :
  let new :=
    SingleWeek.emitted (H:=stable_argsort) true Examples.three_rooms ∅
      SingleWeek.initial Examples.shift_25 in
  let new8 :=
    SingleWeek.emitted (H:=stable_argsort) true Examples.three_rooms ∅
      SingleWeek.initial Examples.shift_8 in
  (inject_Z (SingleWeek.ROOM_CHECK_TIME * Z.of_nat (length new))
   <= usable_time Examples.shift_25)%Q
  ∧ new8 = [].
Proof.
  intros new new8.
  destruct (time_budget_respected (H:=stable_argsort) Examples.three_rooms ∅
              [Examples.shift_25]) as [Hsingle _].
  destruct (time_budget_respected (H:=stable_argsort) Examples.three_rooms ∅
              [Examples.shift_8]) as [Hsingle8 _].
  split.
  - apply (Hsingle SingleWeek.initial Examples.shift_25 new).
    + apply list_elem_of_here.
    + by vm_compute.
  - apply (Hsingle8 SingleWeek.initial Examples.shift_8 new8).
    + apply list_elem_of_here.
    + reflexivity.
Defined.

(** C4. Single zone per shift: every record appended during a shift
    carries the zone chosen for that shift ([zone_chosen], [zone_locked]);
    the rooms the shift is given are taken, in order, from the candidate
    rooms of that zone, and every candidate is a room of that zone not
    assigned before the shift. *)
Theorem single_zone_per_shift `{Argsort}
    (rooms : list RoomRow) (idx : gmap RoomDay (list Interval))
    (students : list StudentShift) :
  (∀ st s new,
     (st, s, new)
       ∈ SingleWeek.trace true rooms idx SingleWeek.initial students →
     (∀ a, a ∈ new → SingleWeek.zone_chosen rooms st = Some (Zone a))
     ∧ ∃ picked, new = assignment_of s <$> picked
         ∧ (picked = [] ∨
            ∃ z, SingleWeek.zone_chosen rooms st = Some z
              ∧ picked `sublist_of` SingleWeek.zone_rooms_df rooms st z
              ∧ ∀ r, r ∈ SingleWeek.zone_rooms_df rooms st z →
                  r ∈ rooms ∧ zone r = z
                  ∧ room r ∉ SingleWeek.rooms_assigned st))
  ∧ (∀ st s new,
       (st, s, new) ∈ TwoWeek.trace rooms idx TwoWeek.initial students →
       (∀ a, a ∈ new → TwoWeek.zone_locked rooms idx st s = Some (Zone a))
       ∧ ∃ picked, new = assignment_of s <$> picked
           ∧ (picked = [] ∨
              ∃ z, TwoWeek.zone_locked rooms idx st s = Some z
                ∧ picked `sublist_of` TwoWeek.candidate rooms st z
                ∧ ∀ r, r ∈ TwoWeek.candidate rooms st z →
                    r ∈ rooms ∧ zone r = z
                    ∧ room r ∉ TwoWeek.rooms_assigned_global st)).
Proof.
  split.
  - intros st s new Ht.
    apply SingleWeekFacts.elem_of_trace in Ht as [_ ->].
    destruct (SingleWeekFacts.emitted_spec true rooms idx st s)
      as (picked & -> & _ & Hzone & _).
    split.
    + intros a Ha. apply list_elem_of_fmap in Ha as (r & -> & Hr). simpl.
      destruct Hzone as [->|(z & Hz & _ & Hsub)];
        [by apply elem_of_nil in Hr|].
      destruct (SingleWeekFacts.picked_in_zone rooms st z picked r Hsub Hr)
        as (_ & <- & _). done.
    + exists picked. split; [done|].
      destruct Hzone as [->|(z & Hz & _ & Hsub)]; [by left|right].
      exists z. split; [done|]. split; [done|].
      intros r Hr. by apply SingleWeekFacts.elem_of_zone_rooms_df.
  - intros st s new Ht.
    apply TwoWeekFacts.two_week_elem_of_trace in Ht as [_ ->].
    destruct (TwoWeekFacts.two_week_emitted_spec rooms idx st s)
      as (picked & -> & _ & Hzone & _).
    split.
    + intros a Ha. apply list_elem_of_fmap in Ha as (r & -> & Hr). simpl.
      destruct Hzone as [->|(z & Hz & Hsub)];
        [by apply elem_of_nil in Hr|].
      destruct (TwoWeekFacts.two_week_picked_in_zone rooms st z picked r Hsub Hr)
        as (_ & <- & _). done.
    + exists picked. split; [done|].
      destruct Hzone as [->|(z & Hz & Hsub)]; [by left|right].
      exists z. split; [done|]. split; [done|].
      intros r Hr. by apply TwoWeekFacts.elem_of_candidate.
Qed.

(** The 25-minute shift over the three rooms of zone Z: its first record
    carries the chosen zone. *)
Lemma single_zone_per_shift_witness :
  SingleWeek.zone_chosen (H:=stable_argsort) Examples.three_rooms
    SingleWeek.initial
  = Some (Zone (assignment_of Examples.shift_25 Examples.rA1)).
Proof.
  destruct (single_zone_per_shift (H:=stable_argsort) Examples.three_rooms ∅
              [Examples.shift_25]) as [Hsingle _].
  destruct (Hsingle SingleWeek.initial Examples.shift_25
              (SingleWeek.emitted (H:=stable_argsort) true
                 Examples.three_rooms ∅ SingleWeek.initial
                 Examples.shift_25)) as [Hzone _].
  - apply list_elem_of_here.
  - apply Hzone. vm_compute. apply list_elem_of_here.
Defined.

(** C5. Week-split conservation: in [df_out], the records of a student
    and day with the week-1 label are the first [split_idx n] records of
    that student and day in [df_base], in their order, relabelled; those
    with the week-2 label are the remaining ones, in their order;
    [split_idx n] is [ceil(n / 2)], that is [(n + 1) / 2]; the two counts
    add up to [n]. *)
Theorem week_split_conservation `{Argsort}
    (df_base : list Assignment) (student day : string) :
  let grp :=
    filter (λ a, Student a = Some student ∧ Day a = day) df_base in
  let n := length grp in
  let w1 :=
    filter (λ a, Student a = Some student ∧ Day a = day +:+ " 1")
      (TwoWeek.week_split df_base) in
  let w2 :=
    filter (λ a, Student a = Some student ∧ Day a = day +:+ " 2")
      (TwoWeek.week_split df_base) in
  w1 = (λ a, TwoWeek.relabel a (day +:+ " 1"))
         <$> take (TwoWeek.split_idx n) grp
  ∧ w2 = (λ a, TwoWeek.relabel a (day +:+ " 2"))
           <$> drop (TwoWeek.split_idx n) grp
  ∧ Z.of_nat (TwoWeek.split_idx n) = Qceiling (inject_Z (Z.of_nat n) / 2)
  ∧ TwoWeek.split_idx n = ((n + 1) / 2)%nat
  ∧ length w1 = TwoWeek.split_idx n
  ∧ length w2 = (n - TwoWeek.split_idx n)%nat
  ∧ (length w1 + length w2 = n)%nat.
Proof.
  intros grp n w1 w2.
  assert (w1 = (λ a, TwoWeek.relabel a (day +:+ " 1"))
                 <$> take (TwoWeek.split_idx n) grp) as H1.
  { unfold w1. by rewrite WeekSplitFacts.week_split_week1. }
  assert (w2 = (λ a, TwoWeek.relabel a (day +:+ " 2"))
                 <$> drop (TwoWeek.split_idx n) grp) as H2.
  { unfold w2. by rewrite WeekSplitFacts.week_split_week2. }
  pose proof (WeekSplitFacts.split_idx_le n) as Hle.
  assert (length w1 = TwoWeek.split_idx n) as L1.
  { rewrite H1, length_fmap, length_take. fold n. lia. }
  assert (length w2 = (n - TwoWeek.split_idx n)%nat) as L2.
  { rewrite H2, length_fmap, length_drop. by fold n. }
  split; [done|]. split; [done|]. split.
  - rewrite Qceiling_half, WeekSplitFacts.split_idx_eq.
    by rewrite Nat2Z.inj_div, Nat2Z.inj_add.
  - split; [apply WeekSplitFacts.split_idx_eq|].
    split; [done|]. split; [done|]. lia.
Qed.

(** Five records of one student and day: three go to week 1 and two to
    week 2, in their order. *)
Example week_split_five :
  (λ a, (Room a, Day a))
    <$> TwoWeek.week_split (H:=stable_argsort) Examples.five_records
  = [("R1", "Monday 1"); ("R2", "Monday 1"); ("R3", "Monday 1");
     ("R4", "Monday 2"); ("R5", "Monday 2")].
Proof. by vm_compute. Qed.

(** C6. Candidate ordering.  The single-week script orders the candidates
    of the chosen zone by priority alone; the two-week script orders them
    by priority, then building, then room.  With priorities 1, 3, 2 the
    25-minute shift is given the priority-1 room, then the priority-2
    room.  With two rooms of equal priority, whatever [argsort] does with
    equal keys, one listing of the inventory has the single-week script
    check B2 and leave A1, where the two-week script starts with A1. *)
Theorem candidate_order `{Argsort} (rooms : list RoomRow) (z : string)
    (st1 : SingleWeek.State) (st2 : TwoWeek.State) :
  (SingleWeek.zone_rooms_df rooms st1 z
     ≡ₚ zone_available rooms (SingleWeek.rooms_assigned st1) z
   ∧ StronglySorted (λ a b, priority a ≤ priority b)
       (SingleWeek.zone_rooms_df rooms st1 z))
  ∧ (TwoWeek.candidate rooms st2 z
       ≡ₚ zone_available rooms (TwoWeek.rooms_assigned_global st2) z
     ∧ StronglySorted (λ a b, room_leb a b = true)
         (TwoWeek.candidate rooms st2 z))
  ∧ Room <$> SingleWeek.assignments
               (SingleWeek.run true Examples.three_rooms ∅
                  [Examples.shift_25]) = ["A1"; "C1"]
  ∧ (Room <$> SingleWeek.assignments
                (SingleWeek.run true [Examples.rB2; Examples.rA1] ∅
                   [Examples.shift_10]) = ["B2"]
     ∨ Room <$> SingleWeek.assignments
                  (SingleWeek.run true [Examples.rA1; Examples.rB2] ∅
                     [Examples.shift_10]) = ["B2"])
  ∧ Room <$> TwoWeek.assignments_base
               (TwoWeek.run [Examples.rB2; Examples.rA1] ∅
                  [Examples.shift_10]) = ["A1"; "B2"].
Proof.
  split; [|split; [|split; [|split]]].
  - split; [apply sort_values_perm|apply sort_values_sorted].
  - split; [apply stable_sort_perm|apply stable_sort_room_sorted].
  - apply three_rooms_25_minutes.
  - apply tied_rooms_10_minutes.
  - apply two_week_on_tied_rooms.
Qed.

(** With ties kept in the order of the table, the listing B2, A1 is the
    one on which the single-week script checks B2. *)
Example tied_rooms_in_table_order :
  Room <$> SingleWeek.assignments
             (SingleWeek.run (H:=stable_argsort) true Examples.tied_rooms ∅
                [Examples.shift_10]) = ["B2"].
Proof. by vm_compute. Qed.

(** C7. Zone selection.  The ranking holds exactly the zones that still
    have an unassigned room, by decreasing number of their remaining rooms
    of priority at most 2, and both scripts take its first zone.  In the
    single-week script a zone named by the empty string is chosen and then
    read as no zone: the shift is skipped although a room is free; the
    two-week script assigns that room. *)
Theorem zone_selection `{Argsort} (rooms : list RoomRow)
    (idx : gmap RoomDay (list Interval))
    (st1 : SingleWeek.State) (st2 : TwoWeek.State) (s : StudentShift) :
  (∀ assigned z,
     z ∈ (zone_scores rooms assigned).*1 ↔
     ∃ r, r ∈ rooms ∧ zone r = z ∧ room r ∉ assigned)
  ∧ (∀ assigned,
       StronglySorted (λ a b, b.2 ≤ a.2) (zone_scores rooms assigned))
  ∧ (∀ assigned z n,
       (z, n) ∈ zone_scores rooms assigned →
       n = Z.of_nat (length (filter (λ r, priority r ≤ 2)
                       (zone_available rooms assigned z))))
  ∧ (SingleWeek.zone_chosen rooms st1
     = head (zone_scores rooms (SingleWeek.rooms_assigned st1)).*1
     ∧ (SingleWeek.zone_chosen rooms st1 = None ↔
        ∀ r, r ∈ rooms → room r ∈ SingleWeek.rooms_assigned st1))
  ∧ ((0 < usable_time s)%Q →
     TwoWeek.zone_locked rooms idx st2 s
     = head (zone_scores rooms (TwoWeek.rooms_assigned_global st2)).*1
     ∧ (TwoWeek.zone_locked rooms idx st2 s = None ↔
        ∀ r, r ∈ rooms → room r ∈ TwoWeek.rooms_assigned_global st2))
  ∧ (SingleWeek.zone_chosen [Examples.rE1] SingleWeek.initial = Some ""
     ∧ SingleWeek.assignments
         (SingleWeek.run true [Examples.rE1] ∅ [Examples.shift_25]) = [])
  ∧ Room <$> TwoWeek.assignments_base
               (TwoWeek.run [Examples.rE1] ∅ [Examples.shift_25]) = ["E1"].
Proof.
  split; [|split; [|split; [|split; [|split; [|split]]]]].
  - intros. apply elem_of_zone_scores_index.
  - intros. apply zone_scores_sorted.
  - intros assigned z' n. apply zone_scores_score.
  - split; [apply SingleWeekFacts.zone_chosen_head|].
    rewrite SingleWeekFacts.zone_chosen_head, <- zone_scores_index_nil.
    by destruct ((zone_scores rooms (SingleWeek.rooms_assigned st1)).*1).
  - intros Hpos. split; [by apply TwoWeekFacts.zone_locked_head|].
    rewrite TwoWeekFacts.zone_locked_head, <- zone_scores_index_nil by done.
    by destruct ((zone_scores rooms (TwoWeek.rooms_assigned_global st2)).*1).
  - apply empty_zone_name_skipped.
  - apply two_week_on_empty_zone_name.
Qed.

(** C8 as stated fails on a confirmed class whose times did not parse:
    both of its rooms get an entry in the index. *)
Lemma unparsed_class_counterexample :
  Start_DateTime Examples.class_unparsed = None
  ∧ End_DateTime Examples.class_unparsed = None
  ∧ schedule_by_room_day [Examples.class_unparsed]
      !! ("A1", Some "Monday") = Some [(None, None)]
  ∧ schedule_by_room_day [Examples.class_unparsed]
      !! ("C1", Some "Monday") = Some [(None, None)].
Proof. by vm_compute. Qed.

(** C8, amended. Occupancy index construction: the intervals under a key
    are those of the confirmed rows that list the key's room, one for each
    listing, with the row's day and its two date-times, in the order of
    the rows; a row that is not confirmed adds nothing; a row whose times
    did not parse adds entries whose ends are [NaT], and such an entry
    never counts as a conflict. *)
Theorem occupancy_index_construction (schedule : list ClassRow) :
  (∀ k iv,
     iv ∈ default [] (schedule_by_room_day schedule !! k) ↔
     ∃ r name, r ∈ schedule ∧ Status r = "Confirmed"
       ∧ name ∈ str_split_comma (Locations r)
       ∧ k = (str_strip name,
              schedule_day_map (day_of_week_of_first_session r))
       ∧ iv = (Start_DateTime r, End_DateTime r))
  ∧ (∀ k,
       default [] (schedule_by_room_day schedule !! k)
       = snd <$> filter (λ x, x.1 = k) (explode_schedule schedule))
  ∧ (∀ r,
       explode_schedule [r]
       = if decide (Status r = "Confirmed")
         then (λ name,
                 ((str_strip name,
                   schedule_day_map (day_of_week_of_first_session r)),
                  (Start_DateTime r, End_DateTime r)))
                <$> str_split_comma (Locations r)
         else [])
  ∧ (∀ shift_start shift_end t,
       overlaps shift_start shift_end (None, t) = false
       ∧ overlaps shift_start shift_end (t, None) = false)
  ∧ (∀ room_name day shift_start shift_end,
       has_conflict (schedule_by_room_day schedule) room_name day
         shift_start shift_end = true ↔
       ∃ a b,
         (Some a, Some b)
           ∈ default [] (schedule_by_room_day schedule
                           !! (room_name, Some day))
         ∧ a < shift_end ∧ shift_start < b).
Proof.
  split; [|split; [|split; [|split]]].
  - apply elem_of_schedule_by_room_day.
  - apply schedule_by_room_day_lookup.
  - intros r. unfold explode_schedule. rewrite filter_cons, filter_nil.
    destruct (decide (Status r = "Confirmed")); csimpl; [|done].
    by rewrite app_nil_r.
  - intros shift_start shift_end [t|]; by split.
  - intros. apply has_conflict_true.
Qed.

(** Three class rows: the confirmed class with its times, the confirmed
    class without, and a cancelled class that leaves no entry. *)
Example index_of_three_classes :
  map_to_list
    (schedule_by_room_day
       [Examples.class_A1; Examples.class_unparsed; Examples.class_cancelled])
  = [("C1", Some "Monday", [(None, None)]);
     ("A1", Some "Monday",
      [(Some (Examples.monday_at 9 0), Some (Examples.monday_at 9 50));
       (None, None)])].
Proof. by vm_compute. Qed.

(** The class in A1 keeps the 09:30 shift out of A1 and leaves it to the
    10:00 shift. *)
Example class_in_A1 :
  (λ a, (Room a, Shift_Start a, Shift_End a))
    <$> SingleWeek.assignments
          (SingleWeek.run (H:=stable_argsort) true Examples.three_rooms
             (schedule_by_room_day [Examples.class_A1])
             [Examples.shift_overlapping; Examples.shift_late])
  = [("C1", "09:30", "11:00"); ("B1", "09:30", "11:00");
     ("A1", "10:00", "11:00")].
Proof. by vm_compute. Qed.

(** The week test matters when a room is listed twice. *)
Example week_check_needed_for_duplicates :
  Room <$> SingleWeek.assignments
             (SingleWeek.run (H:=stable_argsort) true Examples.twice_listed ∅
                [Examples.shift_25]) = ["A1"]
  ∧ Room <$> SingleWeek.assignments
               (SingleWeek.run (H:=stable_argsort) false
                  Examples.twice_listed ∅ [Examples.shift_25])
    = ["A1"; "A1"].
Proof. by vm_compute. Qed.

(** * Further properties of the code *)

(** ** The occupancy index, continued *)

Lemma explode_schedule_app s1 s2 :
  explode_schedule (s1 ++ s2) = explode_schedule s1 ++ explode_schedule s2.
Proof. unfold explode_schedule. by rewrite filter_app, bind_app. Qed.

(** X1. The index of two schedules put one after the other holds, under
    every key, the intervals of the first followed by those of the
    second. *)
Theorem index_of_appended_schedules (s1 s2 : list ClassRow) (k : RoomDay) :
  default [] (schedule_by_room_day (s1 ++ s2) !! k)
  = default [] (schedule_by_room_day s1 !! k)
    ++ default [] (schedule_by_room_day s2 !! k).
Proof.
  rewrite !schedule_by_room_day_lookup, explode_schedule_app.
  by rewrite filter_app, fmap_app.
Qed.

Lemma foldl_index_append_nonempty rows idx :
  (∀ k l, idx !! k = Some l → l ≠ []) →
  ∀ k l, foldl index_append idx rows !! k = Some l → l ≠ [].
Proof.
  revert idx. induction rows as [|row rows IH]; intros idx Hidx; [done|].
  simpl. apply IH. intros k l. unfold index_append.
  destruct (decide (row.1 = k)) as [->|Hne].
  - rewrite lookup_insert_eq. intros [= <-]. by destruct (default _ _).
  - rewrite lookup_insert_ne by done. apply Hidx.
Qed.

(** X2. The index never stores an empty list: a key is present exactly
    when some confirmed row lists its room on its day, and a key that is
    absent is one no confirmed row gives. *)
Theorem index_keys (schedule : list ClassRow) (k : RoomDay) :
  (∀ l, schedule_by_room_day schedule !! k = Some l → l ≠ [])
  ∧ (is_Some (schedule_by_room_day schedule !! k) ↔
     ∃ r name, r ∈ schedule ∧ Status r = "Confirmed"
       ∧ name ∈ str_split_comma (Locations r)
       ∧ k = (str_strip name,
              schedule_day_map (day_of_week_of_first_session r))).
Proof.
  assert (∀ l, schedule_by_room_day schedule !! k = Some l → l ≠ [])
    as Hne.
  { intros l. apply (foldl_index_append_nonempty _ ∅). intros k' l'.
    by rewrite lookup_empty. }
  split; [done|]. split.
  - intros [l Hl]. specialize (Hne l Hl).
    destruct l as [|iv l]; [done|].
    assert (iv ∈ default [] (schedule_by_room_day schedule !! k)) as Hin
      by (rewrite Hl; by left).
    apply elem_of_schedule_by_room_day in Hin
      as (r & name & Hr & Hc & Hn & Hk & _).
    by exists r, name.
  - intros (r & name & Hr & Hc & Hn & Hk).
    assert ((Start_DateTime r, End_DateTime r)
              ∈ default [] (schedule_by_room_day schedule !! k)) as Hin.
    { apply elem_of_schedule_by_room_day. by exists r, name. }
    destruct (schedule_by_room_day schedule !! k) as [l|]; [by exists l|].
    by apply elem_of_nil in Hin.
Qed.

(** X3. For a class and a shift that both last some time, the conflict
    test says whether they share an instant, each taken from its start up
    to, not including, its end; so a class that ends when the shift
    starts, or starts when it ends, is no conflict. *)
Theorem overlaps_common_instant (a b shift_start shift_end : Z) :
  a < b → shift_start < shift_end →
  (overlaps shift_start shift_end (Some a, Some b) = true ↔
   ∃ t, (a ≤ t < b) ∧ (shift_start ≤ t < shift_end))
  ∧ (b ≤ shift_start ∨ shift_end ≤ a →
     overlaps shift_start shift_end (Some a, Some b) = false).
Proof.
  intros Hab Hse. split.
  - rewrite overlaps_true. split.
    + intros (a' & b' & [= <- <-] & H1 & H2).
      exists (Z.max a shift_start). lia.
    + intros (t & Ht1 & Ht2). exists a, b. split; [done|]. lia.
  - intros Hout. apply not_true_iff_false. rewrite overlaps_true.
    intros (a' & b' & [= <- <-] & H1 & H2). lia.
Qed.

Lemma overlaps_common_instant_witness :
  overlaps (Examples.monday_at 10 0) (Examples.monday_at 11 0)
    (Some (Examples.monday_at 9 0), Some (Examples.monday_at 10 0)) = false.
Proof.
  apply (overlaps_common_instant (Examples.monday_at 9 0)
           (Examples.monday_at 10 0) (Examples.monday_at 10 0)
           (Examples.monday_at 11 0)).
  - by vm_compute.
  - by vm_compute.
  - left. by vm_compute.
Defined.

(** ** The greedy pass over the candidates *)

Lemma StronglySorted_sublist {A} (R : relation A) (l1 l2 : list A) :
  l1 `sublist_of` l2 → StronglySorted R l2 → StronglySorted R l1.
Proof.
  induction 1 as [|x l1 l2 Hsub IH|x l1 l2 Hsub IH]; intros Hs; [done| |].
  - apply StronglySorted_inv in Hs as [Hs Hx].
    constructor; [by apply IH|].
    apply Forall_forall. intros y Hy. rewrite Forall_forall in Hx.
    by apply Hx, (sublist_subseteq _ _ Hsub).
  - apply StronglySorted_inv in Hs as [Hs _]. by apply IH.
Qed.

Lemma take_drop_sorted {A} (R : relation A) (l : list A) k x y :
  StronglySorted R l → x ∈ take k l → y ∈ drop k l → R x y.
Proof.
  intros Hs Hx Hy. rewrite <- (take_drop k l) in Hs.
  by apply (StronglySorted_app_1_elem_of R _ _ x y Hs).
Qed.

Section GreedySingleWeek.
Variable idx : gmap RoomDay (list Interval).
Variable student : StudentShift.
Variable week_num : Z.

(** Without the week test, the loop assigns the free candidates in order
    until one does not fit. *)
Lemma single_week_loop_greedy cands time_used st :
  ∃ k,
    SingleWeek.rooms_loop false idx student week_num cands time_used st
    = SingleWeekFacts.assign_all student week_num st
        (take k (free_during idx student cands))
    ∧ (k ≤ length (free_during idx student cands))%nat
    ∧ ((inject_Z time_used <= usable_time student)%Q →
       (inject_Z (time_used + SingleWeek.ROOM_CHECK_TIME * Z.of_nat k)
        <= usable_time student)%Q)
    ∧ (k = length (free_during idx student cands)
       ∨ (usable_time student
          < inject_Z (time_used
                      + SingleWeek.ROOM_CHECK_TIME * (Z.of_nat k + 1)))%Q).
Proof.
  revert time_used st.
  induction cands as [|r cands IH]; intros time_used st.
  { exists 0%nat. simpl. split; [done|]. split; [done|]. split; [|by left].
    intros Hle. by rewrite Z.mul_0_r, Z.add_0_r. }
  unfold free_during. rewrite filter_cons. simpl.
  destruct (has_conflict idx (room r) (weekday student) (start_dt student)
              (end_dt student)) eqn:Hconf.
  { rewrite decide_False by done. apply IH. }
  rewrite decide_True by done.
  destruct (Qlt_le_dec (usable_time student)
              (inject_Z (time_used + SingleWeek.ROOM_CHECK_TIME)))
    as [Hlt|Hfit].
  { exists 0%nat. simpl. split; [done|]. split; [lia|]. split.
    - intros Hle. by rewrite Z.mul_0_r, Z.add_0_r.
    - right. by rewrite Z.mul_1_r. }
  destruct (IH (time_used + SingleWeek.ROOM_CHECK_TIME)
              (SingleWeek.assign st student week_num r))
    as (k & Heq & Hk & Htime & Hstop).
  unfold free_during in *.
  exists (S k). split; [by rewrite Heq|]. split; [simpl; lia|]. split.
  - intros _. specialize (Htime Hfit).
    replace (time_used + SingleWeek.ROOM_CHECK_TIME * Z.of_nat (S k))
      with (time_used + SingleWeek.ROOM_CHECK_TIME
            + SingleWeek.ROOM_CHECK_TIME * Z.of_nat k) by lia.
    done.
  - destruct Hstop as [->|Hstop]; [by left|right].
    replace (time_used + SingleWeek.ROOM_CHECK_TIME * (Z.of_nat (S k) + 1))
      with (time_used + SingleWeek.ROOM_CHECK_TIME
            + SingleWeek.ROOM_CHECK_TIME * (Z.of_nat k + 1)) by lia.
    done.
Qed.

End GreedySingleWeek.

(** X4. The single-week shift is greedy.  With every room name listed
    once, a shift that goes ahead in zone [z] is given the first [k]
    candidates of the zone that have no class during the shift, in the
    order of the candidates; they fit in the usable time; either all free
    candidates were given or one more would not fit; and no free
    candidate left out has a smaller priority number than one that was
    given. *)
Theorem single_week_shift_greedy `{Argsort}
    (rooms : list RoomRow) (idx : gmap RoomDay (list Interval))
    (students : list StudentShift) (st : SingleWeek.State)
    (s : StudentShift) (new : list Assignment) (z : string) :
  NoDup (room <$> rooms) →
  (st, s, new)
    ∈ SingleWeek.trace true rooms idx SingleWeek.initial students →
  (0 < usable_time s)%Q →
  SingleWeek.zone_chosen rooms st = Some z → z ≠ "" →
  ∃ k,
    new = assignment_of s
            <$> take k (free_during idx s (SingleWeek.zone_rooms_df rooms st z))
    ∧ (inject_Z (SingleWeek.ROOM_CHECK_TIME * Z.of_nat k)
       <= usable_time s)%Q
    ∧ (k = length (free_during idx s (SingleWeek.zone_rooms_df rooms st z))
       ∨ (usable_time s
          < inject_Z (SingleWeek.ROOM_CHECK_TIME * (Z.of_nat k + 1)))%Q)
    ∧ (∀ r r',
         r ∈ take k (free_during idx s (SingleWeek.zone_rooms_df rooms st z)) →
         r' ∈ drop k (free_during idx s (SingleWeek.zone_rooms_df rooms st z)) →
         priority r ≤ priority r').
Proof.
  intros Hnd Ht Hpos Hz Hne.
  pose proof (SingleWeekFacts.Inv_trace rooms idx true students _ _ _ _
                (SingleWeekFacts.Inv_initial rooms) Ht) as Hinv.
  apply SingleWeekFacts.elem_of_trace in Ht as [_ ->].
  unfold SingleWeek.emitted.
  rewrite (SingleWeekFacts.shift_body_week_check_redundant rooms idx st s
             Hnd Hinv).
  rewrite (shift_body_in_zone false rooms idx st s z Hpos Hz Hne).
  destruct (single_week_loop_greedy idx s (isocalendar_week (start_dt s))
              (SingleWeek.zone_rooms_df rooms st z) 0 st)
    as (k & -> & Hk & Htime & Hstop).
  exists k. rewrite SingleWeekFacts.assign_all_assignments, drop_app_length.
  rewrite !Z.add_0_l in *.
  split; [done|]. split; [by apply Htime, Qlt_le_weak|]. split; [done|].
  intros r r' Hr Hr'.
  apply (take_drop_sorted (λ a b, priority a ≤ priority b)
           (free_during idx s (SingleWeek.zone_rooms_df rooms st z)) k r r');
    [|done|done].
  apply StronglySorted_filter, sort_values_sorted.
Qed.

Lemma single_week_shift_greedy_witness :
  ∃ k,
    SingleWeek.emitted (H:=stable_argsort) true Examples.three_rooms ∅
      SingleWeek.initial Examples.shift_25
    = assignment_of Examples.shift_25
        <$> take k (free_during ∅ Examples.shift_25
                      (SingleWeek.zone_rooms_df (H:=stable_argsort)
                         Examples.three_rooms SingleWeek.initial "Z"))
    ∧ (k = 3%nat
       ∨ (usable_time Examples.shift_25
          < inject_Z (SingleWeek.ROOM_CHECK_TIME * (Z.of_nat k + 1)))%Q).
Proof.
  destruct (single_week_shift_greedy (H:=stable_argsort) Examples.three_rooms
              ∅ [Examples.shift_25] SingleWeek.initial Examples.shift_25
              (SingleWeek.emitted (H:=stable_argsort) true
                 Examples.three_rooms ∅ SingleWeek.initial Examples.shift_25)
              "Z") as (k & Hnew & _ & Hstop & _).
  - vm_compute. repeat constructor; set_solver.
  - apply list_elem_of_here.
  - by vm_compute.
  - by vm_compute.
  - done.
  - exists k. split; [exact Hnew|exact Hstop].
Defined.

Section GreedyTwoWeek.
Variable idx : gmap RoomDay (list Interval).
Variable student : StudentShift.

(** [used_this_shift] only ever holds rooms of [rooms_assigned_global], so
    its test never decides. *)
Lemma two_week_loop_used_irrelevant cands time_used used1 used2 st :
  used1 ⊆ TwoWeek.rooms_assigned_global st →
  used2 ⊆ TwoWeek.rooms_assigned_global st →
  TwoWeek.rooms_loop idx student cands time_used used1 st
  = TwoWeek.rooms_loop idx student cands time_used used2 st.
Proof.
  revert time_used used1 used2 st.
  induction cands as [|r cands IH]; intros time_used used1 used2 st H1 H2;
    [done|].
  simpl.
  assert (∀ used, used ⊆ TwoWeek.rooms_assigned_global st →
            bool_decide (room r ∈ used)
            || bool_decide (room r ∈ TwoWeek.rooms_assigned_global st)
            = bool_decide (room r ∈ TwoWeek.rooms_assigned_global st))
    as Hskip.
  { intros used Hused.
    destruct (decide (room r ∈ TwoWeek.rooms_assigned_global st)) as [Hin|Hn].
    - rewrite (bool_decide_eq_true_2 _ Hin). by rewrite orb_true_r.
    - rewrite (bool_decide_eq_false_2 _ Hn), orb_false_r.
      apply bool_decide_eq_false_2. intros Hin. by apply Hn, Hused. }
  rewrite (Hskip used1 H1), (Hskip used2 H2).
  destruct (bool_decide (room r ∈ TwoWeek.rooms_assigned_global st));
    [by apply IH|].
  destruct (has_conflict _ _ _ _ _); [by apply IH|].
  destruct (Qlt_le_dec _ _); [done|].
  apply IH; simpl; set_solver.
Qed.

Lemma two_week_loop_greedy cands time_used used st :
  NoDup (room <$> cands) →
  (∀ r, r ∈ cands →
     (room r ∉ used) ∧ (room r ∉ TwoWeek.rooms_assigned_global st)) →
  ∃ k,
    TwoWeek.rooms_loop idx student cands time_used used st
    = TwoWeekFacts.assign_all student st
        (take k (free_during idx student cands))
    ∧ (k ≤ length (free_during idx student cands))%nat
    ∧ ((inject_Z time_used <= usable_time student)%Q →
       (inject_Z (time_used
                  + TwoWeek.EFFECTIVE_ROOM_CHECK_TIME * Z.of_nat k)
        <= usable_time student)%Q)
    ∧ (k = length (free_during idx student cands)
       ∨ (usable_time student
          < inject_Z (time_used
                      + TwoWeek.EFFECTIVE_ROOM_CHECK_TIME
                        * (Z.of_nat k + 1)))%Q).
Proof.
  revert time_used used st.
  induction cands as [|r cands IH]; intros time_used used st Hnd Hfresh.
  { exists 0%nat. simpl. split; [done|]. split; [done|]. split; [|by left].
    intros Hle. by rewrite Z.mul_0_r, Z.add_0_r. }
  rewrite fmap_cons in Hnd. apply NoDup_cons in Hnd as [Hr Hnd].
  destruct (Hfresh r) as [Hu Hg]; [by left|].
  assert (∀ r', r' ∈ cands →
            (room r' ∉ used) ∧ (room r' ∉ TwoWeek.rooms_assigned_global st))
    as Hrest by (intros r' Hr'; apply Hfresh; by right).
  unfold free_during. rewrite filter_cons. simpl.
  rewrite (bool_decide_eq_false_2 _ Hu), (bool_decide_eq_false_2 _ Hg).
  simpl.
  destruct (has_conflict idx (room r) (weekday student) (start_dt student)
              (end_dt student)) eqn:Hconf.
  { rewrite decide_False by done. by apply IH. }
  rewrite decide_True by done.
  destruct (Qlt_le_dec (usable_time student)
              (inject_Z (time_used + TwoWeek.EFFECTIVE_ROOM_CHECK_TIME)))
    as [Hlt|Hfit].
  { exists 0%nat. simpl. split; [done|]. split; [lia|]. split.
    - intros Hle. by rewrite Z.mul_0_r, Z.add_0_r.
    - right. by rewrite Z.mul_1_r. }
  destruct (IH (time_used + TwoWeek.EFFECTIVE_ROOM_CHECK_TIME)
              (used ∪ {[room r]}) (TwoWeek.assign st student r))
    as (k & Heq & Hk & Htime & Hstop); [done| |].
  { intros r' Hr'. destruct (Hrest r' Hr') as [Hu' Hg'].
    assert (room r' ≠ room r) as Hne.
    { intros Heq. apply Hr. rewrite <- Heq. by apply list_elem_of_fmap_2. }
    simpl. set_solver. }
  unfold free_during in *.
  exists (S k). split; [by rewrite Heq|]. split; [simpl; lia|]. split.
  - intros _. specialize (Htime Hfit).
    replace (time_used + TwoWeek.EFFECTIVE_ROOM_CHECK_TIME * Z.of_nat (S k))
      with (time_used + TwoWeek.EFFECTIVE_ROOM_CHECK_TIME
            + TwoWeek.EFFECTIVE_ROOM_CHECK_TIME * Z.of_nat k) by lia.
    done.
  - destruct Hstop as [->|Hstop]; [by left|right].
    replace (time_used
             + TwoWeek.EFFECTIVE_ROOM_CHECK_TIME * (Z.of_nat (S k) + 1))
      with (time_used + TwoWeek.EFFECTIVE_ROOM_CHECK_TIME
            + TwoWeek.EFFECTIVE_ROOM_CHECK_TIME * (Z.of_nat k + 1)) by lia.
    done.
Qed.

End GreedyTwoWeek.

Section ShiftTwoWeek.
Context `{Argsort}.
Variable rooms : list RoomRow.
Variable idx : gmap RoomDay (list Interval).

Lemma shift_body_locked st student z :
  TwoWeek.zone_locked rooms idx st student = Some z →
  (0 < usable_time student)%Q
  ∧ TwoWeek.shift_body rooms idx st student
    = TwoWeek.rooms_loop idx student (TwoWeek.candidate rooms st z) 0 ∅ st.
Proof.
  unfold TwoWeek.zone_locked, TwoWeek.shift_body, TwoWeek.shift_result.
  destruct (Qlt_le_dec 0 (usable_time student)) as [Hpos|_]; [|done].
  destruct (TwoWeekFacts.zones_loop_spec rooms idx student
              (zone_scores rooms (TwoWeek.rooms_assigned_global st)).*1 st)
    as [[-> _]|(z' & before & after & _ & _ & _ & ->)]; [done|].
  simpl. by intros [= ->].
Qed.

Lemma candidate_NoDup st z :
  NoDup (room <$> rooms) → NoDup (room <$> TwoWeek.candidate rooms st z).
Proof.
  intros Hnd. unfold TwoWeek.candidate. rewrite stable_sort_perm.
  eapply sublist_NoDup; [exact Hnd|].
  apply fmap_sublist, sublist_filter.
Qed.

End ShiftTwoWeek.

(** X5. The two-week shift is greedy.  With every room name listed once,
    a shift that locks zone [z] is given the first [k] candidates of the
    zone that have no class during the shift, in (priority, building,
    room) order; they fit in the usable time at 5 minutes a room; either
    all free candidates were given or one more would not fit; and every
    free candidate left out comes after those given in that order. *)
Theorem two_week_shift_greedy `{Argsort}
    (rooms : list RoomRow) (idx : gmap RoomDay (list Interval))
    (st : TwoWeek.State) (s : StudentShift) (z : string) :
  NoDup (room <$> rooms) →
  TwoWeek.zone_locked rooms idx st s = Some z →
  ∃ k,
    TwoWeek.emitted rooms idx st s
    = assignment_of s
        <$> take k (free_during idx s (TwoWeek.candidate rooms st z))
    ∧ (inject_Z (TwoWeek.EFFECTIVE_ROOM_CHECK_TIME * Z.of_nat k)
       <= usable_time s)%Q
    ∧ (k = length (free_during idx s (TwoWeek.candidate rooms st z))
       ∨ (usable_time s
          < inject_Z (TwoWeek.EFFECTIVE_ROOM_CHECK_TIME
                      * (Z.of_nat k + 1)))%Q)
    ∧ (∀ r r',
         r ∈ take k (free_during idx s (TwoWeek.candidate rooms st z)) →
         r' ∈ drop k (free_during idx s (TwoWeek.candidate rooms st z)) →
         room_leb r r' = true).
Proof.
  intros Hnd Hz. destruct (shift_body_locked rooms idx st s z Hz) as [Hpos Hb].
  unfold TwoWeek.emitted. rewrite Hb.
  destruct (two_week_loop_greedy idx s (TwoWeek.candidate rooms st z) 0 ∅ st)
    as (k & -> & Hk & Htime & Hstop).
  { by apply candidate_NoDup. }
  { intros r Hr. split; [set_solver|].
    by apply TwoWeekFacts.elem_of_candidate in Hr as (_ & _ & Hn). }
  exists k.
  rewrite TwoWeekFacts.two_week_assign_all_assignments, drop_app_length.
  rewrite !Z.add_0_l in *.
  split; [done|]. split; [by apply Htime, Qlt_le_weak|]. split; [done|].
  intros r r' Hr Hr'.
  apply (take_drop_sorted (λ a b, room_leb a b = true)
           (free_during idx s (TwoWeek.candidate rooms st z)) k r r');
    [|done|done].
  apply StronglySorted_filter, stable_sort_room_sorted.
Qed.

Lemma two_week_shift_greedy_witness :
  ∃ k,
    TwoWeek.emitted (H:=stable_argsort) Examples.three_rooms ∅
      TwoWeek.initial Examples.shift_8
    = assignment_of Examples.shift_8
        <$> take k (free_during ∅ Examples.shift_8
                      (TwoWeek.candidate Examples.three_rooms
                         TwoWeek.initial "Z"))
    ∧ (k = 3%nat
       ∨ (usable_time Examples.shift_8
          < inject_Z (TwoWeek.EFFECTIVE_ROOM_CHECK_TIME
                      * (Z.of_nat k + 1)))%Q).
Proof.
  destruct (two_week_shift_greedy (H:=stable_argsort) Examples.three_rooms
              ∅ TwoWeek.initial Examples.shift_8 "Z")
    as (k & Hnew & _ & Hstop & _).
  - vm_compute. repeat constructor; set_solver.
  - by vm_compute.
  - exists k. split; [exact Hnew|exact Hstop].
Defined.

(** X6. In the two-week room loop the test on [used_this_shift] never
    decides: started with any set of rooms that are already in
    [rooms_assigned_global], the loop ends in the same state as started
    with the empty set. *)
Theorem used_this_shift_redundant (idx : gmap RoomDay (list Interval))
    (student : StudentShift) (cands : list RoomRow) (time_used : Z)
    (used_this_shift : gset string) (st : TwoWeek.State) :
  used_this_shift ⊆ TwoWeek.rooms_assigned_global st →
  TwoWeek.rooms_loop idx student cands time_used used_this_shift st
  = TwoWeek.rooms_loop idx student cands time_used ∅ st.
Proof.
  intros Hused. apply two_week_loop_used_irrelevant; [done|set_solver].
Qed.

Lemma used_this_shift_redundant_witness :
  let st := TwoWeek.assign TwoWeek.initial Examples.shift_25 Examples.rA1 in
  TwoWeek.rooms_loop ∅ Examples.shift_25 Examples.three_rooms 5 {["A1"]} st
  = TwoWeek.rooms_loop ∅ Examples.shift_25 Examples.three_rooms 5 ∅ st.
Proof.
  intros st.
  apply (used_this_shift_redundant ∅ Examples.shift_25 Examples.three_rooms
           5 {["A1"]} st).
  vm_compute. set_solver.
Defined.

(** ** Shifts one after the other *)

(** X7. The records a shift appends come in the order of the candidates:
    by non-decreasing priority in the single-week script, by (priority,
    building, room) in the two-week script. *)
Theorem shift_records_in_candidate_order `{Argsort}
    (rooms : list RoomRow) (idx : gmap RoomDay (list Interval))
    (st1 : SingleWeek.State) (st2 : TwoWeek.State) (s : StudentShift) :
  StronglySorted (λ a b, Priority a ≤ Priority b)
    (SingleWeek.emitted true rooms idx st1 s)
  ∧ StronglySorted
      (λ a b, leb_of cmp_room_key (Priority a, (Building a, Room a))
                (Priority b, (Building b, Room b)) = true)
      (TwoWeek.emitted rooms idx st2 s).
Proof.
  split.
  - destruct (SingleWeekFacts.emitted_spec true rooms idx st1 s)
      as (picked & -> & _ & Hzone & _).
    apply (StronglySorted_fmap _ (λ a b, priority a ≤ priority b));
      [done|].
    destruct Hzone as [->|(z & _ & _ & Hsub)]; [constructor|].
    eapply StronglySorted_sublist; [exact Hsub|]. apply sort_values_sorted.
  - destruct (TwoWeekFacts.two_week_emitted_spec rooms idx st2 s)
      as (picked & -> & _ & Hzone & _).
    apply (StronglySorted_fmap _ (λ a b, room_leb a b = true)); [done|].
    destruct Hzone as [->|(z & _ & Hsub)]; [constructor|].
    eapply StronglySorted_sublist; [exact Hsub|].
    apply stable_sort_room_sorted.
Qed.

Lemma two_week_Inv_foldl `{Argsort} rooms idx students st :
  TwoWeekFacts.Inv st →
  TwoWeekFacts.Inv (foldl (TwoWeek.shift_body rooms idx) st students).
Proof.
  revert st. induction students as [|s students IH]; intros st Hst; [done|].
  simpl. by apply IH, TwoWeekFacts.two_week_Inv_shift_body.
Qed.

(** X8. Shifts added at the end of the list change nothing of what the
    earlier shifts were given: the records of the shorter run are the
    first records of the longer one, and its assigned rooms stay
    assigned. *)
Theorem more_shifts_extend_the_run `{Argsort}
    (rooms : list RoomRow) (idx : gmap RoomDay (list Interval))
    (students more : list StudentShift) :
  (SingleWeek.assignments (SingleWeek.run true rooms idx students)
     `prefix_of`
     SingleWeek.assignments (SingleWeek.run true rooms idx (students ++ more))
   ∧ SingleWeek.rooms_assigned (SingleWeek.run true rooms idx students)
     ⊆ SingleWeek.rooms_assigned
         (SingleWeek.run true rooms idx (students ++ more)))
  ∧ (TwoWeek.assignments_base (TwoWeek.run rooms idx students)
       `prefix_of`
       TwoWeek.assignments_base (TwoWeek.run rooms idx (students ++ more))
     ∧ TwoWeek.rooms_assigned_global (TwoWeek.run rooms idx students)
       ⊆ TwoWeek.rooms_assigned_global
           (TwoWeek.run rooms idx (students ++ more))).
Proof.
  split.
  - assert (SingleWeek.assignments (SingleWeek.run true rooms idx students)
              `prefix_of`
              SingleWeek.assignments
                (SingleWeek.run true rooms idx (students ++ more))) as Hp.
    { unfold SingleWeek.run at 2. rewrite foldl_app.
      rewrite SingleWeekFacts.foldl_assignments_trace. by eexists. }
    split; [done|].
    rewrite (SingleWeekFacts.inv_assigned rooms _
               (SingleWeekFacts.Inv_run rooms idx true students)).
    rewrite (SingleWeekFacts.inv_assigned rooms _
               (SingleWeekFacts.Inv_run rooms idx true (students ++ more))).
    destruct Hp as [l ->]. rewrite fmap_app, list_to_set_app_L. set_solver.
  - assert (TwoWeek.assignments_base (TwoWeek.run rooms idx students)
              `prefix_of`
              TwoWeek.assignments_base
                (TwoWeek.run rooms idx (students ++ more))) as Hp.
    { unfold TwoWeek.run at 2. rewrite foldl_app.
      rewrite TwoWeekFacts.two_week_foldl_assignments_trace. by eexists. }
    split; [done|].
    rewrite (TwoWeekFacts.inv_assigned _
               (TwoWeekFacts.two_week_Inv_run rooms idx students)).
    rewrite (TwoWeekFacts.inv_assigned _
               (TwoWeekFacts.two_week_Inv_run rooms idx (students ++ more))).
    destruct Hp as [l ->]. rewrite fmap_app, list_to_set_app_L. set_solver.
Qed.

Section NothingLeft.
Context `{Argsort}.
Variable rooms : list RoomRow.
Variable idx : gmap RoomDay (list Interval).

Lemma single_week_shift_skipped week_check st s :
  (usable_time s <= 0)%Q
  ∨ (∀ r, r ∈ rooms → room r ∈ SingleWeek.rooms_assigned st) →
  SingleWeek.shift_body week_check rooms idx st s = st.
Proof.
  intros Hskip. unfold SingleWeek.shift_body.
  destruct (Qlt_le_dec 0 (usable_time s)) as [Hpos|_]; [|done].
  destruct Hskip as [Hle|Hall]; [exfalso; by apply (Qlt_not_le _ _ Hpos)|].
  rewrite SingleWeekFacts.zone_chosen_head.
  by rewrite (proj2 (zone_scores_index_nil rooms _) Hall).
Qed.

Lemma two_week_shift_skipped st s :
  (usable_time s <= 0)%Q
  ∨ (∀ r, r ∈ rooms → room r ∈ TwoWeek.rooms_assigned_global st) →
  TwoWeek.shift_body rooms idx st s = st.
Proof.
  intros Hskip. unfold TwoWeek.shift_body, TwoWeek.shift_result.
  destruct (Qlt_le_dec 0 (usable_time s)) as [Hpos|_]; [|done].
  destruct Hskip as [Hle|Hall]; [exfalso; by apply (Qlt_not_le _ _ Hpos)|].
  by rewrite (proj2 (zone_scores_index_nil rooms _) Hall).
Qed.

End NothingLeft.

(** X9. A shift with no usable minute, and any shift once every room of
    the inventory is assigned, leaves the state of the run as it is; so
    after the last room is assigned no further shift adds a record. *)
Theorem nothing_left_to_assign `{Argsort}
    (rooms : list RoomRow) (idx : gmap RoomDay (list Interval))
    (st1 : SingleWeek.State) (st2 : TwoWeek.State) (s : StudentShift)
    (more : list StudentShift) :
  ((usable_time s <= 0)%Q →
   SingleWeek.shift_body true rooms idx st1 s = st1
   ∧ TwoWeek.shift_body rooms idx st2 s = st2)
  ∧ ((∀ r, r ∈ rooms → room r ∈ SingleWeek.rooms_assigned st1) →
     foldl (SingleWeek.shift_body true rooms idx) st1 more = st1)
  ∧ ((∀ r, r ∈ rooms → room r ∈ TwoWeek.rooms_assigned_global st2) →
     foldl (TwoWeek.shift_body rooms idx) st2 more = st2).
Proof.
  split; [|split].
  - intros Hle. split.
    + apply single_week_shift_skipped. by left.
    + apply two_week_shift_skipped. by left.
  - intros Hall. induction more as [|s' more IH]; [done|]. simpl.
    rewrite single_week_shift_skipped by (by right). exact IH.
  - intros Hall. induction more as [|s' more IH]; [done|]. simpl.
    rewrite two_week_shift_skipped by (by right). exact IH.
Qed.

(** One room, two shifts: the second finds nothing left. *)
Lemma nothing_left_to_assign_witness :
  let st :=
    SingleWeek.run (H:=stable_argsort) true [Examples.rA1] ∅
      [Examples.shift_25] in
  foldl (SingleWeek.shift_body (H:=stable_argsort) true [Examples.rA1] ∅) st
    [Examples.shift_late] = st.
Proof.
  intros st.
  apply (nothing_left_to_assign (H:=stable_argsort) [Examples.rA1] ∅ st
           TwoWeek.initial Examples.shift_late [Examples.shift_late]).
  intros r Hr. apply list_elem_of_singleton in Hr as ->.
  vm_compute. set_solver.
Defined.

(** ** Where the records come from *)

Section Provenance.
Context `{Argsort}.
Variable rooms : list RoomRow.
Variable idx : gmap RoomDay (list Interval).

Lemma single_week_foldl_provenance students st a :
  a ∈ SingleWeek.assignments
        (foldl (SingleWeek.shift_body true rooms idx) st students) →
  a ∈ SingleWeek.assignments st
  ∨ ∃ s r, s ∈ students ∧ r ∈ rooms ∧ a = assignment_of s r.
Proof.
  revert st. induction students as [|s students IH]; intros st; simpl.
  - by left.
  - intros Ha. destruct (IH _ Ha) as [Hin|(s' & r & Hs' & Hr & ->)].
    + rewrite SingleWeekFacts.shift_body_assignments in Hin.
      apply elem_of_app in Hin as [Hin|Hin]; [by left|right].
      destruct (SingleWeekFacts.emitted_spec true rooms idx st s)
        as (picked & Hnew & _ & Hzone & _).
      rewrite Hnew in Hin. apply list_elem_of_fmap in Hin as (r & -> & Hr).
      exists s, r. split; [by left|]. split; [|done].
      destruct Hzone as [->|(z & _ & _ & Hsub)];
        [by apply elem_of_nil in Hr|].
      by apply (SingleWeekFacts.picked_in_zone rooms st z picked r Hsub Hr).
    + right. exists s', r. split; [by right|done].
Qed.

Lemma two_week_foldl_provenance students st a :
  a ∈ TwoWeek.assignments_base
        (foldl (TwoWeek.shift_body rooms idx) st students) →
  a ∈ TwoWeek.assignments_base st
  ∨ ∃ s r, s ∈ students ∧ r ∈ rooms ∧ a = assignment_of s r.
Proof.
  revert st. induction students as [|s students IH]; intros st; simpl.
  - by left.
  - intros Ha. destruct (IH _ Ha) as [Hin|(s' & r & Hs' & Hr & ->)].
    + rewrite TwoWeekFacts.two_week_shift_body_assignments in Hin.
      apply elem_of_app in Hin as [Hin|Hin]; [by left|right].
      destruct (TwoWeekFacts.two_week_emitted_spec rooms idx st s)
        as (picked & Hnew & _ & Hzone & _).
      rewrite Hnew in Hin. apply list_elem_of_fmap in Hin as (r & -> & Hr).
      exists s, r. split; [by left|]. split; [|done].
      destruct Hzone as [->|(z & _ & Hsub)];
        [by apply elem_of_nil in Hr|].
      by apply (TwoWeekFacts.two_week_picked_in_zone rooms st z picked r
                  Hsub Hr).
    + right. exists s', r. split; [by right|done].
Qed.

(** A record of [df_out] is a record of [df_base] that has a student
    name, with its day followed by the week. *)
Lemma elem_of_week_split df_base a :
  a ∈ TwoWeek.week_split df_base →
  ∃ b name w, b ∈ df_base ∧ Student b = Some name
    ∧ (w = " 1" ∨ w = " 2") ∧ a = TwoWeek.relabel b (Day b +:+ w).
Proof.
  rewrite WeekSplitFacts.week_split_eq, list_elem_of_bind.
  intros ([name d] & Ha & _). apply elem_of_app in Ha as [Ha|Ha].
  - apply list_elem_of_fmap in Ha as (b & -> & Hb).
    apply (sublist_subseteq _ _ (sublist_take _ _)) in Hb.
    apply list_elem_of_filter in Hb as [[Hs Hd] Hb]. simpl in *.
    exists b, name, " 1". rewrite Hd. by repeat split; try left.
  - apply list_elem_of_fmap in Ha as (b & -> & Hb).
    apply (sublist_subseteq _ _ (sublist_drop _ _)) in Hb.
    apply list_elem_of_filter in Hb as [[Hs Hd] Hb]. simpl in *.
    exists b, name, " 2". rewrite Hd. by repeat split; try right.
Qed.

End Provenance.

(** X10. Every record written pairs a shift of the student table with a
    row of the room table: its student, day and shift times are those of
    the shift, its room, building, zone, priority and type those of the
    row.  In the two-week table the student has a name and the day is the
    shift's day followed by the week, 1 or 2. *)
Theorem records_come_from_the_tables `{Argsort}
    (rooms : list RoomRow) (idx : gmap RoomDay (list Interval))
    (students : list StudentShift) (a : Assignment) :
  (a ∈ SingleWeek.assignments (SingleWeek.run true rooms idx students) →
   ∃ s r, s ∈ students ∧ r ∈ rooms ∧ a = assignment_of s r)
  ∧ (a ∈ TwoWeek.output rooms idx students →
     ∃ s r name w, s ∈ students ∧ r ∈ rooms ∧ person s = Some name
       ∧ (w = " 1" ∨ w = " 2")
       ∧ a = TwoWeek.relabel (assignment_of s r) (weekday s +:+ w)).
Proof.
  split.
  - intros Ha. apply single_week_foldl_provenance in Ha as [Ha|Ha]; [|done].
    by apply elem_of_nil in Ha.
  - unfold TwoWeek.output. rewrite stable_sort_perm. intros Ha.
    apply elem_of_week_split in Ha as (b & name & w & Hb & Hs & Hw & ->).
    apply two_week_foldl_provenance in Hb as [Hb|(s & r & Hs' & Hr & ->)];
      [by apply elem_of_nil in Hb|].
    by exists s, r, name, w.
Qed.

Lemma records_come_from_the_tables_witness :
  ∃ s r, s ∈ [Examples.shift_25] ∧ r ∈ Examples.three_rooms
    ∧ assignment_of Examples.shift_25 Examples.rC1 = assignment_of s r.
Proof.
  apply (records_come_from_the_tables (H:=stable_argsort)
           Examples.three_rooms ∅ [Examples.shift_25]
           (assignment_of Examples.shift_25 Examples.rC1)).
  vm_compute. apply list_elem_of_further, list_elem_of_here.
Defined.

(** ** The zone that is chosen *)

Section BestZone.
Context `{Argsort}.
Variable rooms : list RoomRow.

Lemma head_zone_is_best assigned z z' r :
  head (zone_scores rooms assigned).*1 = Some z →
  r ∈ rooms → zone r = z' → room r ∉ assigned →
  high_priority_left rooms assigned z'
  ≤ high_priority_left rooms assigned z.
Proof.
  intros Hhead Hr Hz' Hn.
  assert (z' ∈ (zone_scores rooms assigned).*1) as Hin
    by (apply elem_of_zone_scores_index; by exists r).
  pose proof (zone_scores_sorted rooms assigned) as Hs.
  pose proof (zone_scores_score rooms assigned) as Hscore.
  destruct (zone_scores rooms assigned) as [|[z0 n0] l]; [done|].
  simpl in Hhead. injection Hhead as ->.
  apply list_elem_of_fmap in Hin as ([z1 n1] & -> & Hin). simpl.
  unfold high_priority_left.
  rewrite <- (Hscore z n0) by (by left). rewrite <- (Hscore z1 n1) by done.
  apply elem_of_cons in Hin as [[= -> ->]|Hin]; [done|].
  apply StronglySorted_inv in Hs as [_ Hall].
  rewrite Forall_forall in Hall. by apply (Hall (z1, n1)).
Qed.

End BestZone.

(** X11. The zone a shift works in is one with the most unassigned rooms
    of priority 1 or 2: no zone that still has an unassigned room has more
    of them than the zone chosen (single week) or locked (two weeks). *)
Theorem chosen_zone_has_most_high_priority `{Argsort}
    (rooms : list RoomRow) (idx : gmap RoomDay (list Interval))
    (st1 : SingleWeek.State) (st2 : TwoWeek.State) (s : StudentShift)
    (z z' : string) (r : RoomRow) :
  r ∈ rooms → zone r = z' →
  (SingleWeek.zone_chosen rooms st1 = Some z →
   room r ∉ SingleWeek.rooms_assigned st1 →
   high_priority_left rooms (SingleWeek.rooms_assigned st1) z'
   ≤ high_priority_left rooms (SingleWeek.rooms_assigned st1) z)
  ∧ (TwoWeek.zone_locked rooms idx st2 s = Some z →
     room r ∉ TwoWeek.rooms_assigned_global st2 →
     high_priority_left rooms (TwoWeek.rooms_assigned_global st2) z'
     ≤ high_priority_left rooms (TwoWeek.rooms_assigned_global st2) z).
Proof.
  intros Hr Hz'. split.
  - rewrite SingleWeekFacts.zone_chosen_head. intros Hhead Hn.
    by apply (head_zone_is_best rooms _ z z' r).
  - intros Hlocked Hn.
    destruct (shift_body_locked rooms idx st2 s z Hlocked) as [Hpos _].
    rewrite TwoWeekFacts.zone_locked_head in Hlocked by done.
    by apply (head_zone_is_best rooms _ z z' r).
Qed.

Lemma chosen_zone_has_most_high_priority_witness :
  let rooms :=
    Examples.three_rooms ++ [clean_room "Y1" "Y" (Some 1) "Classroom"] in
  high_priority_left rooms ∅ "Y" ≤ high_priority_left rooms ∅ "Z".
Proof.
  intros rooms.
  destruct (chosen_zone_has_most_high_priority (H := stable_argsort) rooms ∅
              SingleWeek.initial TwoWeek.initial
              Examples.shift_25 "Z" "Y"
              (clean_room "Y1" "Y" (Some 1) "Classroom")) as [Hsingle _].
  - subst rooms. set_solver.
  - by vm_compute.
  - apply Hsingle; [by vm_compute|]. simpl. set_solver.
Defined.

(** ** What the tables written add up to *)

(** X12. With every room name listed once, the single-week script
    accounts for each room exactly once: the rooms of the assignment
    records followed by the rooms of the unchecked table are the room
    names of the inventory, rearranged; so the two tables have as many
    rows together as the inventory. *)
Theorem every_room_assigned_or_unchecked `{Argsort}
    (rooms : list RoomRow) (idx : gmap RoomDay (list Interval))
    (students : list StudentShift) :
  NoDup (room <$> rooms) →
  let st := SingleWeek.run true rooms idx students in
  (Room <$> SingleWeek.assignments st)
    ++ (room <$> SingleWeek.unchecked_df rooms st)
    ≡ₚ room <$> rooms
  ∧ (length (SingleWeek.assignments st)
     + length (SingleWeek.unchecked_df rooms st) = length rooms)%nat.
Proof.
  intros Hnd st.
  destruct (SingleWeekFacts.Inv_run rooms idx true students)
    as [Hassigned Hinv _].
  fold st in Hassigned, Hinv.
  assert (∀ r, r ∈ SingleWeek.unchecked_df rooms st
               ↔ r ∈ rooms ∧ room r ∉ SingleWeek.rooms_assigned st) as Hrows.
  { intros r. unfold SingleWeek.unchecked_df.
    rewrite stable_sort_perm, drop_duplicates_elem_of, list_elem_of_filter.
    rewrite elem_of_difference, elem_of_list_to_set. split.
    - by intros [[_ Hn] Hr].
    - intros [Hr Hn]. split; [|done]. split; [|done].
      by apply list_elem_of_fmap_2. }
  assert ((Room <$> SingleWeek.assignments st)
            ++ (room <$> SingleWeek.unchecked_df rooms st)
            ≡ₚ room <$> rooms) as Hperm.
  { apply NoDup_Permutation; [|done|].
    - apply NoDup_app. split; [|split].
      + apply SingleWeekFacts.NoDup_foldl;
          [apply SingleWeekFacts.Inv_initial|constructor].
      + intros x Hx Hx'. apply list_elem_of_fmap in Hx' as (r & -> & Hr).
        apply Hrows in Hr as [_ Hn]. apply Hn. rewrite Hassigned.
        by apply elem_of_list_to_set.
      + apply NoDup_fmap_2_strong.
        * intros x y Hx Hy Heq. apply Hrows in Hx as [Hx _], Hy as [Hy _].
          by apply (WeekSplitFacts.NoDup_fmap_eq room rooms).
        * unfold SingleWeek.unchecked_df. rewrite stable_sort_perm.
          apply drop_duplicates_NoDup.
    - intros x. rewrite elem_of_app. split.
      + intros [Hx|Hx].
        * assert (x ∈ SingleWeek.rooms_assigned st) as Hin
            by (rewrite Hassigned; by apply elem_of_list_to_set).
          apply Hinv in Hin. by apply elem_of_list_to_set in Hin.
        * apply list_elem_of_fmap in Hx as (r & -> & Hr).
          apply Hrows in Hr as [Hr _]. by apply list_elem_of_fmap_2.
      + intros Hx. apply list_elem_of_fmap in Hx as (r & -> & Hr).
        destruct (decide (room r ∈ SingleWeek.rooms_assigned st))
          as [Hin|Hn].
        * left. rewrite Hassigned in Hin. by apply elem_of_list_to_set in Hin.
        * right. apply list_elem_of_fmap_2. by apply Hrows. }
  split; [done|].
  apply Permutation_length in Hperm.
  by rewrite length_app, !length_fmap in Hperm.
Qed.

Lemma every_room_assigned_or_unchecked_witness :
  let st :=
    SingleWeek.run (H:=stable_argsort) true Examples.three_rooms ∅
      [Examples.shift_25] in
  (length (SingleWeek.assignments st)
   + length (SingleWeek.unchecked_df Examples.three_rooms st) = 3)%nat.
Proof.
  intros st.
  apply (every_room_assigned_or_unchecked (H:=stable_argsort)
           Examples.three_rooms ∅ [Examples.shift_25]).
  vm_compute. repeat constructor; set_solver.
Defined.

Lemma cmp_output_key_ok : cmp_ok TwoWeek.cmp_output_key.
Proof.
  unfold TwoWeek.cmp_output_key.
  repeat first
    [ apply cmp_pair_ok | apply cmp_nan_last_ok
    | apply Z_compare_ok | apply string_compare_ok ].
Qed.

Lemma rooms_of_week_split `{Argsort} (df_base : list Assignment) :
  NoDup (Room <$> df_base) →
  Room <$> TwoWeek.week_split df_base
  ≡ₚ Room <$> filter (λ a, is_Some (Student a)) df_base.
Proof.
  intros Hnd. apply NoDup_Permutation.
  - by apply WeekSplitFacts.week_split_NoDup.
  - eapply sublist_NoDup; [exact Hnd|]. apply fmap_sublist, sublist_filter.
  - intros x. split.
    + intros Hx. apply list_elem_of_fmap in Hx as (a & -> & Ha).
      apply elem_of_week_split in Ha as (b & name & w & Hb & Hs & _ & ->).
      apply (list_elem_of_fmap_2' _ _ b); [|done].
      apply list_elem_of_filter. split; [|done]. by rewrite Hs.
    + intros Hx. apply list_elem_of_fmap in Hx as (b & -> & Hb).
      apply list_elem_of_filter in Hb as [[name Hs] Hb].
      rewrite WeekSplitFacts.week_split_rooms. apply list_elem_of_bind.
      exists (name, Day b). split.
      * apply list_elem_of_fmap_2, list_elem_of_filter. by split.
      * by apply WeekSplitFacts.elem_of_group_keys.
Qed.

(** X13. The table the two-week script writes is in (student, day,
    priority, building, room) order; its rooms are the rooms given to the
    shifts that have a student name, each once; so when every shift has a
    student name the table has one row for each assignment made. *)
Theorem two_week_table_keeps_named_assignments `{Argsort}
    (rooms : list RoomRow) (idx : gmap RoomDay (list Interval))
    (students : list StudentShift) :
  let df_base := TwoWeek.assignments_base (TwoWeek.run rooms idx students) in
  StronglySorted (λ a b, TwoWeek.output_leb a b = true)
    (TwoWeek.output rooms idx students)
  ∧ Room <$> TwoWeek.output rooms idx students
    ≡ₚ Room <$> filter (λ a, is_Some (Student a)) df_base
  ∧ ((∀ s, s ∈ students → is_Some (person s)) →
     length (TwoWeek.output rooms idx students) = length df_base).
Proof.
  intros df_base.
  assert (Room <$> TwoWeek.output rooms idx students
          ≡ₚ Room <$> filter (λ a, is_Some (Student a)) df_base) as Hperm.
  { unfold TwoWeek.output. rewrite stable_sort_perm.
    apply rooms_of_week_split.
    apply TwoWeekFacts.inv_NoDup, TwoWeekFacts.two_week_Inv_run. }
  split; [|split; [done|]].
  - apply stable_sort_sorted.
    + intros a b.
      exact (leb_of_total _ cmp_output_key_ok (TwoWeek.output_key a)
               (TwoWeek.output_key b)).
    + intros a b c.
      exact (leb_of_trans _ cmp_output_key_ok (TwoWeek.output_key a)
               (TwoWeek.output_key b) (TwoWeek.output_key c)).
  - intros Hnamed. apply Permutation_length in Hperm.
    rewrite !length_fmap in Hperm. rewrite Hperm. f_equal.
    apply filter_all, Forall_forall. intros a Ha.
    apply two_week_foldl_provenance in Ha as [Ha|(s & r & Hs & _ & ->)];
      [by apply elem_of_nil in Ha|].
    simpl. by apply Hnamed.
Qed.

Lemma two_week_table_keeps_named_assignments_witness :
  length (TwoWeek.output (H:=stable_argsort) Examples.three_rooms ∅
            [Examples.shift_25])
  = length (TwoWeek.assignments_base
              (TwoWeek.run (H:=stable_argsort) Examples.three_rooms ∅
                 [Examples.shift_25])).
Proof.
  apply (two_week_table_keeps_named_assignments (H:=stable_argsort)
           Examples.three_rooms ∅ [Examples.shift_25]).
  intros s Hs. apply list_elem_of_singleton in Hs as ->. by eexists.
Defined.

(** ** The string helpers of the cleaning steps *)

Lemma drop_spaces_head (l : list ascii) :
  match drop_spaces l with
  | [] => True
  | c :: _ => is_space c = false
  end.
Proof.
  induction l as [|c l IH]; simpl; [done|].
  destruct (is_space c) eqn:Hc; [done|]. exact Hc.
Qed.

Lemma drop_spaces_suffix (l : list ascii) : drop_spaces l `suffix_of` l.
Proof.
  induction l as [|c l IH]; simpl; [done|].
  destruct (is_space c); [by apply suffix_cons_r|done].
Qed.

Lemma drop_spaces_fixed (l : list ascii) :
  match l with [] => True | c :: _ => is_space c = false end →
  drop_spaces l = l.
Proof. destruct l as [|c l]; simpl; [done|]. by intros ->. Qed.

Lemma drop_spaces_split (l : list ascii) :
  ∃ before, l = before ++ drop_spaces l
    ∧ Forall (λ c, is_space c = true) before.
Proof.
  induction l as [|c l IH]; simpl; [by exists []|].
  destruct (is_space c) eqn:Hc; [|by exists []].
  destruct IH as (before & Hl & Hb). exists (c :: before).
  split; [by rewrite <- app_comm_cons, <- Hl|by constructor].
Qed.

Lemma str_strip_list (s : string) :
  String.list_ascii_of_string (str_strip s)
  = strip_list (String.list_ascii_of_string s).
Proof.
  unfold str_strip. by rewrite String.list_ascii_of_string_of_list_ascii.
Qed.

(** Neither end of a stripped list is a blank. *)
Lemma strip_list_ends (l : list ascii) :
  match strip_list l with [] => True | c :: _ => is_space c = false end
  ∧ match reverse (strip_list l) with
    | [] => True
    | c :: _ => is_space c = false
    end.
Proof.
  unfold strip_list. rewrite reverse_involutive.
  split; [|apply drop_spaces_head].
  pose proof (drop_spaces_head l) as Hhead.
  pose proof (drop_spaces_suffix (reverse (drop_spaces l))) as [pre Hsuf].
  destruct (reverse (drop_spaces (reverse (drop_spaces l)))) as [|c r] eqn:Hm;
    [done|].
  apply (f_equal reverse) in Hm. rewrite reverse_involutive in Hm.
  rewrite Hm in Hsuf. apply (f_equal reverse) in Hsuf.
  rewrite reverse_involutive, reverse_app, reverse_involutive in Hsuf.
  rewrite Hsuf in Hhead. exact Hhead.
Qed.

Lemma strip_list_idempotent (l : list ascii) :
  strip_list (strip_list l) = strip_list l.
Proof.
  destruct (strip_list_ends l) as [Hhead Hlast].
  unfold strip_list at 1.
  rewrite (drop_spaces_fixed _ Hhead), (drop_spaces_fixed _ Hlast).
  apply reverse_involutive.
Qed.

(** X14. [strip] removes the blanks at both ends and nothing else: what it
    returns neither starts nor ends with a blank, stripping again changes
    nothing, and the result is a piece of the text as it stood. *)
Theorem str_strip_stripped (s : string) :
  str_strip (str_strip s) = str_strip s
  ∧ (∀ c rest, str_strip s = String c rest → is_space c = false)
  ∧ (∀ c rest,
       String.list_ascii_of_string (str_strip s) = rest ++ [c] →
       is_space c = false)
  ∧ ∃ before after,
      String.list_ascii_of_string s
      = before ++ String.list_ascii_of_string (str_strip s) ++ after
      ∧ Forall (λ c, is_space c = true) before
      ∧ Forall (λ c, is_space c = true) after.
Proof.
  split; [|split; [|split]].
  - apply list_ascii_of_string_inj.
    by rewrite !str_strip_list, strip_list_idempotent.
  - intros c rest Heq.
    pose proof (proj1 (strip_list_ends (String.list_ascii_of_string s)))
      as Hhead.
    by rewrite <- str_strip_list, Heq in Hhead.
  - intros c rest Heq.
    pose proof (proj2 (strip_list_ends (String.list_ascii_of_string s)))
      as Hlast.
    by rewrite <- str_strip_list, Heq, reverse_snoc in Hlast.
  - rewrite str_strip_list. unfold strip_list.
    generalize (String.list_ascii_of_string s). intros l.
    destruct (drop_spaces_split l) as (before & Hl & Hb).
    destruct (drop_spaces_split (reverse (drop_spaces l)))
      as (pre & Hpre & Hp).
    exists before, (reverse pre). split; [|split; [done|]].
    + rewrite <- reverse_app, <- Hpre, reverse_involutive. exact Hl.
    + by apply Forall_reverse.
Qed.

Lemma string_of_list_ascii_app (l1 l2 : list ascii) :
  String.string_of_list_ascii (l1 ++ l2)
  = String.string_of_list_ascii l1 +:+ String.string_of_list_ascii l2.
Proof. induction l1 as [|c l1 IH]; simpl; [done|by rewrite IH]. Qed.

Lemma take_upper_split (l : list ascii) :
  ∃ rest, l = take_upper l ++ rest
    ∧ Forall (λ c, is_upper c = true) (take_upper l)
    ∧ match rest with [] => True | c :: _ => is_upper c = false end.
Proof.
  induction l as [|c l IH]; simpl; [by exists []|].
  destruct (is_upper c) eqn:Hc.
  - destruct IH as (rest & Hl & Hup & Hrest). exists rest.
    split; [by rewrite <- app_comm_cons, <- Hl|]. split; [by constructor|done].
  - exists (c :: l). by repeat split.
Qed.

(** X15. The building of a room name is its run of leading capital
    letters: when there is one it is not empty, the name starts with it,
    it holds capitals only and the next character is not a capital; there
    is none exactly when the name is empty or starts with another
    character. *)
Theorem extract_building_leading_capitals (name : string) :
  match extract_building name with
  | Some b =>
      b ≠ ""
      ∧ ∃ rest, name = b +:+ rest
          ∧ Forall (λ c, is_upper c = true) (String.list_ascii_of_string b)
          ∧ (∀ c rest', rest = String c rest' → is_upper c = false)
  | None => ∀ c rest, name = String c rest → is_upper c = false
  end.
Proof.
  unfold extract_building.
  destruct (take_upper_split (String.list_ascii_of_string name))
    as (rest & Hl & Hup & Hrest).
  destruct (take_upper (String.list_ascii_of_string name)) as [|c l] eqn:Ht.
  - intros c rest' ->. simpl in Hl. rewrite <- Hl in Hrest. exact Hrest.
  - split; [done|]. exists (String.string_of_list_ascii rest).
    split; [|split].
    + rewrite <- string_of_list_ascii_app, <- Hl.
      by rewrite String.string_of_list_ascii_of_string.
    + by rewrite String.list_ascii_of_string_of_list_ascii.
    + intros c' rest' Heq. destruct rest as [|c'' rest'']; [done|].
      simpl in Heq. by injection Heq as -> _.
Qed.

Lemma split_commas_nonempty cur l : split_commas cur l ≠ [].
Proof.
  revert cur. induction l as [|c l IH]; intros cur; simpl; [done|].
  destruct (Ascii.eqb c ","); [done|apply IH].
Qed.

Lemma concat_cons_nonempty (sep x : string) (l : list string) :
  l ≠ [] → String.concat sep (x :: l) = x +:+ sep +:+ String.concat sep l.
Proof. by destruct l. Qed.

Lemma split_commas_cons cur c l :
  split_commas cur (c :: l)
  = if Ascii.eqb c ","
    then String.string_of_list_ascii (reverse cur) :: split_commas [] l
    else split_commas (c :: cur) l.
Proof. reflexivity. Qed.

Lemma split_commas_concat cur l :
  String.concat "," (split_commas cur l)
  = String.string_of_list_ascii (reverse cur ++ l).
Proof.
  revert cur. induction l as [|c l IH]; intros cur.
  - simpl. by rewrite app_nil_r.
  - rewrite split_commas_cons. destruct (Ascii.eqb_spec c ",") as [->|Hne].
    + rewrite concat_cons_nonempty by apply split_commas_nonempty.
      rewrite (IH []). change (reverse [] ++ l) with l.
      rewrite string_of_list_ascii_app. reflexivity.
    + rewrite IH, reverse_cons, <- app_assoc. reflexivity.
Qed.

Lemma split_commas_no_comma cur l piece :
  ","%char ∉ cur → piece ∈ split_commas cur l →
  ","%char ∉ String.list_ascii_of_string piece.
Proof.
  revert cur. induction l as [|c l IH]; intros cur Hcur; simpl.
  - intros Hp. apply list_elem_of_singleton in Hp as ->.
    rewrite String.list_ascii_of_string_of_list_ascii.
    by rewrite elem_of_reverse.
  - destruct (Ascii.eqb_spec c ",") as [->|Hne].
    + intros [->|Hp]%elem_of_cons.
      * rewrite String.list_ascii_of_string_of_list_ascii.
        by rewrite elem_of_reverse.
      * apply (IH []); [|done]. by intros ?%elem_of_nil.
    + apply IH. intros [Heq|Hin]%elem_of_cons; [by apply Hne|done].
Qed.

(** X16. Splitting a list of locations at the commas loses nothing: there
    is always at least one piece, no piece holds a comma, and the pieces
    joined by commas are the text that was split. *)
Theorem str_split_comma_round_trip (s : string) :
  str_split_comma s ≠ []
  ∧ (∀ piece, piece ∈ str_split_comma s →
       ","%char ∉ String.list_ascii_of_string piece)
  ∧ String.concat "," (str_split_comma s) = s.
Proof.
  unfold str_split_comma. split; [apply split_commas_nonempty|]. split.
  - intros piece. apply split_commas_no_comma. by intros ?%elem_of_nil.
  - rewrite split_commas_concat. simpl.
    apply String.string_of_list_ascii_of_string.
Qed.

(** X17. The shift times written keep the hour and the minute of the day
    only: five characters with a colon in the middle, the same for two
    timestamps that fall in the same minute of the day, whatever the
    date. *)
Theorem strftime_HM_minute_of_day (ts ts' : Z) :
  String.length (strftime_HM ts) = 5%nat
  ∧ String.get 2 (strftime_HM ts) = Some ":"%char
  ∧ ((ts / 60000000000) mod 1440 = (ts' / 60000000000) mod 1440 →
     strftime_HM ts = strftime_HM ts')
  ∧ strftime_HM (ts + 86400000000000) = strftime_HM ts.
Proof.
  assert (∀ t t', (t / 60000000000) mod 1440 = (t' / 60000000000) mod 1440 →
            strftime_HM t = strftime_HM t') as Hsame.
  { intros t t' Hm. unfold strftime_HM.
    assert (((t / 1000000000) / 3600) mod 24
            = ((t' / 1000000000) / 3600) mod 24) as ->
      by (Z.div_mod_to_equations; lia).
    assert (((t / 1000000000) / 60) mod 60
            = ((t' / 1000000000) / 60) mod 60) as ->
      by (Z.div_mod_to_equations; lia).
    done. }
  split; [done|]. split; [done|]. split; [apply Hsame|].
  apply Hsame. Z.div_mod_to_equations. lia.
Qed.

Lemma strftime_HM_minute_of_day_witness :
  strftime_HM (Examples.monday_at 9 30)
  = strftime_HM (Examples.monday_at 9 30 + 7 * 86400000000000 + 59000000000).
Proof.
  destruct (strftime_HM_minute_of_day (Examples.monday_at 9 30)
              (Examples.monday_at 9 30 + 7 * 86400000000000 + 59000000000))
    as (_ & _ & Hsame & _).
  apply Hsame. by vm_compute.
Defined.

(** ** The scripts on the tables as read *)

Lemma student_day_map_weekday d w :
  student_day_map d = Some w → w ∈ weekdays.
Proof.
  unfold student_day_map, weekdays.
  repeat (destruct (String.eqb d _); [intros [= <-]; set_solver|]).
  done.
Qed.

Lemma elem_of_clean_students rows s :
  s ∈ clean_students rows ↔
  ∃ row, row ∈ rows ∧ raw_start row = Some (start_dt s)
    ∧ raw_end row = Some (end_dt s)
    ∧ student_day_map (raw_day row) = Some (weekday s)
    ∧ raw_person row = person s.
Proof.
  unfold clean_students. rewrite list_elem_of_omap. split.
  - intros (row & Hrow & Hs). exists row. split; [done|].
    destruct (raw_start row), (raw_end row),
      (student_day_map (raw_day row)); try done.
    by injection Hs as <-.
  - intros (row & Hrow & Hst & Hen & Hd & Hp). exists row. split; [done|].
    rewrite Hst, Hen, Hd, Hp. by destruct s.
Qed.

Lemma elem_of_clean_rooms rows r :
  r ∈ clean_rooms rows →
  str_strip (room r) = room r ∧ str_strip (zone r) = zone r
  ∧ building r = extract_building (room r).
Proof.
  unfold clean_rooms. intros (row & -> & _)%list_elem_of_fmap. simpl.
  split; [apply str_strip_stripped|]. split; [apply str_strip_stripped|done].
Qed.

(** X18. Every record the scripts write is well formed: its day is one
    of the five weekday names (followed by the week, 1 or 2, in the
    two-week table, where the student has a name); its room and zone have
    no blank at either end; its building is the run of leading capitals
    of the room. *)
Theorem script_records_well_formed `{Argsort}
    (rooms_csv : list RoomCsvRow) (schedule : list ClassRow)
    (students_csv : list StudentRow) (a : Assignment) :
  (a ∈ (single_week_script rooms_csv schedule students_csv).1 →
   Day a ∈ weekdays
   ∧ str_strip (Room a) = Room a ∧ str_strip (Zone a) = Zone a
   ∧ Building a = extract_building (Room a))
  ∧ (a ∈ two_week_script rooms_csv schedule students_csv →
     (∃ d w, d ∈ weekdays ∧ (w = " 1" ∨ w = " 2") ∧ Day a = d +:+ w)
     ∧ is_Some (Student a)
     ∧ str_strip (Room a) = Room a ∧ str_strip (Zone a) = Zone a
     ∧ Building a = extract_building (Room a)).
Proof.
  split.
  - unfold single_week_script. simpl. intros Ha.
    apply single_week_foldl_provenance in Ha as [Ha|(s & r & Hs & Hr & ->)];
      [by apply elem_of_nil in Ha|].
    apply elem_of_clean_students in Hs as (row & _ & _ & _ & Hd & _).
    apply elem_of_clean_rooms in Hr as (Hroom & Hzone & Hb). simpl.
    split; [by eapply student_day_map_weekday|done].
  - unfold two_week_script, TwoWeek.output. rewrite stable_sort_perm.
    intros Ha.
    apply elem_of_week_split in Ha as (b & name & w & Hb & Hname & Hw & ->).
    apply two_week_foldl_provenance in Hb as [Hb|(s & r & Hs & Hr & ->)];
      [by apply elem_of_nil in Hb|].
    apply elem_of_clean_students in Hs as (row & _ & _ & _ & Hd & _).
    apply elem_of_clean_rooms in Hr as (Hroom & Hzone & Hbld). simpl in *.
    split; [|split; [by exists name|done]].
    exists (weekday s), w. split; [by eapply student_day_map_weekday|done].
Qed.

Lemma script_records_well_formed_witness :
  let shift :=
    {| person := Some "Ann"; weekday := "Monday";
       start_dt := Examples.monday_at 9 0;
       end_dt := Examples.monday_at 9 25 |} in
  let a := assignment_of shift (clean_room " A1 " "Z " (Some 1) "Lab") in
  Day a ∈ weekdays ∧ Building a = extract_building (Room a).
Proof.
  intros shift a.
  destruct (script_records_well_formed (H := stable_argsort)
              [{| complete_25live_room_name := " A1 "; zone_cell := "Z ";
                  priority_cell := Some 1; type_cell := "Lab" |}]
              [Examples.class_cancelled]
              [{| raw_person := Some "Ann"; raw_day := "M";
                  raw_start := Some (Examples.monday_at 9 0);
                  raw_end := Some (Examples.monday_at 9 25) |}] a)
    as [Hsingle _].
  destruct Hsingle as (Hday & _ & _ & Hbuilding); [|done].
  vm_compute. by left.
Defined.





(** X20. A room is in conflict with a shift under two schedules put
    together exactly when it is under one of them; so further class rows
    never free a room. *)
Theorem conflict_of_appended_schedules (s1 s2 : list ClassRow)
    (room_name day : string) (shift_start shift_end : Z) :
  has_conflict (schedule_by_room_day (s1 ++ s2)) room_name day
    shift_start shift_end
  = has_conflict (schedule_by_room_day s1) room_name day
      shift_start shift_end
    || has_conflict (schedule_by_room_day s2) room_name day
         shift_start shift_end.
Proof.
  unfold has_conflict.
  rewrite !schedule_by_room_day_lookup, explode_schedule_app.
  by rewrite filter_app, fmap_app, existsb_app.
Qed.
